(** * Path confinement, atomic writes, archives and versions of [filesystem.py]

    A shallow embedding of the [Tools] class of [src/filesystem.py]:
    [_resolve_under_restriction], [_get_relative_path], [_atomic_write],
    [_sanitize_archive_path], [compress_file], [decompress_file],
    [_decompress_archive], [save_file_version] and [restore_file_version],
    the constructor, [cwd], [create_folder], [delete_folder], [create_file],
    [write_to_file], [delete_file], [is_file], [is_directory] and
    [copy_file], together with the parts of [posixpath], [pathlib], [os] and
    [shutil] they call.

    Conventions.
    - Python [str] and [bytes] are [string]; [+:+] is concatenation.
    - A file system is a record: the working directory, a table of symbolic
      links and a table of nodes, both keyed by the list of components of an
      absolute path.
    - Code that raises returns [Raise e]; code that touches the disk takes a
      file system and returns the new one. Coroutines run to completion in
      program order.
    - An archive file holds the list of its members; the byte formats of
      [zipfile] and [tarfile] are not modelled.
    - Permissions, disk space and encodings are not modelled; where the
      source has a handler for such failures ([_atomic_write]) they are
      injected by an oracle. *)

From Stdlib Require Import Ascii String List ZArith Lia Bool.
From stdpp Require Import base option list gmap strings pretty.

Set Warnings "-register-all".

Local Open Scope string_scope.
Local Open Scope list_scope.

(** ** Python [str] methods used by the source *)

Module Str.

Definition sep : ascii := "/"%char.

(** [s.startswith(p)] *)
Definition startswith (s p : string) : bool := String.prefix p s.

(** [s.endswith(p)] *)
Definition endswith (s p : string) : bool :=
  let n := String.length s in
  let k := String.length p in
  (k <=? n)%nat && String.eqb (String.substring (n - k) k s) p.

(** [s.split("/")] : never empty, [""] for the empty string. *)
Fixpoint split (s : string) : list string :=
  match s with
  | EmptyString => [EmptyString]
  | String c s' =>
      if Ascii.eqb c sep then EmptyString :: split s'
      else match split s' with
           | [] => [String c EmptyString]
           | w :: ws => String c w :: ws
           end
  end.

(** ["/".join(l)] *)
Definition join (l : list string) : string := String.concat "/" l.

(** [s.lstrip("/")] *)
Fixpoint lstrip (s : string) : string :=
  match s with
  | String c s' => if Ascii.eqb c sep then lstrip s' else s
  | EmptyString => EmptyString
  end.

(** [s.rstrip("/")] *)
Fixpoint rstrip (s : string) : string :=
  match s with
  | EmptyString => EmptyString
  | String c s' =>
      match rstrip s' with
      | EmptyString => if Ascii.eqb c sep then EmptyString else String c EmptyString
      | r => String c r
      end
  end.

(** The text after the last ["/"] ([s[s.rfind("/")+1:]]) and the text up
    to and including it ([s[:s.rfind("/")+1]]). *)
Fixpoint after_last_sep (s : string) : string :=
  match s with
  | EmptyString => EmptyString
  | String c s' =>
      if existsb (Ascii.eqb sep) (list_ascii_of_string s') then after_last_sep s'
      else if Ascii.eqb c sep then s' else s
  end.

Definition upto_last_sep (s : string) : string :=
  String.substring 0 (String.length s - String.length (after_last_sep s)) s.

(** ["/" in s] *)
Fixpoint has_sep (s : string) : bool :=
  match s with
  | EmptyString => false
  | String c s' => Ascii.eqb c sep || has_sep s'
  end.

(** [sub in s] *)
Fixpoint contains (s sub : string) : bool :=
  String.prefix sub s ||
  match s with
  | EmptyString => false
  | String _ s' => contains s' sub
  end.

End Str.

(** ** Exceptions and results *)

Inductive exn : Type :=
| ValueError (msg : string)
| OSError (msg : string)
| RuntimeError (msg : string)
| IndexError (msg : string)
| ArchiveError (msg : string).

Inductive result (A : Type) : Type :=
| Ok (a : A)
| Raise (e : exn).
Arguments Ok {A} a.
Arguments Raise {A} e.

Definition bind {A B} (r : result A) (k : A -> result B) : result B :=
  match r with
  | Ok a => k a
  | Raise e => Raise e
  end.

Notation "'do' x <- r ; k" := (bind r (fun x => k))
  (at level 10, x pattern, r at level 100, k at level 200).

(** [str(e)] *)
Definition exn_str (e : exn) : string :=
  match e with
  | ValueError m | OSError m | RuntimeError m | IndexError m | ArchiveError m => m
  end.

(** ** The file system *)

(** The kinds of tar member the source tells apart with [isfile()] and
    [isdir()], and the others. *)
Inductive tar_kind : Type :=
| REGTYPE | DIRTYPE | SYMTYPE | LNKTYPE | CHRTYPE | BLKTYPE | FIFOTYPE.

(** What a regular file holds: plain bytes, or a container that [zipfile]
    or [tarfile] reads back as the list of its members. *)
Inductive content : Type :=
| Bytes (b : string)
| ZipArchive (members : list zip_member)
| TarArchive (gz : bool) (members : list tar_member)
with zip_member : Type :=
| ZipMember (name : string) (data : content)
with tar_member : Type :=
| TarMember (name : string) (kind : tar_kind) (data : content).

Inductive node : Type :=
| File (c : content)
| Dir.

(** The working directory, the symbolic links with their targets as stored,
    and the regular files and directories. Keys are the components of an
    absolute path; the root directory [[]] always exists. *)
Record FS : Type := mkFS {
  cwd : list string;
  links : gmap (list string) string;
  nodes : gmap (list string) node
}.

Definition with_nodes (fs : FS) (n : gmap (list string) node) : FS :=
  {| cwd := cwd fs; links := links fs; nodes := n |}.

(** ** [posixpath] *)

Module posixpath.

Definition isabs (s : string) : bool := Str.startswith s "/".

(** [os.path.join(a, b)] *)
Definition join (a b : string) : string :=
  if Str.startswith b "/" then b
  else if String.eqb a "" || Str.endswith a "/" then a +:+ b
  else a +:+ "/" +:+ b.

(** The loop of [normpath]: [acc] is [new_comps] in reverse. *)
Fixpoint norm_comps (rooted : bool) (acc : list string) (comps : list string)
  : list string :=
  match comps with
  | [] => rev acc
  | comp :: rest =>
      if String.eqb comp "" || String.eqb comp "." then norm_comps rooted acc rest
      else if negb (String.eqb comp "..") then norm_comps rooted (comp :: acc) rest
      else match acc with
           | [] => if rooted then norm_comps rooted acc rest
                   else norm_comps rooted (comp :: acc) rest
           | last :: acc' =>
               if String.eqb last ".." then norm_comps rooted (comp :: acc) rest
               else norm_comps rooted acc' rest
           end
  end.

(** The number of leading slashes [normpath] keeps: 0, 1 or 2. *)
Definition initial_slashes (path : string) : nat :=
  if negb (Str.startswith path "/") then 0
  else if Str.startswith path "//" && negb (Str.startswith path "///") then 2
  else 1.

Definition normpath (path : string) : string :=
  if String.eqb path "" then "."
  else
    let i := initial_slashes path in
    let comps := norm_comps (negb (i =? 0)%nat) [] (Str.split path) in
    let p := Str.join comps in
    let p := match i with
             | 0 => p
             | 1 => "/" +:+ p
             | _ => "//" +:+ p
             end in
    if String.eqb p "" then "." else p.

(** [os.path.abspath(path)], with the working directory of [fs]. *)
Definition abspath (fs : FS) (path : string) : string :=
  if isabs path then normpath path
  else normpath (join ("/" +:+ Str.join (cwd fs)) path).

(** [os.path.split(p)] *)
Definition split (p : string) : string * string :=
  let head := Str.upto_last_sep p in
  let tail := Str.after_last_sep p in
  let head := if negb (String.eqb head "") && negb (String.eqb (Str.lstrip head) "")
              then Str.rstrip head else head in
  (head, tail).

Definition dirname (p : string) : string := fst (split p).
Definition basename (p : string) : string := Str.after_last_sep p.

(** [os.path.splitext(p)]: split at the last dot of the last component,
    unless only dots precede it there. *)
Fixpoint after_last_dot (s : string) : option string :=
  match s with
  | EmptyString => None
  | String c s' =>
      match after_last_dot s' with
      | Some e => Some e
      | None => if Ascii.eqb c "."%char then Some s' else None
      end
  end.

Fixpoint all_dots (s : string) : bool :=
  match s with
  | EmptyString => true
  | String c s' => Ascii.eqb c "."%char && all_dots s'
  end.

Definition splitext (p : string) : string * string :=
  let base := Str.after_last_sep p in
  match after_last_dot base with
  | None => (p, "")
  | Some e =>
      let stem := String.substring 0 (String.length base - String.length e - 1) base in
      if all_dots stem then (p, "")
      else (String.substring 0 (String.length p - String.length e - 1) p, "." +:+ e)
  end.

End posixpath.

(** ** [pathlib] *)

Module pathlib.

(** A [PurePosixPath]: the anchor ([""], ["/"] or ["//"]) and the parts
    after it; empty and ["."] components are dropped when parsing, [".."]
    is kept. *)
Record PurePath : Type := mkPath { anchor : string; parts : list string }.

Definition is_part (c : string) : bool :=
  negb (String.eqb c "") && negb (String.eqb c ".").

Definition Path (s : string) : PurePath :=
  {| anchor := match posixpath.initial_slashes s with
               | 0 => ""
               | 1 => "/"
               | _ => "//"
               end;
     parts := List.filter is_part (Str.split s) |}.

(** [str(p)] *)
Definition str (p : PurePath) : string :=
  match anchor p, parts p with
  | EmptyString, [] => "."
  | a, ps => a +:+ Str.join ps
  end.

(** [p / s]: an absolute right operand replaces the left one. *)
Definition truediv (p : PurePath) (s : string) : PurePath :=
  let q := Path s in
  if String.eqb (anchor q) "" then
    {| anchor := anchor p; parts := parts p ++ parts q |}
  else q.

(** [p.relative_to(base)]: [ValueError] unless [base] is [p] or one of
    its parents. *)
Fixpoint strip_prefix (base p : list string) : option (list string) :=
  match base, p with
  | [], _ => Some p
  | b :: base', c :: p' => if String.eqb b c then strip_prefix base' p' else None
  | _ :: _, [] => None
  end.

Definition relative_to (p base : PurePath) : result PurePath :=
  if String.eqb (anchor p) (anchor base) then
    match strip_prefix (parts base) (parts p) with
    | Some rest => Ok {| anchor := ""; parts := rest |}
    | None => Raise (ValueError (str p +:+ " is not in the subpath of " +:+ str base))
    end
  else Raise (ValueError (str p +:+ " is not in the subpath of " +:+ str base)).

(** [os.path.realpath], walking the components of a path from [cur]: a
    component that is a symbolic link is replaced by the components of its
    target, from the root when the target is absolute. [fuel] bounds the
    number of links followed; running out of it is Python's
    [RuntimeError("Symlink loop ...")]. *)
Fixpoint walk (fuel : nat) (lk : gmap (list string) string)
         (cur rest : list string) {struct fuel} : option (list string) :=
  let fix go (cur rest : list string) {struct rest} : option (list string) :=
    match rest with
    | [] => Some cur
    | name :: rest' =>
        if negb (is_part name) then go cur rest'
        else if String.eqb name ".." then go (removelast cur) rest'
        else
          let newpath := cur ++ [name] in
          match lk !! newpath with
          | None => go newpath rest'
          | Some target =>
              match fuel with
              | O => None
              | S fuel' =>
                  walk fuel' lk
                       (if posixpath.isabs target then [] else cur)
                       (Str.split target ++ rest')
              end
          end
    end
  in go cur rest.

Definition MAXSYMLINKS : nat := 40.

(** [p.resolve()]: the result is always anchored at ["/"]. *)
Definition resolve (fs : FS) (p : PurePath) : option PurePath :=
  match walk MAXSYMLINKS (links fs)
             (if String.eqb (anchor p) "" then cwd fs else []) (parts p) with
  | Some comps => Some {| anchor := "/"; parts := comps |}
  | None => None
  end.

End pathlib.

(** ** [os] and [shutil] on the modelled file system *)

Module os.

Definition file_exists : exn := OSError "File exists".
Definition not_found : exn := OSError "No such file or directory".
Definition not_a_directory : exn := OSError "Not a directory".
Definition is_a_directory : exn := OSError "Is a directory".
Definition too_many_links : exn := OSError "Too many levels of symbolic links".
Definition same_file : exn := OSError "are the same file".

Definition start (fs : FS) (s : string) : list string :=
  if posixpath.isabs s then [] else cwd fs.

(** The key a path names, every symbolic link on the way followed. *)
Definition locate (fs : FS) (s : string) : option (list string) :=
  pathlib.walk pathlib.MAXSYMLINKS (links fs) (start fs s) (Str.split s).

(** The key a path names when the last component is not followed
    ([lstat], [unlink], [rename], [O_EXCL]). *)
Definition locate_nofollow (fs : FS) (s : string) : option (list string) :=
  let cs := List.filter pathlib.is_part (Str.split s) in
  let name := List.last cs "" in
  if String.eqb name "" || String.eqb name ".." then locate fs s
  else
    match pathlib.walk pathlib.MAXSYMLINKS (links fs) (start fs s) (removelast cs) with
    | Some d => Some (d ++ [name])
    | None => None
    end.

(** The root directory always exists. *)
Definition is_dir_key (n : gmap (list string) node) (k : list string) : bool :=
  match k, n !! k with
  | [], _ => true
  | _, Some Dir => true
  | _, _ => false
  end.

Definition node_at (fs : FS) (s : string) : option node :=
  match locate fs s with
  | Some [] => Some Dir
  | Some k => nodes fs !! k
  | None => None
  end.

(** [os.path.exists], [isfile], [isdir] follow links; [islink] does not. *)
Definition exists_ (fs : FS) (s : string) : bool :=
  match node_at fs s with Some _ => true | None => false end.

Definition isfile (fs : FS) (s : string) : bool :=
  match node_at fs s with Some (File _) => true | _ => false end.

Definition isdir (fs : FS) (s : string) : bool :=
  match node_at fs s with Some Dir => true | _ => false end.

Definition islink (fs : FS) (s : string) : bool :=
  match locate_nofollow fs s with
  | Some k => match links fs !! k with Some _ => true | None => false end
  | None => false
  end.

(** [os.makedirs(name, exist_ok=True)]: every missing directory on the way
    down to [name] is created; a regular file in the way is an [OSError]. *)
Fixpoint makedirs_from (n : gmap (list string) node) (cur rest : list string)
  : result (gmap (list string) node) :=
  match rest with
  | [] => Ok n
  | c :: rest' =>
      let cur' := cur ++ [c] in
      match n !! cur' with
      | Some Dir => makedirs_from n cur' rest'
      | Some (File _) => Raise (match rest' with [] => file_exists | _ => not_a_directory end)
      | None => makedirs_from (<[cur' := Dir]> n) cur' rest'
      end
  end.

Definition makedirs (fs : FS) (name : string) : result FS :=
  if String.eqb name "" then Raise not_found
  else match locate fs name with
       | None => Raise too_many_links
       | Some k => do n <- makedirs_from (nodes fs) [] k; Ok (with_nodes fs n)
       end.

(** [open(path, "wb")], one [write] and [close]: the parent must be a
    directory and the path must not name one. *)
Definition write_key (fs : FS) (k : list string) (c : content) : result FS :=
  match k with
  | [] => Raise is_a_directory
  | _ =>
      if negb (is_dir_key (nodes fs) (removelast k)) then Raise not_found
      else match nodes fs !! k with
           | Some Dir => Raise is_a_directory
           | _ => Ok (with_nodes fs (<[k := File c]> (nodes fs)))
           end
  end.

Definition write_file (fs : FS) (path : string) (c : content) : result FS :=
  match locate fs path with
  | None => Raise too_many_links
  | Some k => write_key fs k c
  end.

(** [open(path, "rb").read()] *)
Definition read_file (fs : FS) (path : string) : result content :=
  match locate fs path with
  | None => Raise too_many_links
  | Some k =>
      match nodes fs !! k with
      | Some (File c) => Ok c
      | Some Dir => Raise is_a_directory
      | None => match k with [] => Raise is_a_directory | _ => Raise not_found end
      end
  end.

(** [os.unlink(path)]: removes a symbolic link or a regular file. *)
Definition unlink (fs : FS) (path : string) : result FS :=
  match locate_nofollow fs path with
  | None => Raise too_many_links
  | Some k =>
      match links fs !! k, nodes fs !! k with
      | Some _, _ => Ok {| cwd := cwd fs; links := delete k (links fs); nodes := nodes fs |}
      | None, Some (File _) => Ok (with_nodes fs (delete k (nodes fs)))
      | None, Some Dir => Raise is_a_directory
      | None, None => Raise not_found
      end
  end.

(** [os.replace(src, dst)] for a regular file [src]: one step that makes
    [dst] name the file and removes the name [src]. *)
Definition replace (fs : FS) (src dst : string) : result FS :=
  match locate_nofollow fs src, locate_nofollow fs dst with
  | Some ks, Some kd =>
      match nodes fs !! ks with
      | Some (File c) =>
          if negb (is_dir_key (nodes fs) (removelast kd)) then Raise not_found
          else match links fs !! kd, nodes fs !! kd with
               | None, Some Dir => Raise is_a_directory
               | _, _ =>
                   if bool_decide (ks = kd) then Ok fs
                   else Ok {| cwd := cwd fs;
                              links := delete kd (links fs);
                              nodes := <[kd := File c]> (delete ks (nodes fs)) |}
               end
      | Some Dir => Raise is_a_directory
      | None => Raise not_found
      end
  | _, _ => Raise too_many_links
  end.

(** [shutil.copy2(src, dst)]: the content of [src] is written to [dst], or
    to [dst/basename(src)] when [dst] is a directory; metadata is not
    modelled. *)
Definition copy_target (fs : FS) (src dst : string) : string :=
  if isdir fs dst then posixpath.join dst (posixpath.basename src) else dst.

Definition copy2 (fs : FS) (src dst : string) : result FS :=
  match locate fs src, locate fs (copy_target fs src dst) with
  | Some ks, Some kd =>
      if bool_decide (ks = kd) && exists_ fs src then Raise same_file
      else do c <- read_file fs src; write_key fs kd c
  | _, _ => Raise too_many_links
  end.

End os.

(** ** Computations on the file system that may raise *)

(** A computation takes the file system and gives the new one with either a
    value or the exception raised; what was written before a raise stays. *)
Definition M (A : Type) : Type := FS -> FS * result A.

Definition ret {A} (a : A) : M A := fun fs => (fs, Ok a).
Definition throw {A} (e : exn) : M A := fun fs => (fs, Raise e).

Definition mbind {A B} (m : M A) (k : A -> M B) : M B :=
  fun fs =>
    match m fs with
    | (fs', Ok a) => k a fs'
    | (fs', Raise e) => (fs', Raise e)
    end.

Notation "x <- m ;; k" := (mbind m (fun x => k))
  (at level 60, m at next level, right associativity).
Notation "m ;;; k" := (mbind m (fun _ => k))
  (at level 60, right associativity).

(** A call that reads the file system. *)
Definition ask {A} (f : FS -> result A) : M A := fun fs => (fs, f fs).
Definition test (f : FS -> bool) : M bool := fun fs => (fs, Ok (f fs)).

(** A system call that changes the file system, or fails and leaves it. *)
Definition call (f : FS -> result FS) : M unit :=
  fun fs =>
    match f fs with
    | Ok fs' => (fs', Ok tt)
    | Raise e => (fs, Raise e)
    end.

(** ** Result envelopes *)

(** The values the tool puts in a result dictionary. A dictionary keeps the
    order in which its keys were first set. *)
Inductive value : Type :=
| VBool (b : bool)
| VStr (s : string)
| VInt (z : Z)
| VList (l : list value)
| VDict (d : list field)
with field : Type :=
| KV (key : string) (v : value).

Definition key_of (f : field) : string := let 'KV k _ := f in k.
Definition value_of (f : field) : value := let 'KV _ v := f in v.

(** [d.get(k)] *)
Fixpoint dict_get (d : list field) (k : string) : option value :=
  match d with
  | [] => None
  | KV k' v :: d' => if String.eqb k' k then Some v else dict_get d' k
  end.

(** [d[k] = v] *)
Fixpoint dict_set (d : list field) (k : string) (v : value) : list field :=
  match d with
  | [] => [KV k v]
  | KV k' v' :: d' =>
      if String.eqb k' k then KV k' v :: d' else KV k' v' :: dict_set d' k v
  end.

(** [d.update(kw)] *)
Definition dict_update (d kw : list field) : list field :=
  fold_left (fun acc f => dict_set acc (key_of f) (value_of f)) kw d.

(** ** The tool *)

(** The valves the modelled methods read. *)
Record Valves : Type := mkValves {
  root_restriction_directory : string;
  return_relative_paths : bool;
  spoof_directory_root : string;
  debug : bool
}.

(** [self]: the valves and the version table, a [defaultdict(list)] keyed by
    resolved path. *)
Record Tools : Type := mkTools {
  valves : Valves;
  versions : gmap string (list string)
}.

Definition symlink_loop : exn := RuntimeError "Symlink loop".

(** [Path(s).resolve()] as a computation that may raise. *)
Definition resolved (fs : FS) (p : pathlib.PurePath) : result pathlib.PurePath :=
  match pathlib.resolve fs p with
  | Some q => Ok q
  | None => Raise symlink_loop
  end.

Definition display_root_of (v : Valves) : string :=
  if negb (String.eqb (spoof_directory_root v) "") then spoof_directory_root v
  else root_restriction_directory v.

Definition _result (self : Tools) (fs : FS) (ok : bool) (action subject_type : string)
           (kwargs : list field) : result (list field) :=
  let result := [KV "ok" (VBool ok); KV "action" (VStr action);
                 KV "subject_type" (VStr subject_type)] in
  let result := dict_update result kwargs in
  if debug (valves self) then
    do actual_root <- resolved fs (pathlib.Path (root_restriction_directory (valves self)));
    let display_root := display_root_of (valves self) in
    Ok (dict_update result
          [KV "debug_info"
              (VDict [KV "actual_path" (VStr (pathlib.str actual_root));
                      KV "display_path" (VStr display_root);
                      KV "is_spoofed"
                         (VBool (negb (String.eqb display_root (pathlib.str actual_root))));
                      KV "spoof_directory_root" (VStr (spoof_directory_root (valves self)));
                      KV "root_restriction_directory"
                         (VStr (root_restriction_directory (valves self)))])])
  else Ok result.

Definition escapes (path : string) : exn :=
  ValueError ("Path escapes restriction root: " +:+ path).

Definition _resolve_under_restriction (self : Tools) (fs : FS) (path : string)
  : result string :=
  do base <- resolved fs (pathlib.Path (root_restriction_directory (valves self)));
  do p <- resolved fs (pathlib.truediv base path);
  if negb (Str.startswith (pathlib.str p) (pathlib.str base)) then Raise (escapes path)
  else Ok (pathlib.str p).

Definition _get_relative_path (self : Tools) (fs : FS) (absolute_path : string)
  : result string :=
  if negb (return_relative_paths (valves self)) then Ok absolute_path
  else
    let display_root := display_root_of (valves self) in
    do base <- resolved fs (pathlib.Path (root_restriction_directory (valves self)));
    do spoof_base <- resolved fs (pathlib.Path display_root);
    match pathlib.relative_to (pathlib.Path absolute_path) base with
    | Ok rel =>
        let relative_from_actual := pathlib.str rel in
        if String.eqb (pathlib.str spoof_base) (pathlib.str base) then Ok relative_from_actual
        else Ok (pathlib.str (pathlib.truediv (pathlib.Path display_root) relative_from_actual))
    | Raise (ValueError _) => Ok absolute_path
    | Raise e => Raise e
    end.

Definition _ensure_parent_dir (file_path : string) : M unit :=
  let parent_dir := posixpath.dirname file_path in
  if negb (String.eqb parent_dir "") then call (fun fs => os.makedirs fs parent_dir)
  else ret tt.

(** [base_dir if base_dir else "."] *)
Definition base_path_of (base_dir : option string) : string :=
  match base_dir with
  | Some d => if String.eqb d "" then "." else d
  | None => "."
  end.

(** [try: body except Exception as e: handler(e)] *)
Definition try_except {A} (body : M A) (handler : exn -> M A) : M A :=
  fun fs =>
    match body fs with
    | (fs', Ok a) => (fs', Ok a)
    | (fs', Raise e) => handler e fs'
    end.

(** Statements run one after the other, and the file systems they leave
    behind, one per statement run, up to the first that raises. *)
Fixpoint run_all (steps : list (M unit)) : M unit :=
  match steps with
  | [] => ret tt
  | s :: rest => s ;;; run_all rest
  end.

Fixpoint states_of (steps : list (M unit)) (fs : FS) : list FS :=
  match steps with
  | [] => []
  | s :: rest =>
      match s fs with
      | (fs', Ok _) => fs' :: states_of rest fs'
      | (fs', Raise _) => [fs']
      end
  end.

(** ** Atomic write *)

(** What the environment decides during one [_atomic_write]: the names the
    generator of [tempfile] yields, which system call fails although the
    modelled file system would allow it (disk full, permissions, an
    encoding error), and how many bytes reach the temporary file when the
    write fails. *)
Inductive io_step : Type :=
| AtClose | AtOpen | AtWrite | AtFlush | AtReplace | AtUnlink.

Record Oracle : Type := mkOracle {
  names : list string;
  fault : io_step -> option exn;
  partial : nat
}.

Definition injected (o : Oracle) (st : io_step) (m : M unit) : M unit :=
  match fault o st with
  | Some e => throw e
  | None => m
  end.

(** [tempfile.mkstemp(dir=dir)]: the first candidate name that does not
    exist is created empty with [O_EXCL]; its absolute path is returned. *)
Fixpoint mkstemp_inner (dir : string) (candidates : list string) (fs : FS)
  : FS * result string :=
  match candidates with
  | [] => (fs, Raise (OSError "No usable temporary file name found"))
  | name :: rest =>
      let file := posixpath.join dir ("tmp" +:+ name) in
      match os.locate_nofollow fs file with
      | None => (fs, Raise os.too_many_links)
      | Some k =>
          match links fs !! k, nodes fs !! k, k with
          | None, None, _ :: _ =>
              if os.is_dir_key (nodes fs) (removelast k)
              then (with_nodes fs (<[k := File (Bytes "")]> (nodes fs)), Ok file)
              else (fs, Raise os.not_found)
          | _, _, _ => mkstemp_inner dir rest fs
          end
      end
  end.

Definition mkstemp (o : Oracle) (dir : string) : M string :=
  fun fs => mkstemp_inner (posixpath.abspath fs dir) (names o) fs.

(** The statements of the [try] block, in order. *)
Definition write_steps (o : Oracle) (temp_path file_path content : string)
  : list (M unit) :=
  [ injected o AtClose (ret tt);
    injected o AtOpen (call (fun fs => os.write_file fs temp_path (Bytes "")));
    match fault o AtWrite with
    | Some e =>
        call (fun fs => os.write_file fs temp_path
                          (Bytes (String.substring 0 (partial o) content))) ;;;
        throw e
    | None => call (fun fs => os.write_file fs temp_path (Bytes content))
    end;
    injected o AtFlush (ret tt);
    injected o AtReplace (call (fun fs => os.replace fs temp_path file_path)) ].

(** The [except Exception] block: the unlink may itself fail, an [OSError]
    of it is dropped, and the first exception is raised again. *)
Definition cleanup (o : Oracle) (temp_path : string) (e : exn) : M unit :=
  try_except (injected o AtUnlink (call (fun fs => os.unlink fs temp_path)))
             (fun e' => match e' with OSError _ => ret tt | _ => throw e' end) ;;;
  throw e.

(** The file system [fs] with a temporary file holding [c] at key [k]. *)
Definition holding (fs : FS) (k : list string) (c : content) : FS :=
  with_nodes fs (<[k := File c]> (nodes fs)).

(** [_atomic_write]; [content] is the text as it is written to the file. *)
Definition _atomic_write (o : Oracle) (file_path content : string) : M unit :=
  _ensure_parent_dir file_path ;;;
  temp_path <- mkstemp o (posixpath.dirname file_path) ;;
  try_except (run_all (write_steps o temp_path file_path content))
             (cleanup o temp_path).

(** ** Archives *)

Section Archives.

Variable self : Tools.

Definition error_result (action subject_type msg : string) : M (list field) :=
  ask (fun fs => _result self fs false action subject_type [KV "error" (VStr msg)]).

Definition resolve_m (path : string) : M string :=
  ask (fun fs => _resolve_under_restriction self fs path).

Definition relative_m (path : string) : M string :=
  ask (fun fs => _get_relative_path self fs path).

Definition _sanitize_archive_path (fs : FS) (member_path output_dir : string)
  : result string :=
  let clean_path := posixpath.normpath (Str.lstrip member_path) in
  if Str.startswith clean_path ".." || posixpath.isabs clean_path then
    Raise (ValueError ("Unsafe archive member path: " +:+ member_path))
  else
    let final_path := posixpath.join output_dir clean_path in
    if negb (Str.startswith (posixpath.abspath fs final_path)
                            (posixpath.abspath fs output_dir)) then
      Raise (ValueError ("Archive member would extract outside target directory: "
                         +:+ member_path))
    else Ok final_path.

(** [zipfile.ZipFile(output_path, "w")] creates the archive file, then
    [zipf.write(file_path, basename)] reads the source into it. *)
Definition _compress_zip (file_path output_path : string) : M unit :=
  call (fun fs => os.write_file fs output_path (ZipArchive [])) ;;;
  c <- ask (fun fs => os.read_file fs file_path) ;;
  call (fun fs => os.write_file fs output_path
                    (ZipArchive [ZipMember (posixpath.basename file_path) c])).

Definition tar_add (gz : bool) (file_path output_path : string) : M unit :=
  call (fun fs => os.write_file fs output_path (TarArchive gz [])) ;;;
  c <- ask (fun fs => os.read_file fs file_path) ;;
  call (fun fs => os.write_file fs output_path
                    (TarArchive gz [TarMember (posixpath.basename file_path) REGTYPE c])).

Definition _compress_tar : string -> string -> M unit := tar_add false.
Definition _compress_gztar : string -> string -> M unit := tar_add true.

Definition compress_file (file_name output_filename format : string)
           (base_dir : option string) : M (list field) :=
  try_except
    (let base_path := base_path_of base_dir in
     file_path <- resolve_m (posixpath.join base_path file_name) ;;
     output_path <- resolve_m (posixpath.join base_path output_filename) ;;
     ex <- test (fun fs => os.exists_ fs file_path) ;;
     if negb ex then
       rel <- relative_m file_path ;;
       ask (fun fs => _result self fs false "compress" "file"
                        [KV "error" (VStr "Source file does not exist");
                         KV "path" (VStr rel)])
     else
     isf <- test (fun fs => os.isfile fs file_path) ;;
     if negb isf then error_result "compress" "file" "Source path is not a file"
     else
     isl <- test (fun fs => os.islink fs file_path) ;;
     if isl then error_result "compress" "file" "Cannot compress symlinks"
     else
     _ensure_parent_dir output_path ;;;
     unsupported <-
       (if String.eqb format "zip" then
          _compress_zip file_path output_path ;;; ret None
        else if String.eqb format "tar" then
          _compress_tar file_path output_path ;;; ret None
        else if String.eqb format "gztar" then
          _compress_gztar file_path output_path ;;; ret None
        else
          r <- error_result "compress" "file"
                 ("Unsupported compression format: " +:+ format) ;;
          ret (Some r)) ;;
     match unsupported with
     | Some r => ret r
     | None =>
         rel <- relative_m output_path ;;
         ask (fun fs => _result self fs true "compress" "file"
                          [KV "message" (VStr "Compressed successfully");
                           KV "output" (VStr rel); KV "format" (VStr format)])
     end)
    (fun e =>
       match e with
       | ValueError m => error_result "compress" "file" m
       | ArchiveError m => error_result "compress" "file" ("Compression error: " +:+ m)
       | OSError m => error_result "compress" "file" ("Failed to compress file: " +:+ m)
       | _ => throw e
       end).

Definition zip_name (m : zip_member) : string := let 'ZipMember n _ := m in n.
Definition tar_name (m : tar_member) : string := let 'TarMember n _ _ := m in n.

(** [zipf.read(name)]: the data of the last member stored under [name]. *)
Definition zip_read (members : list zip_member) (name : string) : content :=
  fold_left (fun acc m => let 'ZipMember n d := m in
                          if String.eqb n name then d else acc)
            members (Bytes "").

(** The body of the [for member in zipf.namelist()] loop and the loop. *)
Definition extract_zip_member (members : list zip_member) (output_path member : string)
  : M string :=
  safe_path <- ask (fun fs => _sanitize_archive_path fs member output_path) ;;
  let member_data := zip_read members member in
  call (fun fs => os.makedirs fs (posixpath.dirname safe_path)) ;;;
  call (fun fs => os.write_file fs safe_path member_data) ;;;
  relative_m safe_path.

Fixpoint extract_zip (members : list zip_member) (output_path : string)
         (todo : list zip_member) (extracted_files : list string) : M (list string) :=
  match todo with
  | [] => ret extracted_files
  | ZipMember member _ :: rest =>
      rel <- extract_zip_member members output_path member ;;
      extract_zip members output_path rest (extracted_files ++ [rel])
  end.

(** The body of the [for member in tarf.getmembers()] loop: what it adds
    to [extracted_files]. *)
Definition extract_tar_member (output_path : string) (m : tar_member)
  : M (list string) :=
  let 'TarMember name kind data := m in
  safe_path <- ask (fun fs => _sanitize_archive_path fs name output_path) ;;
  match kind with
  | REGTYPE =>
      call (fun fs => os.makedirs fs (posixpath.dirname safe_path)) ;;;
      call (fun fs => os.write_file fs safe_path data) ;;;
      rel <- relative_m safe_path ;;
      ret [rel]
  | DIRTYPE =>
      call (fun fs => os.makedirs fs safe_path) ;;;
      ret []
  | _ => ret []
  end.

Fixpoint extract_tar (output_path : string) (todo : list tar_member)
         (extracted_files : list string) : M (list string) :=
  match todo with
  | [] => ret extracted_files
  | m :: rest =>
      new <- extract_tar_member output_path m ;;
      extract_tar output_path rest (extracted_files ++ new)
  end.

Definition open_zip (file_path : string) : M (list zip_member) :=
  c <- ask (fun fs => os.read_file fs file_path) ;;
  match c with
  | ZipArchive members => ret members
  | _ => throw (ArchiveError "File is not a zip file")
  end.

(** [tarfile.open(file_path, mode)]: mode ["r"] reads a compressed archive
    too, mode ["r:gz"] only a gzip one. *)
Definition open_tar (file_path : string) (gz_only : bool) : M (list tar_member) :=
  c <- ask (fun fs => os.read_file fs file_path) ;;
  match c with
  | TarArchive gz members =>
      if gz_only && negb gz then throw (ArchiveError "not a gzip file")
      else ret members
  | _ => throw (ArchiveError "file could not be opened successfully")
  end.

Definition _decompress_archive (file_path output_path file_name : string)
  : M (list string) :=
  if Str.endswith file_name ".zip" then
    members <- open_zip file_path ;;
    extract_zip members output_path members []
  else if Str.endswith file_name ".tar" || Str.endswith file_name ".tar.gz"
          || Str.endswith file_name ".tgz" then
    let gz_only := Str.endswith file_name ".tar.gz" || Str.endswith file_name ".tgz" in
    members <- open_tar file_path gz_only ;;
    extract_tar output_path members []
  else throw (ValueError "Unsupported archive format").

Definition decompress_file (file_name output_directory : string)
           (base_dir : option string) : M (list field) :=
  try_except
    (let base_path := base_path_of base_dir in
     file_path <- resolve_m (posixpath.join base_path file_name) ;;
     output_path <- resolve_m (posixpath.join base_path output_directory) ;;
     ex <- test (fun fs => os.exists_ fs file_path) ;;
     if negb ex then
       rel <- relative_m file_path ;;
       ask (fun fs => _result self fs false "decompress" "file"
                        [KV "error" (VStr "Archive file does not exist");
                         KV "path" (VStr rel)])
     else
     isf <- test (fun fs => os.isfile fs file_path) ;;
     if negb isf then error_result "decompress" "file" "Archive path is not a file"
     else
     isl <- test (fun fs => os.islink fs file_path) ;;
     if isl then error_result "decompress" "file" "Cannot decompress symlinks"
     else
     _ensure_parent_dir output_path ;;;
     call (fun fs => os.makedirs fs output_path) ;;;
     extracted_files <- _decompress_archive file_path output_path file_name ;;
     rel <- relative_m output_path ;;
     ask (fun fs => _result self fs true "decompress" "file"
                      [KV "message" (VStr "Decompressed successfully");
                       KV "output" (VStr rel);
                       KV "extracted_files" (VList (map VStr extracted_files));
                       KV "count" (VInt (Z.of_nat (length extracted_files)))]))
    (fun e =>
       match e with
       | ValueError m => error_result "decompress" "file" m
       | ArchiveError m => error_result "decompress" "file" ("Archive error: " +:+ m)
       | OSError m => error_result "decompress" "file" ("Failed to decompress file: " +:+ m)
       | _ => throw e
       end).

End Archives.


(** ** Versions *)

(** [self.versions[key]] on a [defaultdict(list)]: the list under [key], and
    the table afterwards, where a missing key now holds the empty list. *)
Definition versions_at (self : Tools) (key : string) : list string :=
  default [] (versions self !! key).

Definition touch (self : Tools) (key : string) : Tools :=
  {| valves := valves self;
     versions := <[key := versions_at self key]> (versions self) |}.

(** [self.versions[key].append(p)] *)
Definition append_version (self : Tools) (key p : string) : Tools :=
  {| valves := valves self;
     versions := <[key := versions_at self key ++ [p]]> (versions self) |}.

(** The [except ValueError] and [except OSError] clauses of the version
    methods; any other exception propagates. *)
Definition version_handler (self : Tools) (action os_prefix : string) (e : exn)
  : M (Tools * list field) :=
  match e with
  | ValueError m => r <- error_result self action "file" m ;; ret (self, r)
  | OSError m => r <- error_result self action "file" (os_prefix +:+ m) ;; ret (self, r)
  | _ => throw e
  end.

(** [save_file_version]; [timestamp] is what
    [datetime.now().strftime("%Y%m%d_%H%M%S")] gives at the call. *)
Definition save_file_version (self : Tools) (timestamp : string)
           (file_name : string) (base_dir : option string) : M (Tools * list field) :=
  let handler s := version_handler s "version_save" "Failed to save version: " in
  try_except
    (let base_path := base_path_of base_dir in
     file_path <- resolve_m self (posixpath.join base_path file_name) ;;
     ex <- test (fun fs => os.exists_ fs file_path) ;;
     if negb ex then
       rel <- relative_m self file_path ;;
       r <- ask (fun fs => _result self fs false "version_save" "file"
                             [KV "error" (VStr "File does not exist");
                              KV "path" (VStr rel)]) ;;
       ret (self, r)
     else
     isf <- test (fun fs => os.isfile fs file_path) ;;
     if negb isf then
       r <- error_result self "version_save" "file" "Path is not a file" ;; ret (self, r)
     else
     isl <- test (fun fs => os.islink fs file_path) ;;
     if isl then
       r <- error_result self "version_save" "file" "Cannot version symlinks" ;; ret (self, r)
     else
     let version_key := file_path in
     let version_index := length (versions_at self version_key) + 1 in
     let self := touch self version_key in
     try_except
       (let '(base_name, ext) := posixpath.splitext file_name in
        let version_name :=
          base_name +:+ "_v" +:+ pretty version_index +:+ "_" +:+ timestamp +:+ ext in
        version_path <- resolve_m self (posixpath.join base_path version_name) ;;
        call (fun fs => os.copy2 fs file_path version_path) ;;;
        let self := append_version self version_key version_path in
        vrel <- relative_m self version_path ;;
        orel <- relative_m self file_path ;;
        r <- ask (fun fs => _result self fs true "version_save" "file"
                              [KV "message" (VStr "Version saved");
                               KV "version" (VInt (Z.of_nat version_index));
                               KV "version_path" (VStr vrel);
                               KV "original_path" (VStr orel)]) ;;
        ret (self, r))
       (handler self))
    (handler self).

Definition restore_file_version (self : Tools) (file_name : string) (version : Z)
           (base_dir : option string) : M (Tools * list field) :=
  let handler s := version_handler s "version_restore" "Failed to restore version: " in
  try_except
    (let base_path := base_path_of base_dir in
     file_path <- resolve_m self (posixpath.join base_path file_name) ;;
     let version_key := file_path in
     let available_versions := length (versions_at self version_key) in
     let self := touch self version_key in
     try_except
       (if (version <? 1)%Z || (Z.of_nat available_versions <? version)%Z then
          r <- ask (fun fs => _result self fs false "version_restore" "file"
                                [KV "error" (VStr "Version does not exist");
                                 KV "available" (VInt (Z.of_nat available_versions));
                                 KV "requested" (VInt version)]) ;;
          ret (self, r)
        else
        match versions_at self version_key !! Z.to_nat (version - 1) with
        | None => throw (IndexError "list index out of range")
        | Some version_path =>
            ex <- test (fun fs => os.exists_ fs version_path) ;;
            if negb ex then
              vrel <- relative_m self version_path ;;
              r <- ask (fun fs => _result self fs false "version_restore" "file"
                                    [KV "error" (VStr "Version file no longer exists");
                                     KV "version_path" (VStr vrel)]) ;;
              ret (self, r)
            else
            _ensure_parent_dir file_path ;;;
            call (fun fs => os.copy2 fs version_path file_path) ;;;
            rel <- relative_m self file_path ;;
            vrel <- relative_m self version_path ;;
            r <- ask (fun fs => _result self fs true "version_restore" "file"
                                  [KV "message" (VStr "Restored");
                                   KV "path" (VStr rel);
                                   KV "version" (VInt version);
                                   KV "version_path" (VStr vrel)]) ;;
            ret (self, r)
        end)
       (handler self))
    (handler self).

(** ** Folders and files *)

(** [os.makedirs(name)] with the default [exist_ok=False]: missing parents
    are created, and the last component must not exist in any form, not
    even as a symbolic link. *)
Definition makedirs_exclusive (fs : FS) (name : string) : result FS :=
  if String.eqb name "" then Raise os.not_found
  else match os.locate_nofollow fs name with
       | None => Raise os.too_many_links
       | Some k =>
           match links fs !! k, nodes fs !! k, k with
           | None, None, _ :: _ =>
               do n <- os.makedirs_from (nodes fs) [] k; Ok (with_nodes fs n)
           | _, _, _ => Raise os.file_exists
           end
       end.

Module shutil.




End shutil.

(** [Tools(base_path)]: [getcwd] is the working directory when the module
    was loaded, the default of the root valve. *)
Definition __init__ (getcwd : string) (base_path : option string) : Tools :=
  let root := match base_path with
              | Some p => if String.eqb p "" then getcwd else p
              | None => getcwd
              end in
  {| valves := {| root_restriction_directory := root;
                  return_relative_paths := true;
                  spoof_directory_root := "";
                  debug := false |};
     versions := ∅ |}.

Section Files.

Variable self : Tools.

(** The [except ValueError] and [except OSError] clauses the methods share;
    any other exception propagates. *)
Definition handler (action subject_type os_prefix : string) (e : exn)
  : M (list field) :=
  match e with
  | ValueError m => error_result self action subject_type m
  | OSError m => error_result self action subject_type (os_prefix +:+ m)
  | _ => throw e
  end.

Definition create_folder (folder_name : string) (base_dir : option string)
  : M (list field) :=
  try_except
    (let base_path := base_path_of base_dir in
     folder_path <- resolve_m self (posixpath.join base_path folder_name) ;;
     ex <- test (fun fs => os.exists_ fs folder_path) ;;
     if negb ex then
       call (fun fs => makedirs_exclusive fs folder_path) ;;;
       rel <- relative_m self folder_path ;;
       ask (fun fs => _result self fs true "create" "folder"
                        [KV "message" (VStr ("Folder '" +:+ folder_name
                                             +:+ "' created successfully"));
                         KV "path" (VStr rel)])
     else
       rel <- relative_m self folder_path ;;
       ask (fun fs => _result self fs true "create" "folder"
                        [KV "message" (VStr ("Folder '" +:+ folder_name
                                             +:+ "' already exists"));
                         KV "path" (VStr rel)]))
    (handler "create" "folder" "Failed to create folder: ").


(** [create_file] and [write_to_file]; [content] is the text as encoded in
    UTF-8, so that [len(content.encode("utf-8"))] is its length. *)
Definition create_file (o : Oracle) (file_name content : string)
           (base_dir : option string) : M (list field) :=
  try_except
    (let base_path := base_path_of base_dir in
     file_path <- resolve_m self (posixpath.join base_path file_name) ;;
     _atomic_write o file_path content ;;;
     rel <- relative_m self file_path ;;
     ask (fun fs => _result self fs true "create" "file"
                      [KV "message" (VStr ("File '" +:+ file_name
                                           +:+ "' created successfully"));
                       KV "path" (VStr rel);
                       KV "bytes" (VInt (Z.of_nat (String.length content)))]))
    (handler "create" "file" "Failed to create file: ").

Definition write_to_file (o : Oracle) (file_name content : string)
           (base_dir : option string) : M (list field) :=
  try_except
    (let base_path := base_path_of base_dir in
     file_path <- resolve_m self (posixpath.join base_path file_name) ;;
     _atomic_write o file_path content ;;;
     rel <- relative_m self file_path ;;
     ask (fun fs => _result self fs true "write" "file"
                      [KV "path" (VStr rel);
                       KV "bytes" (VInt (Z.of_nat (String.length content)))]))
    (handler "write" "file" "Failed to write file: ").

Definition delete_file (file_name : string) (base_dir : option string)
  : M (list field) :=
  try_except
    (let base_path := base_path_of base_dir in
     file_path <- resolve_m self (posixpath.join base_path file_name) ;;
     ex <- test (fun fs => os.exists_ fs file_path) ;;
     if negb ex then
       rel <- relative_m self file_path ;;
       ask (fun fs => _result self fs false "delete" "file"
                        [KV "error" (VStr "File does not exist");
                         KV "path" (VStr rel)])
     else
     isd <- test (fun fs => os.isdir fs file_path) ;;
     if isd then error_result self "delete" "file" "Path is a directory"
     else
     call (fun fs => os.unlink fs file_path) ;;;
     rel <- relative_m self file_path ;;
     ask (fun fs => _result self fs true "delete" "file"
                      [KV "message" (VStr ("File '" +:+ file_name
                                           +:+ "' deleted successfully"));
                       KV "path" (VStr rel)]))
    (handler "delete" "file" "Failed to delete file: ").

(** [except (ValueError, OSError): return False] *)
Definition or_false (e : exn) : M bool :=
  match e with
  | ValueError _ | OSError _ => ret false
  | _ => throw e
  end.

Definition is_file (path : string) : M bool :=
  try_except
    (resolved_path <- resolve_m self path ;;
     test (fun fs => os.isfile fs resolved_path))
    or_false.

Definition is_directory (path : string) : M bool :=
  try_except
    (resolved_path <- resolve_m self path ;;
     test (fun fs => os.isdir fs resolved_path))
    or_false.

Definition copy_file (src_file dest_file : string)
           (src_base_dir dest_base_dir : option string) : M (list field) :=
  try_except
    (let src_base := base_path_of src_base_dir in
     let dest_base := base_path_of dest_base_dir in
     src_file_path <- resolve_m self (posixpath.join src_base src_file) ;;
     dest_file_path <- resolve_m self (posixpath.join dest_base dest_file) ;;
     ex <- test (fun fs => os.exists_ fs src_file_path) ;;
     if negb ex then
       rel <- relative_m self src_file_path ;;
       ask (fun fs => _result self fs false "copy" "file"
                        [KV "error" (VStr "Source file does not exist");
                         KV "src" (VStr rel)])
     else
     isf <- test (fun fs => os.isfile fs src_file_path) ;;
     if negb isf then error_result self "copy" "file" "Source path is not a file"
     else
     isl <- test (fun fs => os.islink fs src_file_path) ;;
     if isl then error_result self "copy" "file" "Cannot copy symlinks"
     else
     _ensure_parent_dir dest_file_path ;;;
     call (fun fs => os.copy2 fs src_file_path dest_file_path) ;;;
     src <- relative_m self src_file_path ;;
     dst <- relative_m self dest_file_path ;;
     ask (fun fs => _result self fs true "copy" "file"
                      [KV "src" (VStr src); KV "dst" (VStr dst)]))
    (handler "copy" "file" "Failed to copy file: ").

End Files.

Module Tool.

(** [Tools.cwd]: the display root, after a look at the real one. *)
Definition cwd (self : Tools) : M (list field) :=
  try_except
    (let display_root := display_root_of (valves self) in
     actual_root <-
       ask (fun fs => resolved fs (pathlib.Path (root_restriction_directory (valves self)))) ;;
     ex <- test (fun fs => os.exists_ fs (pathlib.str actual_root)) ;;
     if negb ex then
       ask (fun fs => _result self fs false "cwd" "directory"
                        [KV "error" (VStr "Current working directory does not exist");
                         KV "path" (VStr display_root)])
     else
       ask (fun fs => _result self fs true "cwd" "directory"
                        [KV "path" (VStr display_root)]))
    (fun e => ask (fun fs => _result self fs false "cwd" "directory"
                               [KV "error" (VStr ("Failed to get current working directory: "
                                                  +:+ exn_str e))])).

End Tool.

(** ** Confinement *)

(** [p] is [base] or lies below it: same anchor, and the parts of [base]
    are the first parts of [p]. *)
Definition inside (base p : pathlib.PurePath) : Prop :=
  pathlib.anchor p = pathlib.anchor base /\
  pathlib.parts base `prefix_of` pathlib.parts p.

(** A component as [resolve] leaves it: not empty, not ["."], not [".."]
    and without separator. *)
Definition plain_name (x : string) : bool :=
  pathlib.is_part x && negb (String.eqb x "..") && negb (Str.has_sep x).

(** A key made of such components on whose way no symbolic link lies. *)
Definition canonical (lk : gmap (list string) string) (k : list string) : Prop :=
  Forall (fun x => plain_name x = true) k /\
  forall pre, pre <> [] -> pre `prefix_of` k -> lk !! pre = None.

(** The same as a test: every component is plain, and no key on the way
    from [cur] along [rest] is a symbolic link. *)
Fixpoint link_free (lk : gmap (list string) string) (cur rest : list string) : bool :=
  match rest with
  | [] => true
  | x :: rest' =>
      match lk !! (cur ++ [x]) with
      | None => link_free lk (cur ++ [x]) rest'
      | Some _ => false
      end
  end.

Definition is_canonical (lk : gmap (list string) string) (k : list string) : bool :=
  forallb plain_name k && link_free lk [] k.

(** In the stack of [normpath] every component below a [".."] is a
    [".."]: they only pile up at the front of a relative path. *)
Fixpoint dots_below (acc : list string) : Prop :=
  match acc with
  | [] => True
  | x :: acc' =>
      if String.eqb x ".." then Forall (fun y => y = "..") acc' else dots_below acc'
  end.

(** Every key on the way from [cur] along [rest] is a directory. *)
Fixpoint dirs_along (n : gmap (list string) node) (cur rest : list string) : bool :=
  match rest with
  | [] => true
  | x :: rest' => os.is_dir_key n (cur ++ [x]) && dirs_along n (cur ++ [x]) rest'
  end.

(** From [fs] to [fs'] no link and no working directory changed, every
    directory stayed one, and no node outside the tree at [k] changed. *)
Definition confined (k : list string) (fs fs' : FS) : Prop :=
  links fs' = links fs /\ cwd fs' = cwd fs /\
  (forall key, nodes fs !! key = Some Dir -> nodes fs' !! key = Some Dir) /\
  (forall key, ~ k `prefix_of` key -> nodes fs' !! key = nodes fs !! key).

(** The output directory [out] is ready at key [kout]: it exists with the
    directories leading to it, and no symbolic link lies below it. *)
Definition ready (out : string) (kout : list string) (fs : FS) : Prop :=
  os.locate fs out = Some kout /\
  dirs_along (nodes fs) [] kout = true /\
  forall key, kout `prefix_of` key -> key <> kout -> links fs !! key = None.

(** What every file system satisfies: the components of the working
    directory hold no separator, and the root directory is no symbolic
    link. *)
Definition well_formed (fs : FS) : Prop :=
  Forall (fun x => Str.has_sep x = false) (cwd fs) /\ links fs !! [] = None.

(** ** Sample worlds *)

Module Sample.

(** A root [/srv/data] shown to callers as [/virtual]. *)
Definition tools : Tools :=
  {| valves := {| root_restriction_directory := "/srv/data";
                  return_relative_paths := true;
                  spoof_directory_root := "/virtual";
                  debug := false |};
     versions := ∅ |}.

Definition plain : FS :=
  {| cwd := ["home"];
     links := ∅;
     nodes := {[ ["srv"] := Dir;
                 ["srv"; "data"] := Dir;
                 ["srv"; "data"; "a.txt"] := File (Bytes "old") ]} |}.

(** Archives under the root, and an existing output directory [out]. *)
Definition dir_entry_zip : content :=
  ZipArchive [ZipMember "d/" (Bytes "")].

Definition tree_zip : content :=
  ZipArchive [ZipMember "d/" (Bytes ""); ZipMember "d/x.txt" (Bytes "X")].

Definition tree_tar : content :=
  TarArchive false [TarMember "d/" DIRTYPE (Bytes "");
                    TarMember "d/x.txt" REGTYPE (Bytes "X");
                    TarMember "d/dev" CHRTYPE (Bytes "");
                    TarMember "d/hard" LNKTYPE (Bytes "")].

Definition poisoned_zip : content :=
  ZipArchive [ZipMember "x.txt" (Bytes "X"); ZipMember "../evil.txt" (Bytes "E");
              ZipMember "y.txt" (Bytes "Y")].

Definition through_link_zip : content :=
  ZipArchive [ZipMember "l/evil.txt" (Bytes "E")].

Definition unpack : FS :=
  {| cwd := ["home"];
     links := ∅;
     nodes := {[ ["etc"] := Dir;
                 ["srv"] := Dir;
                 ["srv"; "data"] := Dir;
                 ["srv"; "data"; "out"] := Dir;
                 ["srv"; "data"; "dir.zip"] := File dir_entry_zip;
                 ["srv"; "data"; "tree.zip"] := File tree_zip;
                 ["srv"; "data"; "tree.tar"] := File tree_tar;
                 ["srv"; "data"; "poisoned.zip"] := File poisoned_zip;
                 ["srv"; "data"; "link.zip"] := File through_link_zip ]} |}.

(** The same tree where [out/l] is a symbolic link to [/etc]. *)
Definition linked : FS :=
  {| cwd := cwd unpack;
     links := {[ ["srv"; "data"; "out"; "l"] := "/etc" ]};
     nodes := nodes unpack |}.

(** Three saves of [a.txt], the file rewritten between them. *)
Definition rewrite_a (fs : FS) (c : string) : FS :=
  with_nodes fs (<[ ["srv"; "data"; "a.txt"] := File (Bytes c) ]> (nodes fs)).

Definition tools_of (r : FS * result (Tools * list field)) : Tools :=
  match snd r with
  | Ok (s, _) => s
  | Raise _ => tools
  end.

Definition envelope_of (r : FS * result (Tools * list field)) : list field :=
  match snd r with
  | Ok (_, env) => env
  | Raise _ => []
  end.

Definition save1 : FS * result (Tools * list field) :=
  save_file_version tools "20250101_120000" "a.txt" None plain.

Definition save2 : FS * result (Tools * list field) :=
  save_file_version (tools_of save1) "20250101_120500" "a.txt" None
                    (rewrite_a (fst save1) "second").

Definition save3 : FS * result (Tools * list field) :=
  save_file_version (tools_of save2) "20250101_121000" "a.txt" None
                    (rewrite_a (fst save2) "third").



Definition quiet : Oracle :=
  {| names := ["k3x9q2ab"]; fault := fun _ => None; partial := 0 |}.

(** A version recorded for [a.txt] whose snapshot is not on disk. *)
Definition recorded : Tools :=
  {| valves := valves tools;
     versions := {[ "/srv/data/a.txt" := ["/srv/data/a_v1_20250101_120000.txt"] ]} |}.

End Sample.

(** ** More sample worlds *)

Module World.

(** The sample tree with a folder [docs] and a link [cur] to [a.txt]. *)
Definition shared : FS :=
  {| cwd := ["home"];
     links := {[ ["srv"; "data"; "cur"] := "a.txt" ]};
     nodes := {[ ["srv"] := Dir;
                 ["srv"; "data"] := Dir;
                 ["srv"; "data"; "a.txt"] := File (Bytes "old");
                 ["srv"; "data"; "docs"] := Dir;
                 ["srv"; "data"; "docs"; "n.txt"] := File (Bytes "note") ]} |}.

(** The same root shown as it is. *)
Definition open_tools : Tools := __init__ "/srv/data" None.

(** The envelope a call returned. *)
Definition envelope (r : FS * result (list field)) : list field :=
  match snd r with
  | Ok env => env
  | Raise _ => []
  end.

End World.

(** Discharges the premises of [H] that are among the hypotheses. *)
Ltac feed H :=
  repeat match type of H with
         | ?P -> _ =>
             let h := fresh in
             assert (h : P) by assumption; specialize (H h); clear h
         end.

(** * Properties *)

(** ** Strings *)

Lemma append_nil_l (s : string) : "" +:+ s = s.
Proof. reflexivity. Qed.

Lemma append_cons (c : ascii) (s t : string) : String c s +:+ t = String c (s +:+ t).
Proof. reflexivity. Qed.

Lemma append_nil_r (s : string) : s +:+ "" = s.
Proof. induction s as [|c s IH]; [done | by rewrite append_cons, IH]. Qed.

Lemma append_assoc (s t u : string) : (s +:+ t) +:+ u = s +:+ (t +:+ u).
Proof. induction s as [|c s IH]; [done | by rewrite !append_cons, IH]. Qed.

Lemma prefix_app (s t : string) : String.prefix s (s +:+ t) = true.
Proof.
  induction s as [|c s IH].
  - by destruct t.
  - rewrite append_cons. simpl.
    destruct (Ascii.ascii_dec c c) as [_|Hne]; [exact IH | by destruct Hne].
Qed.

Lemma concat_app (sep : string) (l k : list string) :
  l <> [] -> k <> [] ->
  String.concat sep (l ++ k) = String.concat sep l +:+ sep +:+ String.concat sep k.
Proof.
  intros Hl Hk. induction l as [|x l IH]; [done|].
  destruct l as [|y l].
  - simpl. destruct k; [done|]. reflexivity.
  - change (String.concat sep ((x :: y :: l) ++ k))
      with (x +:+ sep +:+ String.concat sep ((y :: l) ++ k)).
    rewrite IH by done.
    change (String.concat sep (x :: y :: l)) with (x +:+ sep +:+ String.concat sep (y :: l)).
    by rewrite !append_assoc.
Qed.

Lemma join_cons (x y : string) (l : list string) :
  Str.join (x :: y :: l) = x +:+ "/" +:+ Str.join (y :: l).
Proof. reflexivity. Qed.

Lemma join_prefix (a : string) (l k : list string) :
  String.prefix (a +:+ Str.join l) (a +:+ Str.join (l ++ k)) = true.
Proof.
  destruct l as [|x l].
  - simpl. unfold Str.join at 1. simpl. rewrite append_nil_r. apply prefix_app.
  - destruct k as [|y k].
    + rewrite app_nil_r. rewrite <- (append_nil_r (a +:+ Str.join (x :: l))) at 2.
      apply prefix_app.
    + unfold Str.join. rewrite concat_app by done.
      rewrite <- append_assoc. apply prefix_app.
Qed.

Lemma split_cons_sep (s : string) : Str.split (String "/" s) = "" :: Str.split s.
Proof. reflexivity. Qed.

Lemma split_not_nil (s : string) : Str.split s <> [].
Proof.
  induction s as [|c s IH]; simpl; [done|].
  destruct (Ascii.eqb c Str.sep); [done|]. by destruct (Str.split s).
Qed.

Lemma split_no_sep (s : string) : Forall (fun x => Str.has_sep x = false) (Str.split s).
Proof.
  induction s as [|c s IH]; simpl.
  - by constructor.
  - destruct (Ascii.eqb c Str.sep) eqn:Hc.
    + by constructor.
    + destruct (Str.split s) as [|w ws].
      * constructor; [|done]. simpl. by rewrite Hc.
      * inversion IH; subst. constructor; [|done]. simpl. by rewrite Hc.
Qed.

(** A component followed by a separator and more text. *)
Lemma split_app_sep (x t : string) :
  Str.has_sep x = false -> Str.split (x +:+ "/" +:+ t) = x :: Str.split t.
Proof.
  induction x as [|c x IH]; intros Hx.
  - reflexivity.
  - simpl in Hx. apply orb_false_iff in Hx as [Hc Hx].
    rewrite append_cons. simpl. rewrite Hc, (IH Hx). reflexivity.
Qed.

Lemma split_single (x : string) : Str.has_sep x = false -> Str.split x = [x].
Proof.
  induction x as [|c x IH]; intros Hx; [done|].
  simpl in Hx. apply orb_false_iff in Hx as [Hc Hx].
  simpl. by rewrite Hc, (IH Hx).
Qed.

Lemma split_join (l : list string) :
  l <> [] -> Forall (fun x => Str.has_sep x = false) l -> Str.split (Str.join l) = l.
Proof.
  intros Hl Hall. induction l as [|x l IH]; [done|].
  inversion Hall as [|? ? Hx Hrest]; subst.
  destruct l as [|y l].
  - by apply split_single.
  - rewrite join_cons, split_app_sep by done. f_equal. by apply IH.
Qed.

Lemma filter_all {A} (f : A -> bool) (l : list A) :
  Forall (fun x => f x = true) l -> List.filter f l = l.
Proof.
  induction 1 as [|x l Hx _ IH]; simpl; [done|]. by rewrite Hx, IH.
Qed.

(** ** Computations and envelopes *)

Lemma mbind_ok {A B} (m : M A) (k : A -> M B) (fs fs' : FS) (b : B) :
  mbind m k fs = (fs', Ok b) ->
  exists fs1 a, m fs = (fs1, Ok a) /\ k a fs1 = (fs', Ok b).
Proof.
  unfold mbind. destruct (m fs) as [fs1 [a|e]]; [|done]. eauto.
Qed.

Lemma mbind_run {A B} (m : M A) (k : A -> M B) (fs fs1 : FS) (a : A) :
  m fs = (fs1, Ok a) -> mbind m k fs = k a fs1.
Proof. unfold mbind. by intros ->. Qed.

Lemma mbind_raise {A B} (m : M A) (k : A -> M B) (fs fs1 : FS) (e : exn) :
  m fs = (fs1, Raise e) -> mbind m k fs = (fs1, Raise e).
Proof. unfold mbind. by intros ->. Qed.

Lemma try_except_ok {A} (body : M A) (h : exn -> M A) (fs fs1 : FS) (a : A) :
  body fs = (fs1, Ok a) -> try_except body h fs = (fs1, Ok a).
Proof. unfold try_except. by intros ->. Qed.

Lemma try_except_raise {A} (body : M A) (h : exn -> M A) (fs fs1 : FS) (e : exn) :
  body fs = (fs1, Raise e) -> try_except body h fs = h e fs1.
Proof. unfold try_except. by intros ->. Qed.

Lemma try_except_inv {A} (body : M A) (h : exn -> M A) (fs fs' : FS) (r : result A) :
  try_except body h fs = (fs', r) ->
  (exists a, body fs = (fs', Ok a) /\ r = Ok a) \/
  (exists fs1 e, body fs = (fs1, Raise e) /\ h e fs1 = (fs', r)).
Proof.
  unfold try_except. destruct (body fs) as [fs1 [a|e]].
  - intros [= <- <-]. left. eauto.
  - intros H. right. eauto.
Qed.

Lemma ask_ok {A} (f : FS -> result A) (fs fs' : FS) (a : A) :
  ask f fs = (fs', Ok a) -> fs' = fs /\ f fs = Ok a.
Proof. unfold ask. by intros [= <- ->]. Qed.

Lemma test_ok (f : FS -> bool) (fs fs' : FS) (b : bool) :
  test f fs = (fs', Ok b) -> fs' = fs /\ b = f fs.
Proof. unfold test. by intros [= <- <-]. Qed.

Lemma call_ok (f : FS -> result FS) (fs fs' : FS) (u : unit) :
  call f fs = (fs', Ok u) -> f fs = Ok fs'.
Proof. unfold call. destruct (f fs); [by intros [= <-]|done]. Qed.

Lemma call_state (f : FS -> result FS) (fs fs' : FS) (r : result unit) :
  call f fs = (fs', r) -> fs' = fs \/ f fs = Ok fs'.
Proof. unfold call. destruct (f fs); intros [= <- _]; auto. Qed.

Lemma dict_get_set (d : list field) (k k' : string) (v : value) :
  dict_get (dict_set d k' v) k = if String.eqb k' k then Some v else dict_get d k.
Proof.
  induction d as [|[k0 v0] d IH]; simpl.
  - by destruct (String.eqb k' k).
  - destruct (String.eqb_spec k0 k') as [->|Hne]; simpl.
    + by destruct (String.eqb k' k).
    + destruct (String.eqb_spec k0 k) as [->|Hne']; [|exact IH].
      destruct (String.eqb_spec k' k) as [->|_]; [done|reflexivity].
Qed.

(** Once the root resolves, [_result] returns an envelope, and apart from
    [debug_info] it holds the three tags and the keyword arguments. *)
Lemma result_fields (self : Tools) (fs : FS) (ok : bool) (action subject_type : string)
      (kwargs : list field) (base : pathlib.PurePath) :
  pathlib.resolve fs (pathlib.Path (root_restriction_directory (valves self))) = Some base ->
  exists env,
    _result self fs ok action subject_type kwargs = Ok env /\
    forall k, k <> "debug_info" ->
      dict_get env k =
      dict_get (dict_update [KV "ok" (VBool ok); KV "action" (VStr action);
                             KV "subject_type" (VStr subject_type)] kwargs) k.
Proof.
  intros Hbase. unfold _result, resolved. rewrite Hbase.
  destruct (debug (valves self)); simpl.
  - eexists. split; [reflexivity|]. intros k Hk.
    unfold dict_update at 1. simpl fold_left. rewrite dict_get_set.
    destruct (String.eqb_spec "debug_info" k) as [<-|_]; [done|reflexivity].
  - eexists. split; [reflexivity|]. done.
Qed.

Lemma result_get (self : Tools) (fs : FS) (ok : bool) (action subject_type : string)
      (kwargs env : list field) :
  _result self fs ok action subject_type kwargs = Ok env ->
  forall k, k <> "debug_info" ->
    dict_get env k =
    dict_get (dict_update [KV "ok" (VBool ok); KV "action" (VStr action);
                           KV "subject_type" (VStr subject_type)] kwargs) k.
Proof.
  unfold _result. destruct (debug (valves self)).
  - destruct (resolved fs _) as [b|]; simpl; [|done]. intros [= <-] k Hk.
    unfold dict_update at 1. simpl fold_left. rewrite dict_get_set.
    destruct (String.eqb_spec "debug_info" k) as [<-|_]; [done|reflexivity].
  - by intros [= <-].
Qed.

Lemma result_raises_loop (self : Tools) (fs : FS) (ok : bool) (a s : string)
      (kw : list field) (e : exn) :
  _result self fs ok a s kw = Raise e -> e = symlink_loop.
Proof.
  unfold _result, resolved. destruct (debug _); [|done].
  destruct (pathlib.resolve _ _); simpl; [done|]. by intros [= <-].
Qed.

Lemma result_with_nodes (self : Tools) (fs : FS) (n : gmap (list string) node)
      (ok : bool) (a s : string) (kw : list field) :
  _result self (with_nodes fs n) ok a s kw = _result self fs ok a s kw.
Proof. reflexivity. Qed.

Lemma error_result_not_ok (self : Tools) (action subject_type msg : string)
      (fs fs' : FS) (env : list field) :
  error_result self action subject_type msg fs = (fs', Ok env) ->
  dict_get env "ok" = Some (VBool false).
Proof.
  intros H. apply ask_ok in H as [_ H].
  rewrite (result_get _ _ _ _ _ _ _ H) by done. reflexivity.
Qed.

(** ** Paths *)

Lemma parts_are_parts (s : string) :
  Forall (fun x => pathlib.is_part x = true /\ Str.has_sep x = false)
         (pathlib.parts (pathlib.Path s)).
Proof.
  simpl. pose proof (split_no_sep s) as H.
  induction H as [|x l Hx _ IH]; simpl; [done|].
  destruct (pathlib.is_part x) eqn:Hp; [|done]. by constructor.
Qed.

Lemma starts_without_sep (x t : string) :
  pathlib.is_part x = true -> Str.has_sep x = false ->
  Str.startswith (x +:+ t) "/" = false.
Proof.
  destruct x as [|c x]; [done|]. intros _ Hx. simpl in Hx.
  apply orb_false_iff in Hx as [Hc _].
  rewrite append_cons. unfold Str.startswith.
  change (String.prefix "/" (String c (x +:+ t)))
    with (if Ascii.ascii_dec "/" c then String.prefix "" (x +:+ t) else false).
  destruct (Ascii.ascii_dec "/" c) as [<-|_]; [done|reflexivity].
Qed.

(** A relative path made of proper parts parses back to itself. *)
Lemma path_str_relative (r : list string) :
  Forall (fun x => pathlib.is_part x = true /\ Str.has_sep x = false) r ->
  pathlib.Path (pathlib.str (pathlib.mkPath "" r)) = pathlib.mkPath "" r.
Proof.
  intros Hr. destruct r as [|x r]; [reflexivity|].
  change (pathlib.str (pathlib.mkPath "" (x :: r))) with (Str.join (x :: r)).
  unfold pathlib.Path. f_equal.
  - unfold posixpath.initial_slashes.
    assert (Str.startswith (Str.join (x :: r)) "/" = false) as ->; [|done].
    inversion Hr as [|? ? [Hp Hs] _]; subst.
    destruct r as [|y r].
    + rewrite <- (append_nil_r x). by apply starts_without_sep.
    + rewrite join_cons. by apply starts_without_sep.
  - rewrite split_join; [|done|].
    + apply filter_all. eapply Forall_impl; [exact Hr|]. by intros ? [? _].
    + eapply Forall_impl; [exact Hr|]. by intros ? [_ ?].
Qed.

Lemma strip_prefix_app (base p rest : list string) :
  pathlib.strip_prefix base p = Some rest -> p = base ++ rest.
Proof.
  revert p. induction base as [|b base IH]; intros p; simpl.
  - by intros [= ->].
  - destruct p as [|c p]; [done|].
    destruct (String.eqb_spec b c) as [->|_]; [|done].
    intros H. by rewrite (IH _ H).
Qed.

Lemma strip_prefix_complete (base rest : list string) :
  pathlib.strip_prefix base (base ++ rest) = Some rest.
Proof.
  induction base as [|b base IH]; simpl; [done|]. by rewrite String.eqb_refl.
Qed.

Lemma relative_to_inside (p base : pathlib.PurePath) (rest : list string) :
  pathlib.anchor p = pathlib.anchor base ->
  pathlib.parts p = pathlib.parts base ++ rest ->
  pathlib.relative_to p base = Ok (pathlib.mkPath "" rest).
Proof.
  intros Ha Hp. unfold pathlib.relative_to.
  by rewrite Ha, String.eqb_refl, Hp, strip_prefix_complete.
Qed.

Lemma relative_to_outside (p base : pathlib.PurePath) :
  ~ inside base p -> exists m, pathlib.relative_to p base = Raise (ValueError m).
Proof.
  intros Hout. unfold pathlib.relative_to.
  destruct (String.eqb_spec (pathlib.anchor p) (pathlib.anchor base)) as [Ha|_]; [|eauto].
  destruct (pathlib.strip_prefix _ _) as [rest|] eqn:Hs; [|eauto].
  exfalso. apply Hout. split; [done|]. exists rest. by apply strip_prefix_app.
Qed.

Lemma relative_to_cases (p base : pathlib.PurePath) :
  (exists rel, pathlib.relative_to p base = Ok rel) \/
  (exists m, pathlib.relative_to p base = Raise (ValueError m)).
Proof.
  unfold pathlib.relative_to.
  destruct (String.eqb _ _); [destruct (pathlib.strip_prefix _ _)|]; eauto.
Qed.

Lemma str_resolved_prefix (b k : list string) :
  Str.startswith (pathlib.str (pathlib.mkPath "/" (b ++ k)))
                 (pathlib.str (pathlib.mkPath "/" b)) = true.
Proof.
  unfold Str.startswith, pathlib.str, Str.join. simpl pathlib.anchor. simpl pathlib.parts.
  destruct b as [|x b].
  - simpl. by destruct (String.concat "/" k).
  - destruct k as [|y k].
    + rewrite app_nil_r.
      rewrite <- (append_nil_r ("/" +:+ String.concat "/" (x :: b))) at 2.
      apply prefix_app.
    + rewrite concat_app by done. rewrite <- append_assoc. apply prefix_app.
Qed.

Lemma str_extended_prefix (a : string) (l k : list string) :
  pathlib.str (pathlib.mkPath a l) <> "." ->
  Str.startswith (pathlib.str (pathlib.mkPath a (l ++ k)))
                 (pathlib.str (pathlib.mkPath a l)) = true.
Proof.
  unfold Str.startswith, pathlib.str. simpl pathlib.anchor. simpl pathlib.parts.
  destruct a as [|c a].
  - destruct l as [|x l]; [done|]. intros _. exact (join_prefix "" (x :: l) k).
  - intros _. exact (join_prefix (String c a) l k).
Qed.

Lemma resolve_anchor (fs : FS) (p q : pathlib.PurePath) :
  pathlib.resolve fs p = Some q -> pathlib.anchor q = "/".
Proof.
  unfold pathlib.resolve. destruct (pathlib.walk _ _ _ _); [|done].
  by intros [= <-].
Qed.

Lemma anchor_of_absolute (path : string) :
  posixpath.isabs path = true -> pathlib.anchor (pathlib.Path path) <> "".
Proof.
  unfold posixpath.isabs, pathlib.Path, posixpath.initial_slashes. simpl.
  intros ->. simpl. by destruct (_ && _).
Qed.

(** Joining an absolute path onto a base drops the base. *)
Lemma truediv_absolute (base : pathlib.PurePath) (path : string) :
  posixpath.isabs path = true -> pathlib.truediv base path = pathlib.Path path.
Proof.
  intros Habs. unfold pathlib.truediv.
  destruct (String.eqb_spec (pathlib.anchor (pathlib.Path path)) "") as [E|_]; [|done].
  by apply anchor_of_absolute in Habs.
Qed.

Lemma inside_startswith (base p : pathlib.PurePath) :
  pathlib.anchor base = "/" -> inside base p ->
  Str.startswith (pathlib.str p) (pathlib.str base) = true.
Proof.
  destruct base as [ab b], p as [ap q]. unfold inside. simpl.
  intros -> [-> [k ->]]. apply str_resolved_prefix.
Qed.

(** ** Following links *)

Lemma walk_nil (fuel : nat) (lk : gmap (list string) string) (cur : list string) :
  pathlib.walk fuel lk cur [] = Some cur.
Proof. by destruct fuel. Qed.

Lemma walk_cons (fuel : nat) (lk : gmap (list string) string)
      (cur : list string) (name : string) (rest : list string) :
  pathlib.walk fuel lk cur (name :: rest) =
  if negb (pathlib.is_part name) then pathlib.walk fuel lk cur rest
  else if String.eqb name ".." then pathlib.walk fuel lk (removelast cur) rest
  else match lk !! (cur ++ [name]) with
       | None => pathlib.walk fuel lk (cur ++ [name]) rest
       | Some target =>
           match fuel with
           | O => None
           | S fuel' =>
               pathlib.walk fuel' lk (if posixpath.isabs target then [] else cur)
                            (Str.split target ++ rest)
           end
       end.
Proof. by destruct fuel. Qed.

Lemma filter_filter_part (l : list string) :
  List.filter pathlib.is_part (List.filter pathlib.is_part l)
  = List.filter pathlib.is_part l.
Proof.
  induction l as [|x l IH]; simpl; [done|].
  destruct (pathlib.is_part x) eqn:Hx; simpl; [|done]. by rewrite Hx, IH.
Qed.

(** Components that are not parts are skipped, so they may be dropped
    beforehand. *)
Lemma walk_filter (fuel : nat) (lk : gmap (list string) string) :
  forall cur l,
    pathlib.walk fuel lk cur (List.filter pathlib.is_part l) = pathlib.walk fuel lk cur l.
Proof.
  induction fuel as [|fuel IHf];
    (intros cur l; revert cur; induction l as [|name l IH]; intros cur; [done|]);
    simpl List.filter; rewrite (walk_cons _ lk cur name l);
    destruct (pathlib.is_part name) eqn:Hp; simpl negb; cbv iota;
    try apply IH;
    rewrite walk_cons, Hp; simpl negb; cbv iota;
    (destruct (String.eqb name ".."); [apply IH|]);
    (destruct (lk !! (cur ++ [name])) as [target|]; [|apply IH]).
  - reflexivity.
  - rewrite <- (IHf _ (Str.split target ++ l)).
    rewrite <- (IHf _ (Str.split target ++ List.filter pathlib.is_part l)).
    by rewrite !List.filter_app, filter_filter_part.
Qed.

Lemma walk_snoc (lk : gmap (list string) string) (name : string) :
  pathlib.is_part name = true -> name <> ".." ->
  forall fuel cur l d,
    pathlib.walk fuel lk cur l = Some d ->
    lk !! (d ++ [name]) = None ->
    pathlib.walk fuel lk cur (l ++ [name]) = Some (d ++ [name]).
Proof.
  intros Hp Hdd. apply String.eqb_neq in Hdd.
  induction fuel as [|fuel IHf];
    (intros cur l; revert cur; induction l as [|n l IH]; intros cur d Hw Hfree;
     [ rewrite walk_nil in Hw; injection Hw as <-;
       simpl app; rewrite walk_cons, Hp, Hdd, Hfree; simpl negb; cbv iota;
       apply walk_nil
     | ]);
    rewrite walk_cons in Hw; simpl app; rewrite walk_cons;
    (destruct (negb (pathlib.is_part n)); [by apply IH|]);
    (destruct (String.eqb n ".."); [by apply IH|]);
    (destruct (lk !! (cur ++ [n])) as [target|]; [|by apply IH]).
  - done.
  - rewrite app_assoc. by apply IHf.
Qed.

Lemma last_in {A} (l : list A) (d : A) : l <> [] -> In (List.last l d) l.
Proof.
  induction l as [|x l IH]; [done|]. intros _.
  destruct l as [|y l]; [by left|]. right. by apply IH.
Qed.

(** When the last component is not a link, following it changes nothing. *)
Lemma locate_nofollow_follow (fs : FS) (s : string) (k : list string) :
  os.locate_nofollow fs s = Some k ->
  links fs !! k = None ->
  os.locate fs s = Some k.
Proof.
  unfold os.locate_nofollow.
  set (cs := List.filter pathlib.is_part (Str.split s)).
  destruct (String.eqb_spec (List.last cs "") "") as [|Hne]; [done|].
  destruct (String.eqb_spec (List.last cs "") "..") as [|Hdd]; [done|].
  cbv beta iota delta [orb].
  destruct (pathlib.walk pathlib.MAXSYMLINKS (links fs) (os.start fs s) (removelast cs))
    as [d|] eqn:Hd; [|done].
  intros [= <-] Hfree. unfold os.locate.
  rewrite <- walk_filter. fold cs.
  assert (Hcs : cs <> []) by (intros E; by rewrite E in Hne).
  replace (pathlib.walk pathlib.MAXSYMLINKS (links fs) (os.start fs s) cs)
    with (pathlib.walk pathlib.MAXSYMLINKS (links fs) (os.start fs s)
                       (removelast cs ++ [List.last cs ""]))
    by (by rewrite <- app_removelast_last).
  apply walk_snoc; try done.
  pose proof (last_in cs "" Hcs) as Hin. unfold cs in Hin at 2.
  by apply List.filter_In in Hin as [_ Hin].
Qed.

(** ** Confinement under the root *)

Lemma resolve_under_restriction_root (self : Tools) (fs : FS) (path p : string) :
  _resolve_under_restriction self fs path = Ok p ->
  exists base,
    pathlib.resolve fs (pathlib.Path (root_restriction_directory (valves self))) = Some base.
Proof.
  unfold _resolve_under_restriction, resolved.
  destruct (pathlib.resolve fs (pathlib.Path _)) as [base|]; [eauto|done].
Qed.

Lemma resolve_under_restriction_valves (s s' : Tools) (fs : FS) (path : string) :
  valves s' = valves s ->
  _resolve_under_restriction s' fs path = _resolve_under_restriction s fs path.
Proof. unfold _resolve_under_restriction. by intros ->. Qed.

(** What the check of [_resolve_under_restriction] decides, for any
    candidate: the outcome is given by the string prefix test alone, so a
    canonical form inside the root is always accepted. *)
Lemma resolve_under_restriction_outcome
  (self : Tools) (fs : FS) (path : string) (base p : pathlib.PurePath) :
  pathlib.resolve fs (pathlib.Path (root_restriction_directory (valves self))) = Some base ->
  pathlib.resolve fs (pathlib.truediv base path) = Some p ->
  _resolve_under_restriction self fs path =
  (if Str.startswith (pathlib.str p) (pathlib.str base) then Ok (pathlib.str p)
   else Raise (escapes path)) /\
  (inside base p -> _resolve_under_restriction self fs path = Ok (pathlib.str p)).
Proof.
  intros Hbase Hp.
  assert (Hrun : _resolve_under_restriction self fs path =
                 if Str.startswith (pathlib.str p) (pathlib.str base)
                 then Ok (pathlib.str p) else Raise (escapes path)).
  { unfold _resolve_under_restriction, resolved. rewrite Hbase. simpl. rewrite Hp. simpl.
    by destruct (Str.startswith _ _). }
  split; [exact Hrun|]. intros Hin.
  by rewrite Hrun, (inside_startswith base p (resolve_anchor _ _ _ Hbase) Hin).
Qed.



(** C1. The check is a plain string prefix test: a sibling of the root whose
    name starts with the root's name resolves outside the root and is
    returned all the same. *)
Theorem sibling_sharing_prefix_is_accepted :
  let base := pathlib.mkPath "/" ["srv"; "data"] in
  let p := pathlib.mkPath "/" ["srv"; "data_evil"; "x"] in
  pathlib.resolve Sample.plain
    (pathlib.Path (root_restriction_directory (valves Sample.tools))) = Some base /\
  pathlib.resolve Sample.plain (pathlib.truediv base "../data_evil/x") = Some p /\
  ~ inside base p /\
  _resolve_under_restriction Sample.tools Sample.plain "../data_evil/x"
  = Ok "/srv/data_evil/x".
Proof.
  simpl. repeat split; try (vm_compute; reflexivity).
  intros [_ [k Hk]]. simpl in Hk. discriminate.
Qed.

(** ** The display mapper *)

(** Once both roots resolve, the display mapper returns a string. *)
Lemma get_relative_path_ok (self : Tools) (fs : FS) (absolute_path : string)
      (base sb : pathlib.PurePath) :
  pathlib.resolve fs (pathlib.Path (root_restriction_directory (valves self))) = Some base ->
  pathlib.resolve fs (pathlib.Path (display_root_of (valves self))) = Some sb ->
  exists out, _get_relative_path self fs absolute_path = Ok out.
Proof.
  intros Hbase Hsb. unfold _get_relative_path, resolved.
  destruct (return_relative_paths (valves self)); simpl; [|eauto].
  rewrite Hbase. simpl. rewrite Hsb. simpl.
  destruct (relative_to_cases (pathlib.Path absolute_path) base) as [[rel ->]|[m ->]].
  - destruct (String.eqb _ _); eauto.
  - eauto.
Qed.


(** C8 (as amended). With relative-path mode on and a display root whose
    canonical form differs from the real root's: a path under the real root
    is shown as the display root, as [pathlib] parses it, followed by the
    parts of the path below the real root, and this string starts with the
    parsed display root unless that is ["."]; a path not under the real root
    is returned unchanged. *)
Theorem display_path_mapping
  (self : Tools) (fs : FS) (absolute_path : string) (base sb : pathlib.PurePath) :
  return_relative_paths (valves self) = true ->
  pathlib.resolve fs (pathlib.Path (root_restriction_directory (valves self))) = Some base ->
  pathlib.resolve fs (pathlib.Path (display_root_of (valves self))) = Some sb ->
  pathlib.str sb <> pathlib.str base ->
  let shown := pathlib.Path (display_root_of (valves self)) in
  let p := pathlib.Path absolute_path in
  (forall rest,
      pathlib.anchor p = pathlib.anchor base ->
      pathlib.parts p = pathlib.parts base ++ rest ->
      let out := pathlib.mkPath (pathlib.anchor shown) (pathlib.parts shown ++ rest) in
      _get_relative_path self fs absolute_path = Ok (pathlib.str out) /\
      (pathlib.str shown <> "." ->
       Str.startswith (pathlib.str out) (pathlib.str shown) = true)) /\
  (~ inside base p -> _get_relative_path self fs absolute_path = Ok absolute_path).
Proof.
  intros Hrel Hbase Hsb Hdistinct shown p.
  apply String.eqb_neq in Hdistinct.
  split.
  - intros rest Ha Hp out.
    assert (Hproper : Forall (fun x => pathlib.is_part x = true /\ Str.has_sep x = false) rest).
    { pose proof (parts_are_parts absolute_path) as H. fold p in H.
      rewrite Hp in H. by apply Forall_app in H as [_ H]. }
    assert (Hjoin : pathlib.truediv shown (pathlib.str (pathlib.mkPath "" rest)) = out).
    { unfold pathlib.truediv. by rewrite (path_str_relative rest Hproper). }
    split.
    + unfold _get_relative_path, resolved. rewrite Hrel, Hbase. simpl.
      rewrite Hsb. simpl. fold p. rewrite (relative_to_inside p base rest Ha Hp).
      rewrite Hdistinct. fold shown. by rewrite Hjoin.
    + intros Hdot. unfold out. destruct shown as [a l]. by apply str_extended_prefix.
  - intros Hout. destruct (relative_to_outside p base Hout) as [m Hm].
    unfold _get_relative_path, resolved. rewrite Hrel, Hbase. simpl.
    rewrite Hsb. simpl. fold p. by rewrite Hm.
Qed.

Lemma display_path_mapping_witness :
  _get_relative_path Sample.tools Sample.plain "/srv/data/docs/a.txt"
  = Ok "/virtual/docs/a.txt" /\
  _get_relative_path Sample.tools Sample.plain "/etc/passwd" = Ok "/etc/passwd".
Proof.
  destruct (display_path_mapping Sample.tools Sample.plain "/srv/data/docs/a.txt"
              (pathlib.mkPath "/" ["srv"; "data"]) (pathlib.mkPath "/" ["virtual"]))
    as [Hin _]; try (vm_compute; reflexivity); [by vm_compute|].
  destruct (display_path_mapping Sample.tools Sample.plain "/etc/passwd"
              (pathlib.mkPath "/" ["srv"; "data"]) (pathlib.mkPath "/" ["virtual"]))
    as [_ Hout]; try (vm_compute; reflexivity); [by vm_compute|].
  split.
  - apply (Hin ["docs"; "a.txt"]); vm_compute; reflexivity.
  - apply Hout. intros [_ [k Hk]]. vm_compute in Hk. discriminate.
Defined.

(** C8, the claim as stated: the mapped path starts with the display root,
    yet the string of the real root occurs in it, because it occurs in the
    part of the path below the real root. *)
Lemma display_path_contains_root_string :
  let shown := _get_relative_path Sample.tools Sample.plain
                                  "/srv/data/backup/srv/data/x" in
  spoof_directory_root (valves Sample.tools) = "/virtual" /\
  root_restriction_directory (valves Sample.tools) = "/srv/data" /\
  return_relative_paths (valves Sample.tools) = true /\
  debug (valves Sample.tools) = false /\
  inside (pathlib.mkPath "/" ["srv"; "data"])
         (pathlib.Path "/srv/data/backup/srv/data/x") /\
  shown = Ok "/virtual/backup/srv/data/x" /\
  Str.startswith "/virtual/backup/srv/data/x" "/virtual" = true /\
  Str.contains "/virtual/backup/srv/data/x" "/srv/data" = true.
Proof.
  repeat split; try (vm_compute; reflexivity).
  exists ["backup"; "srv"; "data"; "x"]. vm_compute. reflexivity.
Qed.

(** ** The file system *)

Lemma with_nodes_id (fs : FS) : with_nodes fs (nodes fs) = fs.
Proof. by destruct fs. Qed.

Lemma locate_with_nodes (fs : FS) (n : gmap (list string) node) (s : string) :
  os.locate (with_nodes fs n) s = os.locate fs s.
Proof. reflexivity. Qed.

Lemma locate_nofollow_with_nodes (fs : FS) (n : gmap (list string) node) (s : string) :
  os.locate_nofollow (with_nodes fs n) s = os.locate_nofollow fs s.
Proof. reflexivity. Qed.

Lemma locate_nofollow_holding (fs : FS) (k : list string) (c : content) (s : string) :
  os.locate_nofollow (holding fs k c) s = os.locate_nofollow fs s.
Proof. reflexivity. Qed.

Lemma write_key_nodes (fs fs' : FS) (k : list string) (c : content) :
  os.write_key fs k c = Ok fs' ->
  fs' = with_nodes fs (<[k := File c]> (nodes fs)).
Proof.
  unfold os.write_key. destruct k; [done|].
  destruct (negb _); [done|]. destruct (nodes fs !! _) as [[]|]; by intros [= <-].
Qed.

Lemma removelast_ne {A} (l : list A) : l <> [] -> removelast l <> l.
Proof.
  intros Hl H. apply (f_equal (@length A)) in H.
  destruct l as [|x l]; [done|]. 
  rewrite (app_removelast_last x Hl) in H at 2.
  rewrite length_app in H. simpl in H. lia.
Qed.

Lemma is_dir_key_insert_ne (n : gmap (list string) node) (k k' : list string) (x : node) :
  k <> k' -> os.is_dir_key (<[k := x]> n) k' = os.is_dir_key n k'.
Proof.
  intros Hne. unfold os.is_dir_key. destruct k'; [done|].
  by rewrite lookup_insert_ne.
Qed.

Lemma holding_keeps (fs : FS) (k : list string) (c : content) :
  nodes fs !! k = None ->
  forall key x, nodes fs !! key = Some x -> nodes (holding fs k c) !! key = Some x.
Proof.
  intros Hfresh key x Hkey. unfold holding. simpl.
  rewrite lookup_insert_ne; [done|]. intros <-. congruence.
Qed.

Lemma makedirs_from_keeps (rest : list string) :
  forall (n n' : gmap (list string) node) (cur : list string),
    os.makedirs_from n cur rest = Ok n' ->
    forall key x, n !! key = Some x -> n' !! key = Some x.
Proof.
  induction rest as [|c rest IH]; intros n n' cur; simpl.
  - by intros [= <-].
  - destruct (n !! (cur ++ [c])) as [[]|] eqn:E; [done| |].
    + apply IH.
    + intros H key x Hkey. apply (IH _ _ _ H).
      rewrite lookup_insert_ne; [done|]. intros <-. congruence.
Qed.

Lemma makedirs_cwd (fs fs' : FS) (name : string) :
  os.makedirs fs name = Ok fs' -> cwd fs' = cwd fs.
Proof.
  unfold os.makedirs. destruct (String.eqb name ""); [done|].
  destruct (os.locate fs name); [|done].
  destruct (os.makedirs_from _ _ _); simpl; [|done]. by intros [= <-].
Qed.

Lemma write_file_cwd (fs fs' : FS) (path : string) (c : content) :
  os.write_file fs path c = Ok fs' -> cwd fs' = cwd fs.
Proof.
  unfold os.write_file. destruct (os.locate fs path); [|done].
  intros H. by apply write_key_nodes in H as ->.
Qed.


Lemma ensure_parent_dir_nodes (path : string) (fs fs' : FS) (r : result unit) :
  _ensure_parent_dir path fs = (fs', r) -> exists n, fs' = with_nodes fs n.
Proof.
  unfold _ensure_parent_dir.
  assert (Hid : fs = with_nodes fs (nodes fs)) by (by destruct fs).
  destruct (negb _).
  - unfold call, os.makedirs. destruct (String.eqb _ ""); [intros [= <- _]; eauto|].
    destruct (os.locate fs _); [|intros [= <- _]; eauto].
    destruct (os.makedirs_from _ _ _); simpl; intros [= <- _]; eauto.
  - intros [= <- _]. eauto.
Qed.

Lemma ensure_parent_dir_keeps (path : string) (fs fs1 : FS) (r : result unit) :
  _ensure_parent_dir path fs = (fs1, r) ->
  forall key x, nodes fs !! key = Some x -> nodes fs1 !! key = Some x.
Proof.
  unfold _ensure_parent_dir. destruct (negb _); [|by intros [= <- _]].
  unfold call, os.makedirs. destruct (String.eqb _ ""); [by intros [= <- _]|].
  destruct (os.locate fs _); [|by intros [= <- _]].
  destruct (os.makedirs_from _ _ _) as [n'|] eqn:E; simpl; intros [= <- _]; [|done].
  simpl. by eapply makedirs_from_keeps.
Qed.

(** ** Atomic write *)

Section TemporaryFile.

Variables (fs1 : FS) (temp : string) (k : list string).
Hypothesis Hk : os.locate_nofollow fs1 temp = Some k.
Hypothesis Hlink : links fs1 !! k = None.
Hypothesis Hfresh : nodes fs1 !! k = None.
Hypothesis Hne : k <> [].
Hypothesis Hparent : os.is_dir_key (nodes fs1) (removelast k) = true.

Lemma write_temp (c c' : content) :
  os.write_file (holding fs1 k c) temp c' = Ok (holding fs1 k c').
Proof.
  unfold os.write_file, holding.
  rewrite locate_with_nodes, (locate_nofollow_follow _ _ _ Hk Hlink).
  unfold os.write_key. destruct k as [|x k']; [done|]. simpl nodes.
  rewrite is_dir_key_insert_ne by (by apply not_eq_sym, removelast_ne).
  rewrite Hparent. cbv beta iota delta [negb]. rewrite lookup_insert_eq.
  unfold with_nodes. simpl. by rewrite insert_insert_eq.
Qed.

Lemma unlink_temp (c : content) : os.unlink (holding fs1 k c) temp = Ok fs1.
Proof.
  unfold os.unlink, holding. rewrite locate_nofollow_with_nodes, Hk.
  simpl links. rewrite Hlink. simpl nodes. rewrite lookup_insert_eq.
  rewrite delete_insert_eq, delete_id by done.
  change (Ok (with_nodes fs1 (nodes fs1)) = Ok fs1). by rewrite with_nodes_id.
Qed.


Lemma call_write_temp (c c' : content) :
  call (fun fs => os.write_file fs temp c') (holding fs1 k c)
  = (holding fs1 k c', Ok tt).
Proof. unfold call. by rewrite write_temp. Qed.

(** The [try] block. A raise leaves [fs1] with the temporary file; a normal
    end means that no call failed and that the replace ran on the fully
    written temporary file. *)
Lemma try_block_result (o : Oracle) (file_path text : string) (c0 : content) :
  match run_all (write_steps o temp file_path text) (holding fs1 k c0) with
  | (st, Raise e) => exists c, st = holding fs1 k c
  | (st, Ok _) =>
      (forall s, s <> AtUnlink -> fault o s = None) /\
      os.replace (holding fs1 k (Bytes text)) temp file_path = Ok st
  end.
Proof.
  unfold write_steps, run_all, injected.
  destruct (fault o AtClose) as [e1|] eqn:F1.
  { unfold mbind, throw. eauto. }
  rewrite (mbind_run _ _ _ _ _ (eq_refl : ret tt (holding fs1 k c0) = (_, Ok tt))).
  destruct (fault o AtOpen) as [e2|] eqn:F2.
  { unfold mbind, throw. eauto. }
  rewrite (mbind_run _ _ _ _ _ (call_write_temp _ _)).
  destruct (fault o AtWrite) as [e3|] eqn:F3.
  { unfold mbind at 1. unfold mbind at 1. rewrite call_write_temp. unfold throw. eauto. }
  rewrite (mbind_run _ _ _ _ _ (call_write_temp _ _)).
  destruct (fault o AtFlush) as [e4|] eqn:F4.
  { unfold mbind, throw. eauto. }
  rewrite (mbind_run _ _ _ _ _ (eq_refl : ret tt (holding fs1 k (Bytes text)) = (_, Ok tt))).
  destruct (fault o AtReplace) as [e5|] eqn:F5.
  { unfold mbind, throw. eauto. }
  unfold mbind, call, ret.
  destruct (os.replace (holding fs1 k (Bytes text)) temp file_path) as [st'|e'] eqn:R.
  - split; [|done]. intros s Hs. by destruct s.
  - eauto.
Qed.


(** Without a fault they are these four. *)
Lemma try_block_states_quiet (o : Oracle) (file_path text : string) (c0 : content) :
  (forall s, s <> AtUnlink -> fault o s = None) ->
  states_of (take 4 (write_steps o temp file_path text)) (holding fs1 k c0)
  = [holding fs1 k c0; holding fs1 k (Bytes "");
     holding fs1 k (Bytes text); holding fs1 k (Bytes text)].
Proof.
  intros H. unfold write_steps. simpl take. unfold states_of, injected.
  rewrite !H by done. unfold ret at 1. cbv beta iota.
  rewrite call_write_temp. cbv beta iota.
  rewrite call_write_temp. cbv beta iota. reflexivity.
Qed.


(** In any case the clean-up raises, and it leaves [fs1] either without or
    with the temporary file. *)
Lemma cleanup_outcome (o : Oracle) (c : content) (e : exn) (st : FS) (r : result unit) :
  cleanup o temp e (holding fs1 k c) = (st, r) ->
  (st = fs1 \/ st = holding fs1 k c) /\ exists e', r = Raise e'.
Proof.
  unfold cleanup, injected. destruct (fault o AtUnlink) as [eu|].
  - unfold try_except, mbind, throw, ret.
    destruct eu; intros [= <- <-]; eauto.
  - unfold try_except, mbind, call, throw. rewrite unlink_temp.
    intros [= <- <-]. eauto.
Qed.

End TemporaryFile.

Lemma mkstemp_inner_spec (dir : string) (candidates : list string) (fs fs2 : FS)
      (r : result string) :
  mkstemp_inner dir candidates fs = (fs2, r) ->
  match r with
  | Ok temp =>
      exists k, os.locate_nofollow fs temp = Some k /\
                links fs !! k = None /\ nodes fs !! k = None /\ k <> [] /\
                os.is_dir_key (nodes fs) (removelast k) = true /\
                fs2 = holding fs k (Bytes "")
  | Raise _ => fs2 = fs
  end.
Proof.
  induction candidates as [|name rest IH]; simpl.
  - by intros [= <- <-].
  - destruct (os.locate_nofollow fs _) as [k|] eqn:Hk; [|by intros [= <- <-]].
    destruct (links fs !! k) eqn:Hl; [exact IH|].
    destruct (nodes fs !! k) eqn:Hn; [exact IH|].
    destruct k as [|x k]; [exact IH|].
    destruct (os.is_dir_key _ _) eqn:Hp; intros [= <- <-]; [|done].
    exists (x :: k). by repeat split.
Qed.




(** A write that goes through, for comparison. *)
Example atomic_write_replaces_target :
  let r := _atomic_write Sample.quiet "/srv/data/a.txt" "new" Sample.plain in
  snd r = Ok tt /\
  nodes (fst r) !! ["srv"; "data"; "a.txt"] = Some (File (Bytes "new")) /\
  nodes (fst r) !! ["srv"; "data"; "tmpk3x9q2ab"] = None.
Proof. vm_compute. repeat split. Qed.

(** ** Compression *)







(** ** Extraction *)

(** C7. In the zip branch every name of the archive is written as a regular
    file: the directory entry [d/] becomes an empty file [out/d], and the
    member [d/x.txt] after it cannot be extracted; the tar branch creates the
    directory, writes the file and skips the device and the hard link. *)
Theorem zip_directory_entry_becomes_file :
  (let r := _decompress_archive Sample.tools "/srv/data/dir.zip" "/srv/data/out"
                                "dir.zip" Sample.unpack in
   snd r = Ok ["/virtual/out/d"] /\
   nodes (fst r) !! ["srv"; "data"; "out"; "d"] = Some (File (Bytes ""))) /\
  (let r := _decompress_archive Sample.tools "/srv/data/tree.zip" "/srv/data/out"
                                "tree.zip" Sample.unpack in
   snd r = Raise os.file_exists /\
   nodes (fst r) !! ["srv"; "data"; "out"; "d"] = Some (File (Bytes "")) /\
   nodes (fst r) !! ["srv"; "data"; "out"; "d"; "x.txt"] = None) /\
  (let r := _decompress_archive Sample.tools "/srv/data/tree.tar" "/srv/data/out"
                                "tree.tar" Sample.unpack in
   snd r = Ok ["/virtual/out/d/x.txt"] /\
   nodes (fst r) !! ["srv"; "data"; "out"; "d"] = Some Dir /\
   nodes (fst r) !! ["srv"; "data"; "out"; "d"; "x.txt"] = Some (File (Bytes "X")) /\
   nodes (fst r) !! ["srv"; "data"; "out"; "d"; "dev"] = None /\
   nodes (fst r) !! ["srv"; "data"; "out"; "d"; "hard"] = None).
Proof. vm_compute. repeat split. Qed.

(** C2. The sanitizer compares [abspath] strings and follows no link: with
    [out/l] a symbolic link to [/etc], the member [l/evil.txt] passes it,
    the extraction succeeds and the file is created in [/etc], outside the
    output directory. *)
Theorem member_through_symlink_is_extracted_outside :
  _sanitize_archive_path Sample.linked "l/evil.txt" "/srv/data/out"
  = Ok "/srv/data/out/l/evil.txt" /\
  os.locate Sample.linked "/srv/data/out/l/evil.txt" = Some ["etc"; "evil.txt"] /\
  ~ ["srv"; "data"; "out"] `prefix_of` ["etc"; "evil.txt"] /\
  (let r := _decompress_archive Sample.tools "/srv/data/link.zip" "/srv/data/out"
                                "link.zip" Sample.linked in
   snd r = Ok ["/virtual/out/l/evil.txt"] /\
   nodes Sample.linked !! ["etc"; "evil.txt"] = None /\
   nodes (fst r) !! ["etc"; "evil.txt"] = Some (File (Bytes "E"))).
Proof.
  repeat split; try (vm_compute; reflexivity).
  intros [k Hk]. discriminate.
Qed.

(** The sanitizer reads the working directory only. *)
Lemma sanitize_cwd (fs fs' : FS) (member out : string) :
  cwd fs' = cwd fs ->
  _sanitize_archive_path fs' member out = _sanitize_archive_path fs member out.
Proof.
  intros H. unfold _sanitize_archive_path, posixpath.abspath. by rewrite H.
Qed.

Lemma extract_zip_member_cwd (self : Tools) (members : list zip_member)
      (out member : string) (fs fs' : FS) (r : result string) :
  extract_zip_member self members out member fs = (fs', r) -> cwd fs' = cwd fs.
Proof.
  unfold extract_zip_member, relative_m, mbind, ask.
  destruct (_sanitize_archive_path fs member out) as [safe|]; [|by intros [= <- _]].
  destruct (call _ fs) as [fs1 [[]|]] eqn:H1.
  2:{ intros [= <- _]. apply call_state in H1 as [->|H1]; [done|].
      by apply makedirs_cwd in H1. }
  apply call_ok, makedirs_cwd in H1.
  destruct (call _ fs1) as [fs2 [[]|]] eqn:H2.
  2:{ intros [= <- _]. apply call_state in H2 as [->|H2]; [done|].
      apply write_file_cwd in H2. congruence. }
  apply call_ok, write_file_cwd in H2. intros [= <- _]. congruence.
Qed.

Lemma extract_tar_member_cwd (self : Tools) (out : string) (m : tar_member)
      (fs fs' : FS) (r : result (list string)) :
  extract_tar_member self out m fs = (fs', r) -> cwd fs' = cwd fs.
Proof.
  destruct m as [name kind data].
  unfold extract_tar_member, relative_m, mbind, ask, ret.
  destruct (_sanitize_archive_path fs name out) as [safe|]; [|by intros [= <- _]].
  destruct kind; try by intros [= <- _].
  - destruct (call _ fs) as [fs1 [[]|]] eqn:H1.
    2:{ intros [= <- _]. apply call_state in H1 as [->|H1]; [done|].
        by apply makedirs_cwd in H1. }
    apply call_ok, makedirs_cwd in H1.
    destruct (call _ fs1) as [fs2 [[]|]] eqn:H2.
    2:{ intros [= <- _]. apply call_state in H2 as [->|H2]; [done|].
        apply write_file_cwd in H2. congruence. }
    apply call_ok, write_file_cwd in H2.
    destruct (_get_relative_path self fs2 safe); intros [= <- _]; congruence.
  - destruct (call _ fs) as [fs1 [[]|]] eqn:H1.
    + apply call_ok, makedirs_cwd in H1. by intros [= <- _].
    + intros [= <- _]. apply call_state in H1 as [->|H1]; [done|].
      by apply makedirs_cwd in H1.
Qed.

Lemma extract_zip_cwd (self : Tools) (members : list zip_member) (out : string)
      (todo : list zip_member) (acc : list string) (fs fs' : FS)
      (r : result (list string)) :
  extract_zip self members out todo acc fs = (fs', r) -> cwd fs' = cwd fs.
Proof.
  revert acc fs. induction todo as [|[member d] todo IH]; intros acc fs; simpl.
  - by intros [= <- _].
  - unfold mbind.
    destruct (extract_zip_member self members out member fs) as [fs1 [rel|e]] eqn:H1;
      apply extract_zip_member_cwd in H1.
    + intros H. apply IH in H. congruence.
    + by intros [= <- _].
Qed.

Lemma extract_tar_cwd (self : Tools) (out : string)
      (todo : list tar_member) (acc : list string) (fs fs' : FS)
      (r : result (list string)) :
  extract_tar self out todo acc fs = (fs', r) -> cwd fs' = cwd fs.
Proof.
  revert acc fs. induction todo as [|m todo IH]; intros acc fs; simpl.
  - by intros [= <- _].
  - unfold mbind.
    destruct (extract_tar_member self out m fs) as [fs1 [new|e]] eqn:H1;
      apply extract_tar_member_cwd in H1.
    + intros H. apply IH in H. congruence.
    + by intros [= <- _].
Qed.

(** The loop over [pre ++ rest] is the loop over [pre] followed, when it
    did not raise, by the loop over [rest]. *)
Lemma extract_zip_app (self : Tools) (members : list zip_member) (out : string)
      (pre rest : list zip_member) (acc : list string) (fs : FS) :
  extract_zip self members out (pre ++ rest) acc fs =
  match extract_zip self members out pre acc fs with
  | (fs1, Ok acc') => extract_zip self members out rest acc' fs1
  | (fs1, Raise e) => (fs1, Raise e)
  end.
Proof.
  revert acc fs. induction pre as [|[member d] pre IH]; intros acc fs; simpl; [done|].
  unfold mbind. destruct (extract_zip_member self members out member fs) as [fs1 [rel|e]].
  - apply IH.
  - reflexivity.
Qed.

Lemma extract_tar_app (self : Tools) (out : string)
      (pre rest : list tar_member) (acc : list string) (fs : FS) :
  extract_tar self out (pre ++ rest) acc fs =
  match extract_tar self out pre acc fs with
  | (fs1, Ok acc') => extract_tar self out rest acc' fs1
  | (fs1, Raise e) => (fs1, Raise e)
  end.
Proof.
  revert acc fs. induction pre as [|m pre IH]; intros acc fs; simpl; [done|].
  unfold mbind. destruct (extract_tar_member self out m fs) as [fs1 [new|e]].
  - apply IH.
  - reflexivity.
Qed.

Lemma sanitize_raises_value_error (fs : FS) (member out : string) (e : exn) :
  _sanitize_archive_path fs member out = Raise e -> exists m, e = ValueError m.
Proof.
  unfold _sanitize_archive_path.
  destruct (_ || _); [intros [= <-]; eauto|].
  destruct (negb _); [intros [= <-]; eauto|done].
Qed.

Lemma decompress_file_aborts (self : Tools) (fs fsA fs0 fs1 : FS)
      (file_name output_directory file_path output_path msg : string)
      (base_dir : option string) :
  _resolve_under_restriction self fs
    (posixpath.join (base_path_of base_dir) file_name) = Ok file_path ->
  _resolve_under_restriction self fs
    (posixpath.join (base_path_of base_dir) output_directory) = Ok output_path ->
  os.exists_ fs file_path = true ->
  os.isfile fs file_path = true ->
  os.islink fs file_path = false ->
  _ensure_parent_dir output_path fs = (fsA, Ok tt) ->
  os.makedirs fsA output_path = Ok fs0 ->
  _decompress_archive self file_path output_path file_name fs0
  = (fs1, Raise (ValueError msg)) ->
  decompress_file self file_name output_directory base_dir fs
  = (fs1, _result self fs1 false "decompress" "file" [KV "error" (VStr msg)]).
Proof.
  intros Hf Ho Hex Hisf Hisl Hens Hmk Harch.
  unfold decompress_file, resolve_m, try_except, mbind, ask, test.
  rewrite Hf. cbv beta iota. rewrite Ho. cbv beta iota.
  rewrite Hex. cbv beta iota delta [negb].
  rewrite Hisf. cbv beta iota delta [negb].
  rewrite Hisl. cbv beta iota. rewrite Hens. cbv beta iota.
  unfold call at 1. rewrite Hmk. cbv beta iota. rewrite Harch. reflexivity.
Qed.

Lemma extract_zip_unsafe (self : Tools) (members post : list zip_member)
      (out name : string) (d : content) (acc : list string) (fs : FS) (e : exn) :
  _sanitize_archive_path fs name out = Raise e ->
  extract_zip self members out (ZipMember name d :: post) acc fs = (fs, Raise e).
Proof.
  intros H. simpl. unfold extract_zip_member.
  rewrite (mbind_raise _ _ fs fs e); [reflexivity|].
  rewrite (mbind_raise _ _ fs fs e); [reflexivity|].
  unfold ask. by rewrite H.
Qed.

Lemma extract_tar_unsafe (self : Tools) (post : list tar_member)
      (out name : string) (kind : tar_kind) (d : content) (acc : list string)
      (fs : FS) (e : exn) :
  _sanitize_archive_path fs name out = Raise e ->
  extract_tar self out (TarMember name kind d :: post) acc fs = (fs, Raise e).
Proof.
  intros H. simpl.
  rewrite (mbind_raise _ _ fs fs e); [reflexivity|].
  rewrite (mbind_raise _ _ fs fs e); [reflexivity|].
  unfold ask. by rewrite H.
Qed.

(** The first two tests of the sanitizer: a cleaned member path that still
    starts with [..] is refused. *)
Lemma sanitize_refuses_parent_escape (fs : FS) (member out : string) :
  Str.startswith (posixpath.normpath (Str.lstrip member)) ".." = true ->
  _sanitize_archive_path fs member out
  = Raise (ValueError ("Unsafe archive member path: " +:+ member)).
Proof. unfold _sanitize_archive_path. by intros ->. Qed.

(** Fail-closed on what the sanitizer refuses: when it refuses one member,
    wherever in the archive, the loop raises. *)
Lemma extract_zip_fails_closed (self : Tools) (members : list zip_member) (out : string)
      (todo : list zip_member) (bad : zip_member) (e : exn) :
  In bad todo ->
  forall (acc : list string) (fs : FS),
    _sanitize_archive_path fs (zip_name bad) out = Raise e ->
    exists fs' e', extract_zip self members out todo acc fs = (fs', Raise e').
Proof.
  induction todo as [|[name d] todo IH]; [done|]. intros [<-|Hin] acc fs Hbad.
  - simpl in Hbad. rewrite (extract_zip_unsafe _ _ _ _ _ _ _ _ _ Hbad). eauto.
  - simpl. unfold mbind.
    destruct (extract_zip_member self members out name fs) as [fs1 [rel|e1]] eqn:H1;
      [|eauto].
    apply IH; [done|].
    by rewrite (sanitize_cwd fs fs1) by (by eapply extract_zip_member_cwd).
Qed.

Lemma extract_tar_cons (self : Tools) (out : string) (m : tar_member)
      (todo : list tar_member) (acc : list string) :
  extract_tar self out (m :: todo) acc =
  (new <- extract_tar_member self out m ;; extract_tar self out todo (acc ++ new)).
Proof. reflexivity. Qed.

Lemma extract_tar_fails_closed (self : Tools) (out : string)
      (todo : list tar_member) (bad : tar_member) (e : exn) :
  In bad todo ->
  forall (acc : list string) (fs : FS),
    _sanitize_archive_path fs (tar_name bad) out = Raise e ->
    exists fs' e', extract_tar self out todo acc fs = (fs', Raise e').
Proof.
  induction todo as [|[name kind d] todo IH]; [done|]. intros [<-|Hin] acc fs Hbad.
  - simpl in Hbad. rewrite (extract_tar_unsafe _ _ _ _ _ _ _ _ _ Hbad). eauto.
  - rewrite extract_tar_cons. unfold mbind.
    destruct (extract_tar_member self out (TarMember name kind d) fs)
      as [fs1 [new|e1]] eqn:H1; [|eauto].
    apply IH; [done|].
    by rewrite (sanitize_cwd fs fs1) by (by eapply extract_tar_member_cwd).
Qed.

(** C10. When [decompress_file] reaches the extraction and the member after
    [pre] is refused by the sanitizer, the file system afterwards is the one
    the members of [pre] left ([fs1]): nothing is rolled back. The envelope
    is the failure envelope built from the error message alone; it has no
    [extracted_files] and no [count]. The same holds in the zip and in the
    tar branch. *)
Theorem extraction_abort_keeps_earlier_members
  (self : Tools) (fs fsA fs0 fs1 : FS)
  (file_name output_directory file_path output_path : string)
  (base_dir : option string) (extracted : list string) (e : exn) :
  _resolve_under_restriction self fs
    (posixpath.join (base_path_of base_dir) file_name) = Ok file_path ->
  _resolve_under_restriction self fs
    (posixpath.join (base_path_of base_dir) output_directory) = Ok output_path ->
  os.exists_ fs file_path = true ->
  os.isfile fs file_path = true ->
  os.islink fs file_path = false ->
  _ensure_parent_dir output_path fs = (fsA, Ok tt) ->
  os.makedirs fsA output_path = Ok fs0 ->
  let failure :=
    _result self fs1 false "decompress" "file" [KV "error" (VStr (exn_str e))] in
  let aborted :=
    _decompress_archive self file_path output_path file_name fs0 = (fs1, Raise e) /\
    decompress_file self file_name output_directory base_dir fs = (fs1, failure) /\
    forall env, failure = Ok env ->
      dict_get env "ok" = Some (VBool false) /\
      dict_get env "error" = Some (VStr (exn_str e)) /\
      dict_get env "extracted_files" = None /\
      dict_get env "count" = None in
  (forall (pre post : list zip_member) (bad : zip_member),
      Str.endswith file_name ".zip" = true ->
      os.read_file fs0 file_path = Ok (ZipArchive (pre ++ bad :: post)) ->
      extract_zip self (pre ++ bad :: post) output_path pre [] fs0 = (fs1, Ok extracted) ->
      _sanitize_archive_path fs0 (zip_name bad) output_path = Raise e ->
      aborted) /\
  (forall (pre post : list tar_member) (bad : tar_member) (gz : bool),
      Str.endswith file_name ".zip" = false ->
      Str.endswith file_name ".tar" || Str.endswith file_name ".tar.gz"
        || Str.endswith file_name ".tgz" = true ->
      (Str.endswith file_name ".tar.gz" || Str.endswith file_name ".tgz") && negb gz = false ->
      os.read_file fs0 file_path = Ok (TarArchive gz (pre ++ bad :: post)) ->
      extract_tar self output_path pre [] fs0 = (fs1, Ok extracted) ->
      _sanitize_archive_path fs0 (tar_name bad) output_path = Raise e ->
      aborted).
Proof.
  intros Hf Ho Hex Hisf Hisl Hens Hmk failure aborted.
  assert (Hfinish :
    _decompress_archive self file_path output_path file_name fs0 = (fs1, Raise e) ->
    (exists m, e = ValueError m) -> aborted).
  { intros Harch [m ->]. split; [exact Harch|]. split.
    - by eapply decompress_file_aborts.
    - intros env Henv. unfold failure in Henv.
      repeat split; rewrite (result_get _ _ _ _ _ _ _ Henv) by done; reflexivity. }
  split.
  - intros pre post [name d] Hzip Hread Hpre Hbad. simpl in Hbad.
    apply Hfinish; [|by eapply sanitize_raises_value_error].
    unfold _decompress_archive. rewrite Hzip.
    erewrite mbind_run by (unfold open_zip, mbind, ask; rewrite Hread; reflexivity).
    rewrite extract_zip_app, Hpre. apply extract_zip_unsafe.
    rewrite (sanitize_cwd fs0 fs1) by (by eapply extract_zip_cwd). exact Hbad.
  - intros pre post [name kind d] gz Hnozip Htar Hgz Hread Hpre Hbad. simpl in Hbad.
    apply Hfinish; [|by eapply sanitize_raises_value_error].
    unfold _decompress_archive. rewrite Hnozip, Htar.
    erewrite mbind_run
      by (unfold open_tar, mbind, ask; rewrite Hread, Hgz; reflexivity).
    rewrite extract_tar_app, Hpre. apply extract_tar_unsafe.
    rewrite (sanitize_cwd fs0 fs1) by (by eapply extract_tar_cwd). exact Hbad.
Qed.

Lemma extraction_abort_keeps_earlier_members_witness :
  let r := decompress_file Sample.tools "poisoned.zip" "out" None Sample.unpack in
  snd r = Ok [KV "ok" (VBool false); KV "action" (VStr "decompress");
              KV "subject_type" (VStr "file");
              KV "error" (VStr "Unsafe archive member path: ../evil.txt")] /\
  nodes (fst r) !! ["srv"; "data"; "out"; "x.txt"] = Some (File (Bytes "X")) /\
  nodes (fst r) !! ["srv"; "data"; "out"; "y.txt"] = None.
Proof.
  pose (pre := [ZipMember "x.txt" (Bytes "X")]).
  pose (bad := ZipMember "../evil.txt" (Bytes "E")).
  pose (post := [ZipMember "y.txt" (Bytes "Y")]).
  pose (fs1 := fst (extract_zip Sample.tools (pre ++ bad :: post) "/srv/data/out"
                                pre [] Sample.unpack)).
  destruct (extraction_abort_keeps_earlier_members
              Sample.tools Sample.unpack Sample.unpack Sample.unpack fs1
              "poisoned.zip" "out" "/srv/data/poisoned.zip" "/srv/data/out" None
              ["/virtual/out/x.txt"]
              (ValueError "Unsafe archive member path: ../evil.txt"))
    as [Hzip _]; try (vm_compute; reflexivity).
  destruct (Hzip pre post bad) as (_ & Hrun & _); try (vm_compute; reflexivity).
  simpl. rewrite Hrun. vm_compute. repeat split.
Defined.

(** ** Versions *)

Lemma version_handler_not_ok (s : Tools) (action pfx : string) (e : exn)
      (fs fs' : FS) (s' : Tools) (env : list field) :
  version_handler s action pfx e fs = (fs', Ok (s', env)) ->
  dict_get env "ok" = Some (VBool false).
Proof.
  unfold version_handler. destruct e; try done.
  all: intros H; apply mbind_ok in H as (fs1 & r & Hr & Hret);
    injection Hret as _ _ <-; by apply error_result_not_ok in Hr.
Qed.



Lemma versions_at_touch (self : Tools) (key k : string) :
  versions_at (touch self key) k = versions_at self k.
Proof.
  unfold versions_at at 1, touch. simpl.
  destruct (decide (key = k)) as [->|Hne].
  - by rewrite lookup_insert_eq.
  - by rewrite lookup_insert_ne.
Qed.

Lemma versions_at_append_version (self : Tools) (key p k : string) :
  versions_at (append_version self key p) k =
  if decide (key = k) then versions_at self key ++ [p] else versions_at self k.
Proof.
  unfold versions_at at 1, append_version. simpl.
  destruct (decide (key = k)) as [->|Hne].
  - by rewrite lookup_insert_eq.
  - by rewrite lookup_insert_ne.
Qed.





(** The three snapshots of the sample run are still apart at the end: each
    holds what [a.txt] held when it was taken. *)
Example sample_snapshots_keep_their_content :
  let final := fst Sample.save3 in
  os.read_file final "/srv/data/a_v1_20250101_120000.txt" = Ok (Bytes "old") /\
  os.read_file final "/srv/data/a_v2_20250101_120500.txt" = Ok (Bytes "second") /\
  os.read_file final "/srv/data/a_v3_20250101_121000.txt" = Ok (Bytes "third") /\
  versions_at (Sample.tools_of Sample.save3) "/srv/data/a.txt"
  = ["/srv/data/a_v1_20250101_120000.txt"; "/srv/data/a_v2_20250101_120500.txt";
     "/srv/data/a_v3_20250101_121000.txt"].
Proof. vm_compute. repeat split. Qed.

(** C5. With the path resolved to [key] and [count] versions recorded under
    it: an index outside [1, count] gives the failure envelope "Version does
    not exist" with [available = count] and [requested = version]; an index
    in range whose snapshot is no longer on disk gives the different failure
    envelope "Version file no longer exists"; in both cases no file is
    touched. *)
Theorem restore_version_errors
  (self : Tools) (fs : FS) (file_name : string) (version : Z)
  (base_dir : option string) (key : string) :
  _resolve_under_restriction self fs
    (posixpath.join (base_path_of base_dir) file_name) = Ok key ->
  let count := length (versions_at self key) in
  ((version < 1 \/ Z.of_nat count < version)%Z ->
   exists env,
     restore_file_version self file_name version base_dir fs
     = (fs, Ok (touch self key, env)) /\
     dict_get env "ok" = Some (VBool false) /\
     dict_get env "error" = Some (VStr "Version does not exist") /\
     dict_get env "available" = Some (VInt (Z.of_nat count)) /\
     dict_get env "requested" = Some (VInt version)) /\
  ((1 <= version <= Z.of_nat count)%Z ->
   exists version_path,
     versions_at self key !! Z.to_nat (version - 1) = Some version_path /\
     (os.exists_ fs version_path = false ->
      forall sb,
      pathlib.resolve fs (pathlib.Path (display_root_of (valves self))) = Some sb ->
      exists env shown,
        restore_file_version self file_name version base_dir fs
        = (fs, Ok (touch self key, env)) /\
        dict_get env "ok" = Some (VBool false) /\
        dict_get env "error" = Some (VStr "Version file no longer exists") /\
        dict_get env "version_path" = Some (VStr shown) /\
        dict_get env "available" = None)).
Proof.
  intros Hkey count.
  destruct (resolve_under_restriction_root _ _ _ _ Hkey) as [base Hbase].
  assert (Htouch : versions_at (touch self key) key = versions_at self key).
  { unfold versions_at at 1, touch. simpl. by rewrite lookup_insert_eq. }
  split.
  - intros Hout.
    destruct (result_fields (touch self key) fs false "version_restore" "file"
                [KV "error" (VStr "Version does not exist");
                 KV "available" (VInt (Z.of_nat count));
                 KV "requested" (VInt version)] base Hbase) as (env & Henv & Hget).
    exists env. split.
    + unfold restore_file_version, resolve_m, ask, try_except, mbind, ret.
      rewrite Hkey. fold count.
      assert ((version <? 1)%Z || (Z.of_nat count <? version)%Z = true) as ->.
      { apply orb_true_iff. destruct Hout; [left|right]; by apply Z.ltb_lt. }
      rewrite Henv. reflexivity.
    + repeat split; rewrite Hget by done; reflexivity.
  - intros Hin.
    destruct (versions_at self key !! Z.to_nat (version - 1)) as [vp|] eqn:Hvp.
    2:{ apply lookup_ge_None in Hvp. fold count in Hvp. lia. }
    exists vp. split; [reflexivity|]. intros Hgone sb Hsb.
    destruct (get_relative_path_ok (touch self key) fs vp base sb Hbase Hsb) as [shown Hshown].
    destruct (result_fields (touch self key) fs false "version_restore" "file"
                [KV "error" (VStr "Version file no longer exists");
                 KV "version_path" (VStr shown)] base Hbase) as (env & Henv & Hget).
    exists env, shown. split.
    + unfold restore_file_version, resolve_m, relative_m, ask, test, try_except, mbind, ret.
      rewrite Hkey. fold count.
      assert ((version <? 1)%Z || (Z.of_nat count <? version)%Z = false) as ->.
      { apply orb_false_iff. split; apply Z.ltb_ge; lia. }
      rewrite Htouch, Hvp, Hgone. simpl. rewrite Hshown, Henv. reflexivity.
    + repeat split; rewrite Hget by done; reflexivity.
Qed.

Lemma restore_version_errors_witness :
  (exists env,
     restore_file_version Sample.tools "a.txt" 3 None Sample.plain
     = (Sample.plain, Ok (touch Sample.tools "/srv/data/a.txt", env)) /\
     dict_get env "error" = Some (VStr "Version does not exist") /\
     dict_get env "available" = Some (VInt 0) /\
     dict_get env "requested" = Some (VInt 3)) /\
  (exists env,
     restore_file_version Sample.recorded "a.txt" 1 None Sample.plain
     = (Sample.plain, Ok (touch Sample.recorded "/srv/data/a.txt", env)) /\
     dict_get env "error" = Some (VStr "Version file no longer exists")).
Proof.
  split.
  - destruct (restore_version_errors Sample.tools Sample.plain "a.txt" 3 None
                "/srv/data/a.txt") as [Hrange _]; [vm_compute; reflexivity|].
    destruct Hrange as (env & Hrun & _ & Herr & Hav & Hreq); [right; vm_compute; reflexivity|].
    exists env. repeat split; assumption.
  - destruct (restore_version_errors Sample.recorded Sample.plain "a.txt" 1 None
                "/srv/data/a.txt") as [_ Hmissing]; [vm_compute; reflexivity|].
    destruct Hmissing as (vp & Hvp & Hgone); [split; by vm_compute|].
    injection Hvp as <-.
    destruct (Hgone eq_refl (pathlib.mkPath "/" ["virtual"]))
      as (env & shown & Hrun & _ & Herr & _); [vm_compute; reflexivity|].
    exists env. split; assumption.
Defined.

(** ** Canonical keys *)

Lemma plain_name_part (x : string) :
  plain_name x = true ->
  pathlib.is_part x = true /\ String.eqb x ".." = false /\ Str.has_sep x = false.
Proof.
  unfold plain_name. intros H.
  apply andb_true_iff in H as [H H3]. apply andb_true_iff in H as [H1 H2].
  apply negb_true_iff in H2, H3. done.
Qed.

Lemma canonical_nil (lk : gmap (list string) string) : canonical lk [].
Proof.
  split; [constructor|]. intros pre Hne Hp. apply prefix_nil_inv in Hp. done.
Qed.

Lemma canonical_prefix (lk : gmap (list string) string) (k pre : list string) :
  canonical lk k -> pre `prefix_of` k -> canonical lk pre.
Proof.
  intros [Hn Hl] Hp. split.
  - destruct Hp as [r ->]. by apply Forall_app in Hn as [? _].
  - intros q Hq Hqp. apply Hl; [done|]. by etrans.
Qed.

Lemma removelast_prefix {A} (l : list A) : removelast l `prefix_of` l.
Proof.
  induction l as [|x l IH]; [done|].
  destruct l as [|y l]; [by exists [x]|].
  change (removelast (x :: y :: l)) with (x :: removelast (y :: l)).
  by apply prefix_cons.
Qed.

Lemma canonical_snoc (lk : gmap (list string) string) (k : list string) (x : string) :
  canonical lk k -> plain_name x = true -> lk !! (k ++ [x]) = None ->
  canonical lk (k ++ [x]).
Proof.
  intros [Hn Hl] Hx Hfree. split.
  - apply Forall_app. split; [done|]. by constructor.
  - intros pre Hne Hp.
    destruct (decide (pre = k ++ [x])) as [->|Hd]; [done|].
    apply Hl; [done|].
    destruct Hp as [r Hr].
    destruct r as [|y r _] using rev_ind.
    + rewrite app_nil_r in Hr. by subst.
    + rewrite app_assoc in Hr. apply app_inj_tail in Hr as [-> _]. by exists r.
Qed.

(** Following links from a canonical key gives a canonical key. *)
Lemma walk_canonical (lk : gmap (list string) string) :
  forall fuel cur rest d,
    canonical lk cur ->
    Forall (fun x => Str.has_sep x = false) rest ->
    pathlib.walk fuel lk cur rest = Some d ->
    canonical lk d.
Proof.
  induction fuel as [|fuel IHf];
    (intros cur rest; revert cur; induction rest as [|n rest IH]; intros cur d Hc Hs Hw;
     [ rewrite walk_nil in Hw; by injection Hw as <- | ]);
    rewrite walk_cons in Hw;
    apply List.Forall_cons_iff in Hs as [Hn Hs];
    (destruct (pathlib.is_part n) eqn:Hp; simpl negb in Hw; cbv iota in Hw;
     [|by eapply IH]);
    (destruct (String.eqb n "..") eqn:Hdd;
     [ eapply IH; [|done|exact Hw]; eapply canonical_prefix; [exact Hc|apply removelast_prefix] |]);
    (destruct (lk !! (cur ++ [n])) as [target|] eqn:Hl;
     [| eapply IH; [|done|exact Hw]; apply canonical_snoc; [done| |done];
        unfold plain_name; by rewrite Hp, Hdd, Hn ]).
  - done.
  - eapply IHf; [| |exact Hw].
    + destruct (posixpath.isabs target); [apply canonical_nil|done].
    + apply Forall_app. split; [apply split_no_sep|done].
Qed.

(** Walking along a canonical key follows no link. *)
Lemma walk_along (lk : gmap (list string) string) (fuel : nat) :
  forall l cur, canonical lk (cur ++ l) -> pathlib.walk fuel lk cur l = Some (cur ++ l).
Proof.
  induction l as [|n l IH]; intros cur Hc.
  - by rewrite walk_nil, app_nil_r.
  - rewrite walk_cons.
    destruct Hc as [Hn Hl]. pose proof Hn as Hn'.
    apply Forall_app in Hn' as [_ Hn']. apply List.Forall_cons_iff in Hn' as [Hx _].
    apply plain_name_part in Hx as (-> & -> & _). simpl negb. cbv iota.
    rewrite Hl; [| by destruct cur | by exists l; rewrite <- app_assoc].
    replace (cur ++ n :: l) with ((cur ++ [n]) ++ l) by (by rewrite <- app_assoc).
    apply IH. split; by rewrite <- app_assoc.
Qed.

Lemma walk_no_sep (lk : gmap (list string) string) :
  forall fuel cur rest d,
    Forall (fun x => Str.has_sep x = false) cur ->
    Forall (fun x => Str.has_sep x = false) rest ->
    pathlib.walk fuel lk cur rest = Some d ->
    Forall (fun x => Str.has_sep x = false) d.
Proof.
  induction fuel as [|fuel IHf];
    (intros cur rest; revert cur; induction rest as [|n rest IH]; intros cur d Hc Hs Hw;
     [ rewrite walk_nil in Hw; by injection Hw as <- | ]);
    rewrite walk_cons in Hw;
    apply List.Forall_cons_iff in Hs as [Hn Hs];
    (destruct (negb (pathlib.is_part n)); [eapply IH; [exact Hc|exact Hs|exact Hw]|]);
    (destruct (String.eqb n "..");
     [ eapply IH; [|done|exact Hw];
       destruct (removelast_prefix cur) as [r Hr]; rewrite Hr in Hc;
       by apply Forall_app in Hc as [? _] |]);
    (destruct (lk !! (cur ++ [n])) as [target|] eqn:Hl;
     [| eapply IH; [|done|exact Hw]; apply Forall_app; split; [done|by constructor] ]).
  - done.
  - eapply IHf; [| |exact Hw].
    + destruct (posixpath.isabs target); [constructor|done].
    + apply Forall_app. split; [apply split_no_sep|done].
Qed.

Lemma str_rooted (k : list string) :
  pathlib.str (pathlib.mkPath "/" k) = "/" +:+ Str.join k.
Proof. reflexivity. Qed.

Lemma canonical_parts (lk : gmap (list string) string) (k : list string) :
  canonical lk k ->
  Forall (fun x => pathlib.is_part x = true) k /\
  Forall (fun x => Str.has_sep x = false) k.
Proof.
  intros [Hn _]. split; (eapply Forall_impl; [exact Hn|]);
    intros x Hx; by apply plain_name_part in Hx as (? & ? & ?).
Qed.

Lemma split_rooted (k : list string) :
  Forall (fun x => Str.has_sep x = false) k ->
  List.filter pathlib.is_part (Str.split ("/" +:+ Str.join k))
  = List.filter pathlib.is_part k.
Proof.
  intros Hs. change ("/" +:+ Str.join k) with (String "/" (Str.join k)).
  rewrite split_cons_sep. simpl List.filter.
  destruct k as [|x k]; [reflexivity|]. by rewrite split_join.
Qed.

Lemma isabs_rooted (s : string) : posixpath.isabs ("/" +:+ s) = true.
Proof.
  unfold posixpath.isabs, Str.startswith.
  change (String.prefix "/" ("/" +:+ s))
    with (if Ascii.ascii_dec "/" "/" then String.prefix "" s else false).
  destruct (Ascii.ascii_dec "/" "/"); [by destruct s|done].
Qed.

Lemma start_rooted (fs : FS) (s : string) : os.start fs ("/" +:+ s) = [].
Proof. unfold os.start. by rewrite isabs_rooted. Qed.

(** The string of a canonical key names that key, whether or not the last
    component is followed. *)
Lemma canonical_locate (fs : FS) (k : list string) :
  canonical (links fs) k ->
  os.locate fs ("/" +:+ Str.join k) = Some k /\
  os.locate_nofollow fs ("/" +:+ Str.join k) = Some k.
Proof.
  intros Hc. destruct (canonical_parts _ _ Hc) as [Hp Hs].
  assert (Hloc : os.locate fs ("/" +:+ Str.join k) = Some k).
  { unfold os.locate. rewrite <- walk_filter, split_rooted, filter_all by done.
    rewrite start_rooted. exact (walk_along (links fs) _ k [] Hc). }
  split; [done|]. unfold os.locate_nofollow.
  rewrite split_rooted, filter_all by done.
  destruct (decide (k = [])) as [->|Hne]; [done|].
  pose proof (last_in k "" Hne) as Hin.
  destruct Hc as [Hn Hl]. pose proof Hn as Hn'.
  rewrite List.Forall_forall in Hn'. apply Hn' in Hin.
  apply plain_name_part in Hin as (Hpart & Hdd & _).
  assert (String.eqb (List.last k "") "" = false) as ->.
  { apply String.eqb_neq. intros E. by rewrite E in Hpart. }
  rewrite Hdd. cbv beta iota delta [orb]. rewrite start_rooted.
  rewrite (walk_along (links fs) _ (removelast k) []).
  - simpl app. by rewrite <- app_removelast_last.
  - eapply canonical_prefix; [split; [exact Hn|exact Hl]|apply removelast_prefix].
Qed.

Lemma canonical_islink (fs : FS) (k : list string) :
  links fs !! [] = None ->
  canonical (links fs) k -> os.islink fs ("/" +:+ Str.join k) = false.
Proof.
  intros Hroot Hc. unfold os.islink. rewrite (proj2 (canonical_locate fs k Hc)).
  destruct (decide (k = [])) as [->|Hne]; [by rewrite Hroot|].
  destruct Hc as [_ Hl]. by rewrite Hl.
Qed.

(** What [resolve] gives for a path that starts at the root. *)
Lemma resolve_rooted (fs : FS) (p q : pathlib.PurePath) :
  pathlib.anchor p <> "" ->
  Forall (fun x => Str.has_sep x = false) (pathlib.parts p) ->
  pathlib.resolve fs p = Some q ->
  exists k, q = pathlib.mkPath "/" k /\ canonical (links fs) k.
Proof.
  intros Ha Hs. unfold pathlib.resolve.
  apply String.eqb_neq in Ha. rewrite Ha.
  destruct (pathlib.walk _ _ _ _) as [k|] eqn:Hw; [|done].
  intros [= <-]. exists k. split; [done|].
  eapply walk_canonical; [apply canonical_nil|exact Hs|exact Hw].
Qed.

Lemma resolve_no_sep (fs : FS) (p q : pathlib.PurePath) :
  Forall (fun x => Str.has_sep x = false) (cwd fs) ->
  Forall (fun x => Str.has_sep x = false) (pathlib.parts p) ->
  pathlib.resolve fs p = Some q ->
  Forall (fun x => Str.has_sep x = false) (pathlib.parts q).
Proof.
  intros Hc Hs. unfold pathlib.resolve.
  destruct (pathlib.walk _ _ _ _) as [k|] eqn:Hw; [|done].
  intros [= <-]. simpl. eapply walk_no_sep; [|exact Hs|exact Hw].
  destruct (String.eqb _ _); [done|constructor].
Qed.

Lemma parts_no_sep (s : string) :
  Forall (fun x => Str.has_sep x = false) (pathlib.parts (pathlib.Path s)).
Proof.
  eapply Forall_impl; [apply parts_are_parts|]. by intros ? [_ ?].
Qed.

Lemma truediv_parts (base : pathlib.PurePath) (path : string) :
  pathlib.anchor base = "/" ->
  Forall (fun x => Str.has_sep x = false) (pathlib.parts base) ->
  pathlib.anchor (pathlib.truediv base path) <> "" /\
  Forall (fun x => Str.has_sep x = false) (pathlib.parts (pathlib.truediv base path)).
Proof.
  intros Ha Hs. unfold pathlib.truediv.
  destruct (String.eqb_spec (pathlib.anchor (pathlib.Path path)) "") as [E|E].
  - simpl. rewrite Ha. split; [done|].
    apply Forall_app. split; [done|apply parts_no_sep].
  - split; [done|apply parts_no_sep].
Qed.

(** A path that [_resolve_under_restriction] returns is the string of a
    canonical key. *)
Lemma resolved_canonical (self : Tools) (fs : FS) (path p : string) :
  well_formed fs ->
  _resolve_under_restriction self fs path = Ok p ->
  exists k, p = "/" +:+ Str.join k /\ canonical (links fs) k.
Proof.
  intros [Hcwd _]. unfold _resolve_under_restriction, resolved.
  destruct (pathlib.resolve fs (pathlib.Path _)) as [base|] eqn:Hb; [|done].
  simpl bind.
  destruct (pathlib.resolve fs (pathlib.truediv base path)) as [q|] eqn:Hq; [|done].
  simpl bind.
  destruct (negb _); [done|]. intros [= <-].
  destruct (truediv_parts base path) as [Ha Hs].
  { by eapply resolve_anchor. }
  { eapply resolve_no_sep; [done|apply parts_no_sep|exact Hb]. }
  destruct (resolve_rooted fs _ q Ha Hs Hq) as (k & -> & Hk).
  exists k. by rewrite str_rooted.
Qed.

Lemma join_not_abs (k : list string) :
  Forall (fun x => pathlib.is_part x = true) k ->
  Forall (fun x => Str.has_sep x = false) k ->
  Str.startswith (Str.join k) "/" = false.
Proof.
  intros Hp Hs. destruct k as [|x k]; [done|].
  apply List.Forall_cons_iff in Hp as [Hx _].
  apply List.Forall_cons_iff in Hs as [Hx' _].
  destruct k as [|y k].
  - change (Str.join [x]) with x. rewrite <- (append_nil_r x).
    by apply starts_without_sep.
  - rewrite join_cons. by apply starts_without_sep.
Qed.

Lemma initial_slashes_rooted (s : string) :
  Str.startswith s "/" = false -> posixpath.initial_slashes ("/" +:+ s) = 1.
Proof.
  intros Hs. unfold posixpath.initial_slashes.
  change (Str.startswith ("/" +:+ s) "/") with (posixpath.isabs ("/" +:+ s)).
  rewrite isabs_rooted. simpl negb. cbv iota.
  assert (Str.startswith ("/" +:+ s) "//" = false) as ->; [|done].
  unfold Str.startswith in *.
  change (String.prefix "//" ("/" +:+ s))
    with (if Ascii.ascii_dec "/" "/" then String.prefix "/" s else false).
  by destruct (Ascii.ascii_dec "/" "/").
Qed.

Lemma Path_rooted (lk : gmap (list string) string) (k : list string) :
  canonical lk k -> pathlib.Path ("/" +:+ Str.join k) = pathlib.mkPath "/" k.
Proof.
  intros Hc. destruct (canonical_parts _ _ Hc) as [Hp Hs].
  unfold pathlib.Path. rewrite initial_slashes_rooted by (by apply join_not_abs).
  by rewrite split_rooted, filter_all.
Qed.

Lemma resolve_canonical (fs : FS) (k : list string) :
  canonical (links fs) k ->
  pathlib.resolve fs (pathlib.mkPath "/" k) = Some (pathlib.mkPath "/" k).
Proof.
  intros Hc.
  change (pathlib.resolve fs (pathlib.mkPath "/" k))
    with (match pathlib.walk pathlib.MAXSYMLINKS (links fs) [] k with
          | Some comps => Some (pathlib.mkPath "/" comps)
          | None => None
          end).
  by rewrite (walk_along (links fs) _ k [] Hc).
Qed.

(** X1. A path that [_resolve_under_restriction] returns is never itself a
    symbolic link: every link on the way, the last component included, has
    been followed. *)
Theorem resolved_path_is_no_symlink (self : Tools) (fs : FS) (path p : string) :
  well_formed fs ->
  _resolve_under_restriction self fs path = Ok p ->
  os.islink fs p = false.
Proof.
  intros Hwf H. destruct (resolved_canonical _ _ _ _ Hwf H) as (k & -> & Hk).
  apply canonical_islink; [apply Hwf|done].
Qed.

Lemma resolve_again (self : Tools) (fs : FS) (path p : string) :
  well_formed fs ->
  _resolve_under_restriction self fs path = Ok p ->
  _resolve_under_restriction self fs p = Ok p.
Proof.
  intros Hwf H. destruct (resolved_canonical _ _ _ _ Hwf H) as (k & -> & Hk).
  revert H. unfold _resolve_under_restriction, resolved.
  destruct (pathlib.resolve fs (pathlib.Path _)) as [base|] eqn:Hb; [|done].
  simpl bind.
  destruct (pathlib.resolve fs (pathlib.truediv base path)) as [q|] eqn:Hq; [|done].
  simpl bind.
  rewrite truediv_absolute by apply isabs_rooted.
  rewrite (Path_rooted _ _ Hk), (resolve_canonical _ _ Hk).
  cbv beta iota delta [bind]. rewrite str_rooted.
  destruct (negb (Str.startswith (pathlib.str q) _)) eqn:Hchk; [done|].
  intros [= E]. rewrite E in Hchk. by rewrite Hchk.
Qed.

(** X2. A path returned by [_resolve_under_restriction] is absolute, and
    resolving it again returns it unchanged. *)
Theorem resolve_under_restriction_idempotent
  (self : Tools) (fs : FS) (path p : string) :
  well_formed fs ->
  _resolve_under_restriction self fs path = Ok p ->
  posixpath.isabs p = true /\
  _resolve_under_restriction self fs p = Ok p.
Proof.
  intros Hwf H. split; [|by eapply resolve_again].
  destruct (resolved_canonical _ _ _ _ Hwf H) as (k & -> & _). apply isabs_rooted.
Qed.

Lemma shared_well_formed : well_formed World.shared.
Proof. split; [by repeat constructor|reflexivity]. Qed.

Lemma resolved_path_is_no_symlink_witness :
  os.islink World.shared "/srv/data/cur" = true /\
  _resolve_under_restriction Sample.tools World.shared "cur" = Ok "/srv/data/a.txt" /\
  os.islink World.shared "/srv/data/a.txt" = false.
Proof.
  split; [by vm_compute|]. split; [by vm_compute|].
  apply (resolved_path_is_no_symlink Sample.tools World.shared "cur").
  - split; [by repeat constructor|reflexivity].
  - by vm_compute.
Defined.

Lemma resolve_under_restriction_idempotent_witness :
  _resolve_under_restriction Sample.tools World.shared "docs/../cur" = Ok "/srv/data/a.txt" /\
  _resolve_under_restriction Sample.tools World.shared "/srv/data/a.txt"
  = Ok "/srv/data/a.txt".
Proof.
  split; [by vm_compute|].
  refine (proj2 (resolve_under_restriction_idempotent Sample.tools World.shared
                   "docs/../cur" "/srv/data/a.txt" _ _)).
  - split; [by repeat constructor|reflexivity].
  - by vm_compute.
Defined.

Lemma link_free_sound (lk : gmap (list string) string) :
  forall rest cur,
    link_free lk cur rest = true ->
    forall pre, pre <> [] -> pre `prefix_of` rest -> lk !! (cur ++ pre) = None.
Proof.
  induction rest as [|x rest IH]; intros cur H pre Hne Hp.
  - by apply prefix_nil_inv in Hp.
  - simpl in H. destruct (lk !! (cur ++ [x])) eqn:E; [done|].
    destruct pre as [|y pre]; [done|].
    apply prefix_cons_inv_1 in Hp as Hy. subst y.
    apply prefix_cons_inv_2 in Hp.
    destruct pre as [|z pre]; [done|].
    replace (cur ++ x :: z :: pre) with ((cur ++ [x]) ++ z :: pre)
      by (by rewrite <- app_assoc).
    by apply IH.
Qed.

Lemma is_canonical_sound (lk : gmap (list string) string) (k : list string) :
  is_canonical lk k = true -> canonical lk k.
Proof.
  unfold is_canonical. intros H. apply andb_true_iff in H as [Hn Hl]. split.
  - apply List.Forall_forall. by apply forallb_forall.
  - intros pre Hne Hp. exact (link_free_sound lk k [] Hl pre Hne Hp).
Qed.

Lemma anchor_of_relative (path : string) :
  posixpath.isabs path = false -> pathlib.anchor (pathlib.Path path) = "".
Proof.
  unfold posixpath.isabs, pathlib.Path, posixpath.initial_slashes. simpl.
  by intros ->.
Qed.

Lemma truediv_relative (base : pathlib.PurePath) (path : string) :
  posixpath.isabs path = false ->
  pathlib.truediv base path
  = pathlib.mkPath (pathlib.anchor base)
                   (pathlib.parts base ++ pathlib.parts (pathlib.Path path)).
Proof.
  intros Hrel. unfold pathlib.truediv. by rewrite anchor_of_relative.
Qed.

(** X3. A relative candidate is accepted when the components of the
    resolved root followed by its own are plain names with no symbolic link
    on the way: the result is the root followed by these components, and it
    lies inside the root component by component. *)
Theorem plain_relative_candidate_is_accepted
  (self : Tools) (fs : FS) (path : string) (base : pathlib.PurePath) :
  pathlib.resolve fs (pathlib.Path (root_restriction_directory (valves self))) = Some base ->
  posixpath.isabs path = false ->
  let target := pathlib.parts base ++ pathlib.parts (pathlib.Path path) in
  canonical (links fs) target ->
  _resolve_under_restriction self fs path = Ok ("/" +:+ Str.join target) /\
  inside base (pathlib.mkPath "/" target).
Proof.
  intros Hb Hrel target Hc.
  assert (Hin : inside base (pathlib.mkPath "/" target)).
  { split; [by rewrite (resolve_anchor _ _ _ Hb)|by eexists]. }
  split; [|done].
  rewrite <- str_rooted.
  apply (resolve_under_restriction_outcome self fs path base); [done| |done].
  rewrite truediv_relative, (resolve_anchor _ _ _ Hb) by done.
  by apply resolve_canonical.
Qed.

Lemma plain_relative_candidate_is_accepted_witness :
  _resolve_under_restriction Sample.tools World.shared "docs/./n.txt"
  = Ok "/srv/data/docs/n.txt".
Proof.
  apply (plain_relative_candidate_is_accepted Sample.tools World.shared "docs/./n.txt"
           (pathlib.mkPath "/" ["srv"; "data"])).
  - by vm_compute.
  - by vm_compute.
  - by apply is_canonical_sound; vm_compute.
Defined.

(** X4. With an empty spoof root, the path [_get_relative_path] displays
    for a resolved path leads back to it: [_resolve_under_restriction] maps
    the displayed path to the same absolute path. *)
Theorem displayed_path_resolves_back
  (self : Tools) (fs : FS) (path p shown : string) :
  well_formed fs ->
  spoof_directory_root (valves self) = "" ->
  _resolve_under_restriction self fs path = Ok p ->
  _get_relative_path self fs p = Ok shown ->
  _resolve_under_restriction self fs shown = Ok p.
Proof.
  intros Hwf Hspoof Hres Hshow.
  pose proof (resolve_again _ _ _ _ Hwf Hres) as Hid.
  destruct (resolved_canonical _ _ _ _ Hwf Hres) as (k & -> & Hk).
  destruct (resolve_under_restriction_root _ _ _ _ Hres) as [base Hb].
  revert Hshow. unfold _get_relative_path, display_root_of, resolved.
  destruct (return_relative_paths (valves self)); simpl negb; cbv iota;
    [|by intros [= <-]].
  rewrite Hspoof. cbv beta iota fix delta [String.eqb negb]. rewrite Hb.
  cbv beta iota delta [bind]. rewrite String.eqb_refl.
  rewrite (Path_rooted _ _ Hk).
  destruct (pathlib.relative_to (pathlib.mkPath "/" k) base) as [rel|e] eqn:Hrel.
  - intros [= <-]. revert Hrel. unfold pathlib.relative_to.
    destruct (String.eqb _ _); [|done].
    destruct (pathlib.strip_prefix _ _) as [rest|] eqn:Hs; [|done].
    intros [= <-]. apply strip_prefix_app in Hs. simpl in Hs.
    destruct (canonical_parts _ _ Hk) as [Hp Hns]. rewrite Hs in Hp, Hns.
    apply Forall_app in Hp as [_ Hp]. apply Forall_app in Hns as [_ Hns].
    assert (Hrest : Forall (fun x => pathlib.is_part x = true /\ Str.has_sep x = false) rest).
    { apply List.Forall_forall. intros x Hx. rewrite List.Forall_forall in Hp, Hns. auto. }
    pose proof (resolve_anchor _ _ _ Hb) as Ha.
    assert (Hdiv : pathlib.truediv base (pathlib.str (pathlib.mkPath "" rest))
                   = pathlib.mkPath "/" k).
    { unfold pathlib.truediv. rewrite (path_str_relative rest Hrest). simpl.
      by rewrite Ha, Hs. }
    destruct (resolve_under_restriction_outcome self fs
                (pathlib.str (pathlib.mkPath "" rest)) base (pathlib.mkPath "/" k))
      as [Hout _]; [done|by rewrite Hdiv; apply resolve_canonical|].
    destruct (resolve_under_restriction_outcome self fs
                ("/" +:+ Str.join k) base (pathlib.mkPath "/" k))
      as [Hout' _]; [done| |].
    { rewrite truediv_absolute by apply isabs_rooted.
      rewrite (Path_rooted _ _ Hk). by apply resolve_canonical. }
    rewrite Hout. rewrite Hid in Hout'.
    by destruct (Str.startswith _ _).
  - destruct (relative_to_cases (pathlib.mkPath "/" k) base) as [[rel Hr]|[m Hr]];
      rewrite Hr in Hrel; [done|]. injection Hrel as <-. by intros [= <-].
Qed.

Lemma displayed_path_resolves_back_witness :
  _get_relative_path World.open_tools World.shared "/srv/data/docs/n.txt"
  = Ok "docs/n.txt" /\
  _resolve_under_restriction World.open_tools World.shared "docs/n.txt"
  = Ok "/srv/data/docs/n.txt".
Proof.
  split; [by vm_compute|].
  apply (displayed_path_resolves_back World.open_tools World.shared "docs//n.txt").
  - split; [by repeat constructor|reflexivity].
  - reflexivity.
  - by vm_compute.
  - by vm_compute.
Defined.

(** ** Normalised paths *)

Lemma not_part (c : string) :
  String.eqb c "" || String.eqb c "." = negb (pathlib.is_part c).
Proof.
  unfold pathlib.is_part. by destruct (String.eqb c ""), (String.eqb c ".").
Qed.

Lemma norm_comps_cons (rooted : bool) (acc : list string) (comp : string)
      (rest : list string) :
  posixpath.norm_comps rooted acc (comp :: rest) =
  if negb (pathlib.is_part comp) then posixpath.norm_comps rooted acc rest
  else if negb (String.eqb comp "..") then posixpath.norm_comps rooted (comp :: acc) rest
  else match acc with
       | [] => if rooted then posixpath.norm_comps rooted acc rest
               else posixpath.norm_comps rooted (comp :: acc) rest
       | last :: acc' =>
           if String.eqb last ".." then posixpath.norm_comps rooted (comp :: acc) rest
           else posixpath.norm_comps rooted acc' rest
       end.
Proof. by rewrite <- not_part. Qed.

Lemma norm_comps_filter (rooted : bool) (l : list string) :
  forall acc,
    posixpath.norm_comps rooted acc (List.filter pathlib.is_part l)
    = posixpath.norm_comps rooted acc l.
Proof.
  induction l as [|c l IH]; intros acc; [done|].
  simpl List.filter. rewrite (norm_comps_cons _ _ c l).
  destruct (pathlib.is_part c) eqn:Hc; simpl negb; cbv iota; [|apply IH].
  rewrite norm_comps_cons, Hc. simpl negb. cbv iota.
  destruct (negb (String.eqb c "..")); [apply IH|].
  destruct acc as [|last acc]; [destruct rooted; apply IH|].
  destruct (String.eqb last ".."); apply IH.
Qed.

Lemma norm_comps_app (rooted : bool) (l1 l2 : list string) :
  forall acc,
    posixpath.norm_comps rooted acc (l1 ++ l2)
    = posixpath.norm_comps rooted (rev (posixpath.norm_comps rooted acc l1)) l2.
Proof.
  induction l1 as [|c l1 IH]; intros acc.
  - simpl. by rewrite rev_involutive.
  - simpl app. rewrite !(norm_comps_cons _ _ c).
    destruct (negb (pathlib.is_part c)); [apply IH|].
    destruct (negb (String.eqb c "..")); [apply IH|].
    destruct acc as [|last acc]; [destruct rooted; apply IH|].
    destruct (String.eqb last ".."); apply IH.
Qed.

Lemma norm_comps_plain (rooted : bool) (l : list string) :
  Forall (fun x => pathlib.is_part x = true /\ String.eqb x ".." = false) l ->
  forall acc, posixpath.norm_comps rooted acc l = rev acc ++ l.
Proof.
  induction 1 as [|c l [Hp Hd] _ IH]; intros acc.
  - simpl. by rewrite app_nil_r.
  - rewrite norm_comps_cons, Hp, Hd. simpl negb. cbv iota.
    rewrite IH. simpl rev. by rewrite <- app_assoc.
Qed.

(** Normalising a path followed by plain components appends them. *)
Lemma norm_comps_extend (rooted : bool) (l p : list string) :
  Forall (fun x => pathlib.is_part x = true /\ String.eqb x ".." = false) p ->
  posixpath.norm_comps rooted [] (l ++ p) = posixpath.norm_comps rooted [] l ++ p.
Proof.
  intros Hp. by rewrite norm_comps_app, norm_comps_plain, rev_involutive.
Qed.

Lemma norm_comps_parts (rooted : bool) (l : list string) :
  forall acc,
    Forall (fun x => pathlib.is_part x = true) acc ->
    Forall (fun x => pathlib.is_part x = true) (posixpath.norm_comps rooted acc l).
Proof.
  induction l as [|c l IH]; intros acc Hacc.
  - simpl. by apply Forall_rev.
  - rewrite norm_comps_cons.
    destruct (pathlib.is_part c) eqn:Hc; simpl negb; cbv iota; [|by apply IH].
    destruct (negb (String.eqb c "..")); [apply IH; by constructor|].
    destruct acc as [|last acc]; [destruct rooted; apply IH; by repeat constructor|].
    destruct (String.eqb last ".."); apply IH; [by constructor|].
    by apply List.Forall_cons_iff in Hacc as [_ ?].
Qed.

Lemma norm_comps_no_sep (rooted : bool) (l : list string) :
  Forall (fun x => Str.has_sep x = false) l ->
  forall acc,
    Forall (fun x => Str.has_sep x = false) acc ->
    Forall (fun x => Str.has_sep x = false) (posixpath.norm_comps rooted acc l).
Proof.
  induction 1 as [|c l Hc _ IH]; intros acc Hacc.
  - simpl. by apply Forall_rev.
  - rewrite norm_comps_cons.
    destruct (negb (pathlib.is_part c)); [by apply IH|].
    destruct (negb (String.eqb c "..")); [apply IH; by constructor|].
    destruct acc as [|last acc]; [destruct rooted; apply IH; by repeat constructor|].
    destruct (String.eqb last ".."); apply IH; [by constructor|].
    by apply List.Forall_cons_iff in Hacc as [_ ?].
Qed.

Lemma dots_below_all (acc : list string) :
  Forall (fun y => y = "..") acc -> dots_below acc.
Proof.
  induction 1 as [|x acc -> Hall IH]; [done|]. exact Hall.
Qed.

Lemma norm_comps_dots (l : list string) :
  forall acc,
    dots_below acc -> exists acc', posixpath.norm_comps false acc l = rev acc' /\ dots_below acc'.
Proof.
  induction l as [|c l IH]; intros acc Hacc.
  - exists acc. by simpl.
  - rewrite norm_comps_cons.
    destruct (negb (pathlib.is_part c)); [by apply IH|].
    destruct (String.eqb c "..") eqn:Hc; simpl negb; cbv iota.
    + apply String.eqb_eq in Hc as ->.
      destruct acc as [|last acc]; [apply IH; apply dots_below_all; by repeat constructor|].
      destruct (String.eqb_spec last "..") as [->|Hl].
      * apply IH. apply dots_below_all. constructor; [done|]. constructor; [done|exact Hacc].
      * apply IH. simpl in Hacc. apply String.eqb_neq in Hl. by rewrite Hl in Hacc.
    + apply IH. simpl. by rewrite Hc.
Qed.

Lemma dots_below_clean (acc : list string) :
  dots_below acc -> List.last acc "" <> ".." ->
  Forall (fun x => String.eqb x ".." = false) acc.
Proof.
  induction acc as [|x acc IH]; [done|]. simpl dots_below.
  destruct (String.eqb_spec x "..") as [->|Hx].
  - intros Hall Hlast. exfalso. apply Hlast.
    destruct acc as [|y acc]; [done|].
    pose proof (last_in (y :: acc) "" ltac:(done)) as Hin.
    rewrite List.Forall_forall in Hall. specialize (Hall _ Hin).
    change (List.last (".." :: y :: acc) "") with (List.last (y :: acc) ""). done.
  - intros Hd Hlast. constructor; [by apply String.eqb_neq|].
    destruct acc as [|y acc]; [done|]. by apply IH.
Qed.

Lemma split_app (a b : string) :
  Str.split (a +:+ "/" +:+ b) = Str.split a ++ Str.split b.
Proof.
  induction a as [|c a IH].
  - rewrite append_nil_l. exact (split_cons_sep b).
  - rewrite append_cons. simpl Str.split. rewrite IH.
    destruct (Ascii.eqb c Str.sep); [done|].
    pose proof (split_not_nil a). by destruct (Str.split a).
Qed.

Lemma substring_skip (n m : nat) (c : ascii) (s : string) :
  String.substring (S n) m (String c s) = String.substring n m s.
Proof. reflexivity. Qed.

Lemma endswith_sep (a : string) :
  Str.endswith a "/" = true -> exists a', a = a' +:+ "/".
Proof.
  unfold Str.endswith. intros H. apply andb_true_iff in H as [_ H].
  apply String.eqb_eq in H. change (String.length "/") with 1 in H.
  induction a as [|c a IH]; [done|].
  destruct a as [|d a].
  - simpl in H. exists "". by rewrite append_nil_l.
  - change (String.length (String c (String d a))) with (S (S (String.length a))) in H.
    replace (S (S (String.length a)) - 1) with (S (String.length (String d a) - 1)) in H
      by (simpl; lia).
    rewrite substring_skip in H. destruct (IH H) as [a' Ha'].
    exists (String c a'). by rewrite append_cons, <- Ha'.
Qed.

(** The components of a joined path are those of its two halves. *)
Lemma join_parts (a b : string) :
  posixpath.isabs b = false ->
  List.filter pathlib.is_part (Str.split (posixpath.join a b))
  = List.filter pathlib.is_part (Str.split a) ++ List.filter pathlib.is_part (Str.split b).
Proof.
  unfold posixpath.isabs, posixpath.join. intros ->.
  destruct (String.eqb_spec a "") as [->|Ha]; [done|].
  cbv beta iota delta [orb].
  destruct (Str.endswith a "/") eqn:He.
  - apply endswith_sep in He as [a' ->].
    rewrite append_assoc, split_app, List.filter_app.
    rewrite <- (append_nil_r (a' +:+ "/")), append_assoc, split_app, List.filter_app.
    simpl. by rewrite app_nil_r.
  - by rewrite split_app, List.filter_app.
Qed.

Lemma startswith_cons (c d : ascii) (p s : string) :
  Str.startswith (String d s) (String c p) = Ascii.eqb c d && Str.startswith s p.
Proof.
  unfold Str.startswith.
  change (String.prefix (String c p) (String d s))
    with (if Ascii.ascii_dec c d then String.prefix p s else false).
  destruct (Ascii.ascii_dec c d) as [->|Hne].
  - by rewrite Ascii.eqb_refl.
  - apply Ascii.eqb_neq in Hne. by rewrite Hne.
Qed.

Lemma startswith_nil (s : string) : Str.startswith s "" = true.
Proof. by destruct s. Qed.

Lemma startswith_empty (c : ascii) (p : string) : Str.startswith "" (String c p) = false.
Proof. reflexivity. Qed.

Lemma isabs_cons (c : ascii) (s : string) :
  posixpath.isabs (String c s) = Ascii.eqb "/" c.
Proof.
  unfold posixpath.isabs. rewrite startswith_cons, startswith_nil. apply andb_true_r.
Qed.

Lemma isabs_app (a t : string) :
  a <> "" -> posixpath.isabs (a +:+ t) = posixpath.isabs a.
Proof. destruct a as [|c a]; [done|]. intros _. by rewrite append_cons, !isabs_cons. Qed.

(** Joining appends, with or without a separator. *)
Lemma join_app (a b : string) :
  posixpath.isabs b = false -> a <> "" ->
  posixpath.join a b = a +:+ b /\ Str.endswith a "/" = true \/
  posixpath.join a b = a +:+ "/" +:+ b /\ Str.endswith a "/" = false.
Proof.
  unfold posixpath.isabs, posixpath.join. intros -> Ha.
  apply String.eqb_neq in Ha. rewrite Ha. cbv beta iota delta [orb].
  destruct (Str.endswith a "/"); auto.
Qed.

Lemma join_isabs (a b : string) :
  posixpath.isabs b = false ->
  posixpath.isabs (posixpath.join a b) = posixpath.isabs a.
Proof.
  intros Hb. destruct (String.eqb_spec a "") as [->|Ha].
  - unfold posixpath.join. unfold posixpath.isabs in Hb. rewrite Hb.
    cbv beta iota fix delta [String.eqb orb]. by rewrite append_nil_l.
  - destruct (join_app a b Hb Ha) as [[-> _]|[-> _]]; by apply isabs_app.
Qed.

Lemma initial_slashes_three (c1 c2 c3 : ascii) (s : string) :
  posixpath.initial_slashes (String c1 (String c2 (String c3 s)))
  = if negb (Ascii.eqb "/" c1) then 0
    else if Ascii.eqb "/" c2 && negb (Ascii.eqb "/" c3) then 2 else 1.
Proof.
  unfold posixpath.initial_slashes.
  rewrite !startswith_cons, !startswith_nil, !andb_true_r.
  destruct (Ascii.eqb "/" c1), (Ascii.eqb "/" c2), (Ascii.eqb "/" c3); reflexivity.
Qed.

Lemma initial_slashes_join (a b : string) :
  posixpath.isabs a = true -> posixpath.isabs b = false ->
  posixpath.initial_slashes (posixpath.join a b) = posixpath.initial_slashes a.
Proof.
  intros Ha Hb.
  destruct a as [|c1 a]; [done|]. rewrite isabs_cons in Ha.
  apply Ascii.eqb_eq in Ha as <-.
  destruct (join_app (String "/" a) b Hb ltac:(done)) as [[-> He]|[-> He]].
  - destruct a as [|c2 a].
    + apply initial_slashes_rooted. exact Hb.
    + destruct a as [|c3 a]; [|by rewrite !append_cons, !initial_slashes_three].
      assert (c2 = "/"%char) as ->.
      { unfold Str.endswith in He. simpl in He.
        by destruct (Ascii.eqb_spec c2 "/"). }
      rewrite !append_cons, append_nil_l.
      destruct b as [|d b]; [reflexivity|].
      rewrite initial_slashes_three. rewrite isabs_cons in Hb. by rewrite Hb.
  - destruct a as [|c2 a]; [done|].
    destruct a as [|c3 a]; [|by rewrite !append_cons, !initial_slashes_three].
    rewrite !append_cons, append_nil_l, initial_slashes_three.
    unfold posixpath.initial_slashes.
    rewrite !startswith_cons, !startswith_nil, startswith_empty.
    unfold Str.endswith in He. simpl in He.
    destruct (Ascii.eqb_spec "/" c2) as [<-|Hc]; [done|]. reflexivity.
Qed.

(** [normpath] of an absolute path: the slashes kept, then the components
    that are left. *)
Lemma normpath_abs (s : string) :
  posixpath.isabs s = true ->
  posixpath.normpath s
  = (match posixpath.initial_slashes s with 2 => "//" | _ => "/" end)
    +:+ Str.join (posixpath.norm_comps true [] (List.filter pathlib.is_part (Str.split s))).
Proof.
  intros Ha. unfold posixpath.normpath. rewrite norm_comps_filter.
  destruct s as [|c s]; [done|].
  change (String.eqb (String c s) "") with false. cbv iota.
  unfold posixpath.initial_slashes. unfold posixpath.isabs in Ha. rewrite Ha.
  simpl negb. cbv iota.
  by destruct (_ && _).
Qed.

Lemma normpath_rel (s : string) :
  posixpath.isabs s = false ->
  posixpath.normpath s
  = if String.eqb s "" then "."
    else let p := Str.join (posixpath.norm_comps false [] (Str.split s)) in
         if String.eqb p "" then "." else p.
Proof.
  intros Ha. unfold posixpath.normpath, posixpath.initial_slashes.
  unfold posixpath.isabs in Ha. by rewrite Ha.
Qed.

Lemma abspath_normpath (fs : FS) (x : string) :
  exists y, posixpath.abspath fs x = posixpath.normpath y /\
            posixpath.isabs y = true /\
            (posixpath.isabs x = true -> y = x) /\
            (posixpath.isabs x = false ->
             y = posixpath.join ("/" +:+ Str.join (cwd fs)) x).
Proof.
  unfold posixpath.abspath. destruct (posixpath.isabs x) eqn:Hx.
  - exists x. by repeat split.
  - eexists. split; [reflexivity|]. split; [|by split].
    rewrite join_isabs by done. apply isabs_rooted.
Qed.

(** A path extended by plain components normalises to an extension. *)
Lemma abspath_extend (fs : FS) (out b : string) :
  posixpath.isabs b = false ->
  Forall (fun x => pathlib.is_part x = true /\ String.eqb x ".." = false)
         (List.filter pathlib.is_part (Str.split b)) ->
  Str.startswith (posixpath.abspath fs (posixpath.join out b))
                 (posixpath.abspath fs out) = true.
Proof.
  intros Hb Hp.
  assert (Hgen : forall y z,
             posixpath.isabs y = true -> posixpath.isabs z = true ->
             posixpath.initial_slashes z = posixpath.initial_slashes y ->
             List.filter pathlib.is_part (Str.split z)
             = List.filter pathlib.is_part (Str.split y)
               ++ List.filter pathlib.is_part (Str.split b) ->
             Str.startswith (posixpath.normpath z) (posixpath.normpath y) = true).
  { intros y z Hy Hz Hi Hc. rewrite !normpath_abs, Hi, Hc by done.
    rewrite norm_comps_extend by done. apply join_prefix. }
  unfold posixpath.abspath. rewrite join_isabs by done.
  destruct (posixpath.isabs out) eqn:Ho.
  - apply Hgen; [done|by rewrite join_isabs| |].
    + by apply initial_slashes_join.
    + by apply join_parts.
  - set (C := "/" +:+ Str.join (cwd fs)).
    assert (HC : posixpath.isabs C = true) by apply isabs_rooted.
    assert (Hj : posixpath.isabs (posixpath.join out b) = false) by (by rewrite join_isabs).
    apply Hgen.
    + by rewrite join_isabs.
    + by rewrite join_isabs.
    + by rewrite !initial_slashes_join.
    + rewrite !join_parts by done. by rewrite app_assoc.
Qed.

Lemma lstrip_not_abs (m : string) : posixpath.isabs (Str.lstrip m) = false.
Proof.
  induction m as [|c m IH]; [done|]. simpl.
  destruct (Ascii.eqb_spec c Str.sep) as [->|Hc]; [done|].
  rewrite isabs_cons. apply Ascii.eqb_neq. by intros <-.
Qed.

Lemma join_dotdot (r : list string) : Str.startswith (Str.join (".." :: r)) ".." = true.
Proof.
  destruct r as [|y r]; [reflexivity|]. rewrite join_cons.
  unfold Str.startswith. exact (prefix_app ".." _).
Qed.

Lemma join_empty (r : list string) :
  Forall (fun x => pathlib.is_part x = true) r -> Str.join r = "" -> r = [].
Proof.
  destruct r as [|x r]; [done|]. intros Hp.
  apply List.Forall_cons_iff in Hp as [Hx _].
  destruct x as [|c x]; [done|].
  destruct r as [|y r]; [done|]. by rewrite join_cons, append_cons.
Qed.

(** The normalised name of a member that passes the first test: it is not
    absolute and its components are plain. *)
Lemma clean_member (m : string) :
  let clean := posixpath.normpath (Str.lstrip m) in
  Str.startswith clean ".." = false ->
  posixpath.isabs clean = false /\
  Forall (fun x => plain_name x = true) (List.filter pathlib.is_part (Str.split clean)).
Proof.
  intros clean. subst clean. rewrite normpath_rel by apply lstrip_not_abs.
  set (s := Str.lstrip m).
  destruct (String.eqb s ""); [by split; [|constructor]|]. cbv zeta.
  set (R := posixpath.norm_comps false [] (Str.split s)).
  assert (Hparts : Forall (fun x => pathlib.is_part x = true) R)
    by (by apply norm_comps_parts).
  assert (Hsep : Forall (fun x => Str.has_sep x = false) R)
    by (apply norm_comps_no_sep; [apply split_no_sep|done]).
  destruct (String.eqb_spec (Str.join R) "") as [E|E]; [by split; [|constructor]|].
  intros Hdd. split; [by apply join_not_abs|].
  assert (HR : R <> []) by (by intros ->).
  rewrite split_join, filter_all by done.
  destruct (norm_comps_dots (Str.split s) [] I) as (acc & Hacc & Hd). fold R in Hacc.
  assert (Hlast : List.last acc "" <> "..").
  { intros Hl. destruct acc as [|x acc _] using rev_ind; [done|].
    rewrite last_last in Hl. subst x. rewrite rev_unit in Hacc.
    by rewrite Hacc, join_dotdot in Hdd. }
  pose proof (dots_below_clean acc Hd Hlast) as Hclean.
  apply Forall_rev in Hclean. rewrite <- Hacc in Hclean.
  apply List.Forall_forall. intros x Hx. rewrite List.Forall_forall in Hparts, Hsep, Hclean.
  unfold plain_name. by rewrite Hparts, Hclean, Hsep.
Qed.

(** A member that passes the first test passes the second one too. *)
Lemma sanitize_accepts (fs : FS) (member_path output_dir : string) :
  let clean := posixpath.normpath (Str.lstrip member_path) in
  Str.startswith clean ".." = false ->
  _sanitize_archive_path fs member_path output_dir = Ok (posixpath.join output_dir clean).
Proof.
  intros clean Hdd. unfold _sanitize_archive_path. fold clean. rewrite Hdd.
  destruct (clean_member member_path Hdd) as [Habs Hplain]. fold clean in Habs, Hplain.
  rewrite Habs. cbv beta iota delta [orb].
  rewrite abspath_extend; [done|done|].
  eapply Forall_impl; [exact Hplain|]. intros x Hx.
  by apply plain_name_part in Hx as (? & ? & _).
Qed.

(** X5. [_sanitize_archive_path] rejects a member exactly when its name,
    stripped of leading slashes and normalised, starts with two dots, and
    otherwise returns the output directory joined with the normalised name.
    The test for an absolute name and the second test, on [abspath], never
    fire. *)
Theorem sanitize_archive_path_outcome (fs : FS) (member_path output_dir : string) :
  let clean := posixpath.normpath (Str.lstrip member_path) in
  _sanitize_archive_path fs member_path output_dir =
  if Str.startswith clean ".." then
    Raise (ValueError ("Unsafe archive member path: " +:+ member_path))
  else Ok (posixpath.join output_dir clean).
Proof.
  intros clean. destruct (Str.startswith clean "..") eqn:Hdd.
  - by apply sanitize_refuses_parent_escape.
  - by apply sanitize_accepts.
Qed.

Lemma sanitize_ok (fs : FS) (member_path output_dir p : string) :
  _sanitize_archive_path fs member_path output_dir = Ok p ->
  let clean := posixpath.normpath (Str.lstrip member_path) in
  p = posixpath.join output_dir clean /\
  posixpath.isabs clean = false /\
  Forall (fun x => plain_name x = true) (List.filter pathlib.is_part (Str.split clean)).
Proof.
  intros H clean. destruct (Str.startswith clean "..") eqn:Hdd.
  - by rewrite sanitize_refuses_parent_escape in H.
  - rewrite sanitize_accepts in H by done. injection H as <-.
    split; [done|]. by apply clean_member.
Qed.

(** Plain components that meet no link are walked one by one. *)
Lemma walk_extend (lk : gmap (list string) string) (fuel : nat)
      (cur l d : list string) :
  pathlib.walk fuel lk cur l = Some d ->
  forall p,
    Forall (fun x => plain_name x = true) p ->
    (forall pre, pre <> [] -> pre `prefix_of` p -> lk !! (d ++ pre) = None) ->
    pathlib.walk fuel lk cur (l ++ p) = Some (d ++ p).
Proof.
  intros Hw p. induction p as [|x p IH] using rev_ind; intros Hp Hfree.
  - by rewrite !app_nil_r.
  - apply Forall_app in Hp as [Hp Hx]. apply List.Forall_cons_iff in Hx as [Hx _].
    apply plain_name_part in Hx as (Hpart & Hdd & _).
    rewrite !app_assoc. apply walk_snoc; [done|by apply String.eqb_neq| |].
    + apply IH; [done|]. intros pre Hne Hpre. apply Hfree; [done|].
      by apply prefix_app_r.
    + rewrite <- app_assoc. apply Hfree; [by destruct p|done].
Qed.

Lemma start_join (fs : FS) (a b : string) :
  posixpath.isabs b = false -> os.start fs (posixpath.join a b) = os.start fs a.
Proof. intros Hb. unfold os.start. by rewrite join_isabs. Qed.

(** Where a path below [a] lies when no link is met below [a]. *)
Lemma locate_join (fs : FS) (a b : string) (ka : list string) :
  os.locate fs a = Some ka ->
  posixpath.isabs b = false ->
  let p := List.filter pathlib.is_part (Str.split b) in
  Forall (fun x => plain_name x = true) p ->
  (forall pre, pre <> [] -> pre `prefix_of` p -> links fs !! (ka ++ pre) = None) ->
  os.locate fs (posixpath.join a b) = Some (ka ++ p).
Proof.
  intros Ha Hb p Hp Hfree. unfold os.locate in *.
  rewrite <- walk_filter, join_parts, start_join by done.
  rewrite <- walk_filter in Ha. by apply walk_extend.
Qed.

(** X6. The path [_sanitize_archive_path] accepts names a key at or below
    the key of the output directory, provided no symbolic link lies below
    the output directory. *)
Theorem sanitized_member_stays_below_output
  (fs : FS) (member_path output_dir p : string) (kout : list string) :
  _sanitize_archive_path fs member_path output_dir = Ok p ->
  os.locate fs output_dir = Some kout ->
  (forall key, kout `prefix_of` key -> key <> kout -> links fs !! key = None) ->
  exists key, os.locate fs p = Some key /\ kout `prefix_of` key.
Proof.
  intros Hs Hout Hfree. apply sanitize_ok in Hs as (-> & Hrel & Hplain).
  eexists. split; [|by apply prefix_app_r].
  apply locate_join; [done|done|done|].
  intros pre Hne _. apply Hfree; [by apply prefix_app_r|].
  intros E. rewrite <- (app_nil_r kout) in E at 2. by apply app_inv_head in E.
Qed.

Lemma sanitized_member_stays_below_output_witness :
  exists key,
    os.locate Sample.unpack "/srv/data/out/d/x.txt" = Some key /\
    ["srv"; "data"; "out"] `prefix_of` key.
Proof.
  apply (sanitized_member_stays_below_output Sample.unpack "/d/./x.txt" "/srv/data/out").
  - by vm_compute.
  - by vm_compute.
  - intros key _ _. reflexivity.
Defined.

(** ** Stepping through a method *)

Lemma mbind_inv {A B} (m : M A) (k : A -> M B) (fs fs' : FS) (r : result B) :
  mbind m k fs = (fs', r) ->
  (exists fs1 a, m fs = (fs1, Ok a) /\ k a fs1 = (fs', r)) \/
  (exists e, m fs = (fs', Raise e) /\ r = Raise e).
Proof.
  unfold mbind. destruct (m fs) as [fs1 [a|e]]; [eauto|].
  intros [= <- <-]. eauto.
Qed.

Lemma ask_inv {A} (f : FS -> result A) (fs fs' : FS) (r : result A) :
  ask f fs = (fs', r) -> fs' = fs /\ f fs = r.
Proof. by intros [= <- <-]. Qed.

Lemma test_inv (f : FS -> bool) (fs fs' : FS) (r : result bool) :
  test f fs = (fs', r) -> fs' = fs /\ r = Ok (f fs).
Proof. by intros [= <- <-]. Qed.

Lemma call_inv (f : FS -> result FS) (fs fs' : FS) (r : result unit) :
  call f fs = (fs', r) ->
  (f fs = Ok fs' /\ r = Ok tt) \/ (exists e, f fs = Raise e /\ fs' = fs /\ r = Raise e).
Proof.
  unfold call. destruct (f fs) as [fs1|e]; intros [= <- <-]; eauto.
Qed.

Lemma relative_raises_loop (self : Tools) (fs : FS) (p : string) (e : exn) :
  _get_relative_path self fs p = Raise e -> e = symlink_loop.
Proof.
  unfold _get_relative_path, resolved.
  destruct (negb _); [done|].
  destruct (pathlib.resolve fs (pathlib.Path (root_restriction_directory _)));
    [|by intros [= <-]].
  simpl bind.
  destruct (pathlib.resolve fs (pathlib.Path (display_root_of _))); [|by intros [= <-]].
  simpl bind.
  destruct (relative_to_cases (pathlib.Path p) p0) as [[rel ->]|[m ->]]; [|done].
  by destruct (String.eqb _ _).
Qed.

(** The handler answers only a [ValueError] or an [OSError], with a
    failure, and touches nothing. *)
Lemma handler_inv (self : Tools) (a s pfx : string) (e : exn) (fs fs' : FS)
      (env : list field) :
  handler self a s pfx e fs = (fs', Ok env) ->
  fs' = fs /\ dict_get env "ok" = Some (VBool false) /\
  ((exists m, e = ValueError m /\ dict_get env "error" = Some (VStr m)) \/
   (exists m, e = OSError m /\ dict_get env "error" = Some (VStr (pfx +:+ m)))).
Proof.
  destruct e as [m|m|m|m|m]; simpl; try done; intros H.
  all: pose proof (error_result_not_ok _ _ _ _ _ _ _ H) as Hok.
  all: apply ask_inv in H as [-> H]; split; [done|]; split; [done|].
  all: rewrite (result_get _ _ _ _ _ _ _ H "error") by done.
  - left. by exists m.
  - right. by exists m.
Qed.

Lemma handler_state (self : Tools) (a s pfx : string) (e : exn) (fs fs' : FS)
      (r : result (list field)) :
  handler self a s pfx e fs = (fs', r) -> fs' = fs.
Proof.
  destruct e; simpl; try (by intros [= <- _]); intros H; by apply ask_inv in H as [-> _].
Qed.

(** The last two statements of a method: the path is mapped for display
    and the envelope is built. Neither touches the file system, and only
    a symbolic link loop makes them raise. *)
Lemma report_inv (self : Tools) (p : string) (ok : bool) (a s : string)
      (kw : string -> list field) (fs fs' : FS) (r : result (list field)) :
  (rel <- relative_m self p ;; ask (fun fs => _result self fs ok a s (kw rel))) fs
  = (fs', r) ->
  fs' = fs /\
  ((exists rel env, r = Ok env /\ _get_relative_path self fs p = Ok rel /\
                    _result self fs ok a s (kw rel) = Ok env) \/
   r = Raise symlink_loop).
Proof.
  intros H. apply mbind_inv in H as [(fs1 & rel & H1 & H2)|(e & H1 & ->)].
  - apply ask_inv in H1 as [-> H1]. apply ask_inv in H2 as [-> H2]. split; [done|].
    destruct r as [env|e]; [left; eauto|].
    right. f_equal. by eapply result_raises_loop.
  - apply ask_inv in H1 as [-> H1]. split; [done|]. right. f_equal.
    by eapply relative_raises_loop.
Qed.

Lemma handler_loop (self : Tools) (a s pfx : string) (fs fs' : FS) (env : list field) :
  handler self a s pfx symlink_loop fs = (fs', Ok env) -> False.
Proof. done. Qed.

(** ** Deleting *)

Lemma canonical_link_free (fs : FS) (k : list string) :
  links fs !! [] = None -> canonical (links fs) k -> links fs !! k = None.
Proof.
  intros Hroot [_ Hl]. destruct (decide (k = [])) as [->|Hne]; [done|]. by apply Hl.
Qed.

Lemma unlink_canonical (fs fs' : FS) (k : list string) :
  links fs !! [] = None -> canonical (links fs) k ->
  os.unlink fs ("/" +:+ Str.join k) = Ok fs' ->
  exists c, nodes fs !! k = Some (File c) /\ fs' = with_nodes fs (delete k (nodes fs)).
Proof.
  intros Hroot Hc. unfold os.unlink.
  rewrite (proj2 (canonical_locate fs k Hc)), (canonical_link_free fs k Hroot Hc).
  destruct (nodes fs !! k) as [[c|]|]; [|done|done].
  intros [= <-]. eauto.
Qed.

(** X7. [delete_file]: when the envelope says ok, the resolved path named
    a regular file and the file system afterwards is the one before without
    that one node; when it says not ok, the file system is unchanged. *)
Theorem delete_file_outcome
  (self : Tools) (file_name : string) (base_dir : option string)
  (fs fs' : FS) (env : list field) :
  well_formed fs ->
  delete_file self file_name base_dir fs = (fs', Ok env) ->
  (dict_get env "ok" = Some (VBool true) ->
   exists p k c,
     _resolve_under_restriction self fs
       (posixpath.join (base_path_of base_dir) file_name) = Ok p /\
     os.locate fs p = Some k /\
     nodes fs !! k = Some (File c) /\
     fs' = with_nodes fs (delete k (nodes fs))) /\
  (dict_get env "ok" = Some (VBool false) -> fs' = fs).
Proof.
  intros Hwf H. unfold delete_file in H.
  apply try_except_inv in H as [(env' & H & [= <-])|(fs1 & e & H & Hh)].
  - apply mbind_inv in H as [(fs1 & p & H1 & H)|(e & _ & [=])].
    apply ask_inv in H1 as [-> Hres].
    apply mbind_inv in H as [(fs1 & ex & H1 & H)|(e & _ & [=])].
    apply test_inv in H1 as [-> [= ->]].
    destruct (os.exists_ fs p); simpl negb in H; cbv iota in H.
    + apply mbind_inv in H as [(fs1 & isd & H1 & H)|(e & _ & [=])].
      apply test_inv in H1 as [-> [= ->]].
      destruct (os.isdir fs p).
      * pose proof (error_result_not_ok _ _ _ _ _ _ _ H) as Hok.
        apply ask_inv in H as [-> _]. split; [by rewrite Hok|done].
      * apply mbind_inv in H as [(fs1 & [] & H1 & H)|(e & _ & [=])].
        apply call_inv in H1 as [[H1 _]|(e & _ & _ & [=])].
        apply report_inv in H as [-> [(rel & env' & [= <-] & _ & Hr)|[=]]].
        assert (Hok : dict_get env "ok" = Some (VBool true))
          by (by rewrite (result_get _ _ _ _ _ _ _ Hr)).
        split; [intros _|by rewrite Hok].
        destruct (resolved_canonical _ _ _ _ Hwf Hres) as (k & -> & Hk).
        destruct (unlink_canonical _ _ _ (proj2 Hwf) Hk H1) as (c & Hc & ->).
        exists ("/" +:+ Str.join k), k, c.
        by rewrite (proj1 (canonical_locate fs k Hk)).
    + apply report_inv in H as [-> [(rel & env' & [= <-] & _ & Hr)|[=]]].
      assert (Hok : dict_get env "ok" = Some (VBool false))
        by (by rewrite (result_get _ _ _ _ _ _ _ Hr)).
      split; [by rewrite Hok|done].
  - apply handler_inv in Hh as (-> & Hok & He).
    split; [by rewrite Hok|intros _].
    apply mbind_inv in H as [(fs2 & p & H1 & H)|(e' & H1 & _)];
      [|by apply ask_inv in H1 as [-> _]].
    apply ask_inv in H1 as [-> Hres].
    apply mbind_inv in H as [(fs2 & ex & H1 & H)|(e' & H1 & _)];
      [|by apply test_inv in H1 as [-> _]].
    apply test_inv in H1 as [-> [= ->]].
    destruct (os.exists_ fs p); simpl negb in H; cbv iota in H.
    + apply mbind_inv in H as [(fs2 & isd & H1 & H)|(e' & H1 & _)];
        [|by apply test_inv in H1 as [-> _]].
      apply test_inv in H1 as [-> [= ->]].
      destruct (os.isdir fs p); [by apply ask_inv in H as [-> _]|].
      apply mbind_inv in H as [(fs2 & [] & H1 & H)|(e' & H1 & _)].
      * apply report_inv in H as [_ [(? & ? & [=] & _)|[= ->]]].
        destruct He as [(? & [=] & _)|(? & [=] & _)].
      * by apply call_inv in H1 as [[_ [=]]|(? & _ & -> & _)].
    + by apply report_inv in H as [-> _].
Qed.

Lemma delete_file_outcome_witness :
  let r := delete_file Sample.tools "a.txt" None World.shared in
  exists p k c,
    _resolve_under_restriction Sample.tools World.shared
      (posixpath.join (base_path_of None) "a.txt") = Ok p /\
    os.locate World.shared p = Some k /\
    nodes World.shared !! k = Some (File c) /\
    fst r = with_nodes World.shared (delete k (nodes World.shared)).
Proof.
  refine (proj1 (delete_file_outcome Sample.tools "a.txt" None World.shared _
                   (World.envelope (delete_file Sample.tools "a.txt" None World.shared))
                   _ _) _).
  - split; [by repeat constructor|reflexivity].
  - by vm_compute.
  - by vm_compute.
Defined.


Lemma resolve_m_run {B} (self : Tools) (path p : string) (k : string -> M B) (fs : FS) :
  _resolve_under_restriction self fs path = Ok p ->
  mbind (resolve_m self path) k fs = k p fs.
Proof. intros H. apply mbind_run. unfold resolve_m, ask. by rewrite H. Qed.

Lemma test_run {B} (f : FS -> bool) (k : bool -> M B) (fs : FS) :
  mbind (test f) k fs = k (f fs) fs.
Proof. reflexivity. Qed.




(** ** Creating folders *)

Lemma isfile_exists (fs : FS) (p : string) : os.isfile fs p = true -> os.exists_ fs p = true.
Proof. unfold os.isfile, os.exists_. by destruct (os.node_at fs p) as [[]|]. Qed.

Lemma isfile_not_dir (fs : FS) (p : string) : os.isfile fs p = true -> os.isdir fs p = false.
Proof. unfold os.isfile, os.isdir. by destruct (os.node_at fs p) as [[]|]. Qed.

(** X9. [create_folder] on a path that is an existing regular file changes
    nothing and still answers ok, with the message that the folder already
    exists, although no directory is there. *)
Theorem create_folder_accepts_existing_file
  (self : Tools) (folder_name : string) (base_dir : option string)
  (fs fs' : FS) (p : string) (env : list field) :
  _resolve_under_restriction self fs
    (posixpath.join (base_path_of base_dir) folder_name) = Ok p ->
  os.isfile fs p = true ->
  create_folder self folder_name base_dir fs = (fs', Ok env) ->
  fs' = fs /\
  os.isdir fs' p = false /\
  dict_get env "ok" = Some (VBool true) /\
  dict_get env "message"
  = Some (VStr ("Folder '" +:+ folder_name +:+ "' already exists")).
Proof.
  intros Hres Hfile H. unfold create_folder in H.
  apply try_except_inv in H as [(env' & H & [= <-])|(fs1 & e & H & Hh)];
    rewrite (resolve_m_run _ _ _ _ _ Hres), test_run, (isfile_exists _ _ Hfile) in H;
    simpl negb in H; cbv iota in H;
    apply report_inv in H as [-> H].
  - destruct H as [(rel & env' & [= <-] & _ & Hr)|[=]].
    split; [done|]. split; [by apply isfile_not_dir|].
    by rewrite !(result_get _ _ _ _ _ _ _ Hr).
  - destruct H as [(? & ? & [=] & _)|[= ->]]. done.
Qed.

Lemma create_folder_accepts_existing_file_witness :
  let r := create_folder Sample.tools "a.txt" None World.shared in
  fst r = World.shared /\
  os.isdir (fst r) "/srv/data/a.txt" = false /\
  dict_get (World.envelope r) "ok" = Some (VBool true) /\
  dict_get (World.envelope r) "message" = Some (VStr "Folder 'a.txt' already exists").
Proof.
  apply (create_folder_accepts_existing_file Sample.tools "a.txt" None World.shared).
  - by vm_compute.
  - by vm_compute.
  - by vm_compute.
Defined.

Lemma makedirs_from_leaf (rest : list string) :
  forall (n n' : gmap (list string) node) (cur : list string),
    os.makedirs_from n cur rest = Ok n' -> rest <> [] ->
    n' !! (cur ++ rest) = Some Dir.
Proof.
  induction rest as [|c rest IH]; intros n n' cur H Hne; [done|].
  simpl in H.
  destruct rest as [|d rest].
  - destruct (n !! (cur ++ [c])) as [[]|] eqn:E; simpl in H; try done.
    + by injection H as <-.
    + injection H as <-. by rewrite lookup_insert_eq.
  - replace (cur ++ c :: d :: rest) with ((cur ++ [c]) ++ d :: rest)
      by (by rewrite <- app_assoc).
    destruct (n !! (cur ++ [c])) as [[]|] eqn:E; try done; by eapply IH.
Qed.

(** X10. [create_folder] on a path that does not exist: when the envelope
    says ok, the path is a directory afterwards, no link changed and every
    node present before is still there. *)
Theorem create_folder_creates_directory
  (self : Tools) (folder_name : string) (base_dir : option string)
  (fs fs' : FS) (p : string) (env : list field) :
  well_formed fs ->
  _resolve_under_restriction self fs
    (posixpath.join (base_path_of base_dir) folder_name) = Ok p ->
  os.exists_ fs p = false ->
  create_folder self folder_name base_dir fs = (fs', Ok env) ->
  dict_get env "ok" = Some (VBool true) ->
  os.isdir fs' p = true /\
  links fs' = links fs /\
  forall key x, nodes fs !! key = Some x -> nodes fs' !! key = Some x.
Proof.
  intros Hwf Hres Hex H Hok. unfold create_folder in H.
  destruct (resolved_canonical _ _ _ _ Hwf Hres) as (k & -> & Hk).
  apply try_except_inv in H as [(env' & H & [= <-])|(fs1 & e & H & Hh)];
    [|apply handler_inv in Hh as (_ & Hno & _); by rewrite Hno in Hok].
  rewrite (resolve_m_run _ _ _ _ _ Hres), test_run, Hex in H.
  simpl negb in H. cbv iota in H.
  apply mbind_inv in H as [(fs1 & [] & H1 & H)|(e & _ & [=])].
  apply call_inv in H1 as [[H1 _]|(e & _ & _ & [=])].
  apply report_inv in H as [-> _].
  revert H1. unfold makedirs_exclusive.
  destruct (String.eqb _ _); [done|].
  rewrite (proj2 (canonical_locate fs k Hk)).
  destruct (links fs !! k); [done|]. destruct (nodes fs !! k); [done|].
  destruct k as [|x k]; [done|].
  destruct (os.makedirs_from (nodes fs) [] (x :: k)) as [n|] eqn:Hn; [|done].
  intros [= <-]. split; [|split; [done|]].
  - unfold os.isdir, os.node_at. rewrite locate_with_nodes.
    rewrite (proj1 (canonical_locate fs (x :: k) Hk)). simpl nodes.
    pose proof (makedirs_from_leaf _ _ _ _ Hn ltac:(done)) as Hleaf.
    simpl app in Hleaf. by rewrite Hleaf.
  - by eapply makedirs_from_keeps.
Qed.

Lemma create_folder_creates_directory_witness :
  let r := create_folder Sample.tools "new/sub" None World.shared in
  os.isdir (fst r) "/srv/data/new/sub" = true /\
  links (fst r) = links World.shared /\
  forall key x, nodes World.shared !! key = Some x -> nodes (fst r) !! key = Some x.
Proof.
  apply (create_folder_creates_directory Sample.tools "new/sub" None World.shared _
           "/srv/data/new/sub"
           (World.envelope (create_folder Sample.tools "new/sub" None World.shared))).
  - split; [by repeat constructor|reflexivity].
  - by vm_compute.
  - by vm_compute.
  - by vm_compute.
  - by vm_compute.
Defined.

(** ** Questions about a path *)

(** X11. [is_file] and [is_directory] never change the file system; they
    answer [False] when the path escapes the root, answer as
    [os.path.isfile] and [os.path.isdir] on the resolved path otherwise, and
    never both answer [True]. *)
Theorem is_file_is_directory_answers (self : Tools) (fs : FS) (path : string) :
  let f := is_file self path fs in
  let d := is_directory self path fs in
  fst f = fs /\ fst d = fs /\
  (forall m, _resolve_under_restriction self fs path = Raise (ValueError m) ->
             snd f = Ok false /\ snd d = Ok false) /\
  (forall p, _resolve_under_restriction self fs path = Ok p ->
             snd f = Ok (os.isfile fs p) /\ snd d = Ok (os.isdir fs p)) /\
  ~ (snd f = Ok true /\ snd d = Ok true).
Proof.
  unfold is_file, is_directory, try_except, mbind, resolve_m, ask, test.
  destruct (_resolve_under_restriction self fs path) as [p|e] eqn:Hres.
  - simpl. split; [done|]. split; [done|]. split; [done|]. split.
    + by intros p' [= <-].
    + intros [[= Hf] [= Hd]]. apply isfile_not_dir in Hf. by rewrite Hf in Hd.
  - destruct e; simpl; (split; [done|]); (split; [done|]);
      (split; [by intros ? [= <-]|]); (split; [done|]); by intros [[=] _].
Qed.

(** ** The working directory *)

Lemma result_quiet (self : Tools) (fs : FS) (ok : bool) (a s : string) (kw : list field) :
  debug (valves self) = false ->
  _result self fs ok a s kw
  = Ok (dict_update [KV "ok" (VBool ok); KV "action" (VStr a); KV "subject_type" (VStr s)] kw).
Proof. unfold _result. by intros ->. Qed.

(** X12. With debug off, [cwd] always returns an envelope and leaves the
    file system alone: when the root resolves, the path shown is the display
    root (the spoof root if set) and ok tells whether the real root exists;
    when resolving raises, ok is false, no path is given and the error
    starts with the fixed prefix. *)
Theorem cwd_reports_display_root (self : Tools) (fs : FS) :
  debug (valves self) = false ->
  exists env,
    Tool.cwd self fs = (fs, Ok env) /\
    (forall base,
        pathlib.resolve fs (pathlib.Path (root_restriction_directory (valves self)))
        = Some base ->
        dict_get env "path" = Some (VStr (display_root_of (valves self))) /\
        dict_get env "ok" = Some (VBool (os.exists_ fs (pathlib.str base)))) /\
    (pathlib.resolve fs (pathlib.Path (root_restriction_directory (valves self))) = None ->
     dict_get env "ok" = Some (VBool false) /\
     dict_get env "path" = None /\
     exists m, dict_get env "error"
               = Some (VStr ("Failed to get current working directory: " +:+ m))).
Proof.
  intros Hdebug. unfold Tool.cwd, try_except, mbind, ask, test, resolved.
  destruct (pathlib.resolve fs _) as [base|] eqn:Hb.
  - destruct (os.exists_ fs (pathlib.str base)) eqn:Hex; cbv beta iota delta [negb];
      rewrite result_quiet by done; eexists; (split; [reflexivity|]);
      (split; [|done]); by intros ? [= <-]; rewrite Hex.
  - rewrite result_quiet by done. eexists. split; [reflexivity|].
    split; [done|]. intros _. split; [done|]. split; [done|]. by eexists.
Qed.

Lemma cwd_reports_display_root_witness :
  exists env,
    Tool.cwd Sample.tools World.shared = (World.shared, Ok env) /\
    dict_get env "path" = Some (VStr "/virtual") /\
    dict_get env "ok" = Some (VBool true).
Proof.
  destruct (cwd_reports_display_root Sample.tools World.shared eq_refl)
    as (env & Hrun & Hok & _).
  exists env. split; [done|].
  exact (Hok (pathlib.mkPath "/" ["srv"; "data"]) eq_refl).
Defined.

(** ** Writing files *)

(** What a successful replace of a fresh temporary file leaves. *)
Lemma replace_temp_exact (fs1 : FS) (temp : string) (k : list string) (c : content)
      (file_path : string) (fs' : FS) :
  os.locate_nofollow fs1 temp = Some k ->
  nodes fs1 !! k = None ->
  os.replace (holding fs1 k c) temp file_path = Ok fs' ->
  exists kd,
    os.locate_nofollow fs1 file_path = Some kd /\
    nodes fs' = <[kd := File c]> (nodes fs1) /\
    (links fs' = links fs1 \/ links fs' = delete kd (links fs1)) /\
    cwd fs' = cwd fs1.
Proof.
  intros Hk Hfresh. unfold os.replace. rewrite !locate_nofollow_holding, Hk.
  destruct (os.locate_nofollow fs1 file_path) as [kd|]; [|done].
  unfold holding at 1. simpl nodes. rewrite lookup_insert_eq.
  destruct (negb _); [done|].
  assert (Hdone : (if bool_decide (k = kd) then Ok (holding fs1 k c)
                   else Ok {| cwd := cwd (holding fs1 k c);
                              links := delete kd (links (holding fs1 k c));
                              nodes := <[kd := File c]>
                                         (delete k (nodes (holding fs1 k c))) |})
                  = Ok fs' ->
                  exists kd0, Some kd = Some kd0 /\
                    nodes fs' = <[kd0 := File c]> (nodes fs1) /\
                    (links fs' = links fs1 \/ links fs' = delete kd0 (links fs1)) /\
                    cwd fs' = cwd fs1).
  { intros H. exists kd. split; [done|].
    destruct (bool_decide (k = kd)) eqn:E; injection H as <-.
    - apply bool_decide_eq_true in E as <-. unfold holding. simpl. auto.
    - unfold holding. simpl. rewrite delete_insert_eq, delete_id by done. auto. }
  destruct (links (holding fs1 k c) !! kd);
    destruct (<[k:=File c]> (nodes fs1) !! kd) as [[]|]; try done; exact Hdone.
Qed.

(** What one [_atomic_write] leaves: the parent directories, and then
    either the new content under the target's name, or all that was there. *)
Lemma atomic_write_inv (o : Oracle) (file_path text : string) (fs fs' : FS)
      (r : result unit) :
  _atomic_write o file_path text fs = (fs', r) ->
  exists fsA,
    (forall key x, nodes fs !! key = Some x -> nodes fsA !! key = Some x) /\
    (exists n, fsA = with_nodes fs n) /\
    match r with
    | Ok _ =>
        exists kd,
          os.locate_nofollow fsA file_path = Some kd /\
          nodes fs' = <[kd := File (Bytes text)]> (nodes fsA) /\
          (links fs' = links fsA \/ links fs' = delete kd (links fsA)) /\
          cwd fs' = cwd fsA
    | Raise _ => forall key x, nodes fsA !! key = Some x -> nodes fs' !! key = Some x
    end.
Proof.
  intros Hrun.
  destruct (_ensure_parent_dir file_path fs) as [fsA rA] eqn:Hens.
  exists fsA. split; [by eapply ensure_parent_dir_keeps|].
  split; [by eapply ensure_parent_dir_nodes|].
  unfold _atomic_write in Hrun. unfold mbind at 1 in Hrun. rewrite Hens in Hrun.
  destruct rA as [[]|eA]; [|by injection Hrun as <- <-].
  unfold mbind at 1, mkstemp in Hrun.
  destruct (mkstemp_inner _ (names o) fsA) as [fs2 [temp|eT]] eqn:Htemp.
  2:{ apply mkstemp_inner_spec in Htemp. subst fs2. by injection Hrun as <- <-. }
  pose proof (mkstemp_inner_spec _ _ _ _ _ Htemp)
    as (k & Hk & Hlink & Hfresh & Hne & Hparent & ->).
  unfold try_except in Hrun.
  pose proof (try_block_result fsA temp k) as Hres. feed Hres.
  specialize (Hres o file_path text (Bytes "")).
  pose proof (cleanup_outcome fsA temp k) as Hcleanup. feed Hcleanup.
  destruct (run_all _ (holding fsA k (Bytes ""))) as [st [[]|e]].
  - destruct Hres as [_ Hreplace]. injection Hrun as <- <-.
    by eapply replace_temp_exact.
  - destruct Hres as [c ->].
    destruct (Hcleanup _ _ _ _ _ Hrun) as [Hst [e' ->]].
    destruct Hst as [->| ->]; [done|]. by apply holding_keeps.
Qed.

Lemma read_canonical (fs : FS) (k : list string) (c : content) :
  canonical (links fs) k -> nodes fs !! k = Some (File c) ->
  os.read_file fs ("/" +:+ Str.join k) = Ok c.
Proof.
  intros Hk Hc. unfold os.read_file.
  by rewrite (proj1 (canonical_locate fs k Hk)), Hc.
Qed.

(** X13. [write_to_file]: when the envelope says ok, reading the resolved
    path gives exactly the text written, the byte count is its length, no
    link changed and every other node is kept; when it says not ok, every
    node that existed is still there unchanged. *)
Theorem write_to_file_outcome
  (self : Tools) (o : Oracle) (file_name text : string) (base_dir : option string)
  (fs fs' : FS) (p : string) (env : list field) :
  well_formed fs ->
  _resolve_under_restriction self fs
    (posixpath.join (base_path_of base_dir) file_name) = Ok p ->
  write_to_file self o file_name text base_dir fs = (fs', Ok env) ->
  (dict_get env "ok" = Some (VBool true) ->
   os.read_file fs' p = Ok (Bytes text) /\
   dict_get env "bytes" = Some (VInt (Z.of_nat (String.length text))) /\
   links fs' = links fs /\
   exists k, os.locate fs p = Some k /\
             forall key x, key <> k -> nodes fs !! key = Some x ->
                           nodes fs' !! key = Some x) /\
  (dict_get env "ok" = Some (VBool false) ->
   forall key x, nodes fs !! key = Some x -> nodes fs' !! key = Some x).
Proof.
  intros Hwf Hres H. unfold write_to_file in H.
  destruct (resolved_canonical _ _ _ _ Hwf Hres) as (k & -> & Hk).
  apply try_except_inv in H as [(env' & H & [= <-])|(fs1 & e & H & Hh)];
    rewrite (resolve_m_run _ _ _ _ _ Hres) in H;
    (apply mbind_inv in H as [(fs2 & [] & H1 & H)|(e' & H1 & He')]);
    apply atomic_write_inv in H1 as (fsA & Hkeep & [n ->] & H1).
  - destruct H1 as (kd & Hkd & Hnodes & Hlinks & Hcwd).
    apply report_inv in H as [-> [(rel & env' & [= <-] & _ & Hr)|[=]]].
    assert (Hok : dict_get env "ok" = Some (VBool true))
      by (by rewrite (result_get _ _ _ _ _ _ _ Hr)).
    split; [intros _|by rewrite Hok].
    rewrite locate_nofollow_with_nodes, (proj2 (canonical_locate fs k Hk)) in Hkd.
    injection Hkd as <-.
    assert (Hl : links fs2 = links fs).
    { destruct Hlinks as [->| ->]; [done|]. simpl.
      apply delete_id. apply canonical_link_free; [apply Hwf|done]. }
    split; [|split; [|split; [done|]]].
    + apply read_canonical; [by rewrite Hl|]. by rewrite Hnodes, lookup_insert_eq.
    + by rewrite (result_get _ _ _ _ _ _ _ Hr).
    + exists k. split; [apply canonical_locate; done|].
      intros key x Hne Hx. rewrite Hnodes, lookup_insert_ne by done. by apply Hkeep.
  - done.
  - apply report_inv in H as [_ [(? & ? & [=] & _)|[= ->]]]. done.
  - injection He' as <-.
    apply handler_inv in Hh as (-> & Hok & _).
    split; [by rewrite Hok|]. intros _ key x Hx. by apply H1, Hkeep.
Qed.

Lemma write_to_file_outcome_witness :
  let r := write_to_file Sample.tools Sample.quiet "docs/n.txt" "fresh" None World.shared in
  os.read_file (fst r) "/srv/data/docs/n.txt" = Ok (Bytes "fresh") /\
  dict_get (World.envelope r) "bytes" = Some (VInt 5) /\
  links (fst r) = links World.shared /\
  exists k, os.locate World.shared "/srv/data/docs/n.txt" = Some k /\
            forall key x, key <> k -> nodes World.shared !! key = Some x ->
                          nodes (fst r) !! key = Some x.
Proof.
  refine (proj1 (write_to_file_outcome Sample.tools Sample.quiet "docs/n.txt" "fresh" None
                   World.shared _ "/srv/data/docs/n.txt" _ _ _ _) _).
  - split; [by repeat constructor|reflexivity].
  - by vm_compute.
  - by vm_compute.
  - by vm_compute.
Defined.

Lemma result_same_fields (self : Tools) (fs : FS) (ok : bool) (a a' s s' : string)
      (kw kw' : list field) (k : string) :
  k <> "debug_info" -> k <> "action" -> k <> "subject_type" ->
  dict_get (dict_update [KV "ok" (VBool ok); KV "action" (VStr a);
                         KV "subject_type" (VStr s)] kw) k
  = dict_get (dict_update [KV "ok" (VBool ok); KV "action" (VStr a');
                           KV "subject_type" (VStr s')] kw') k ->
  match _result self fs ok a s kw, _result self fs ok a' s' kw' with
  | Ok e1, Ok e2 => dict_get e1 k = dict_get e2 k
  | Raise x, Raise y => x = y
  | _, _ => False
  end.
Proof.
  intros Hk _ _ Heq.
  destruct (_result self fs ok a s kw) as [e1|x] eqn:H1;
    destruct (_result self fs ok a' s' kw') as [e2|y] eqn:H2.
  - by rewrite (result_get _ _ _ _ _ _ _ H1), (result_get _ _ _ _ _ _ _ H2).
  - revert H1 H2. unfold _result. destruct (debug _); [|done].
    by destruct (resolved _ _).
  - revert H1 H2. unfold _result. destruct (debug _); [|done].
    by destruct (resolved _ _).
  - apply result_raises_loop in H1, H2. congruence.
Qed.

Lemma handler_same (self : Tools) (a a' s s' pfx pfx' : string) (e : exn) (fs : FS) :
  fst (handler self a s pfx e fs) = fs /\
  match snd (handler self a s pfx e fs), snd (handler self a' s' pfx' e fs) with
  | Ok e1, Ok e2 =>
      dict_get e1 "ok" = dict_get e2 "ok" /\
      dict_get e1 "path" = dict_get e2 "path" /\
      dict_get e1 "bytes" = dict_get e2 "bytes"
  | Raise x, Raise y => x = y
  | _, _ => False
  end.
Proof.
  split; [by destruct e|].
  destruct e as [m|m|m|m|m]; try done; simpl; unfold error_result, ask; simpl.
  - pose proof (result_same_fields self fs false a a' s s'
                  [KV "error" (VStr m)] [KV "error" (VStr m)]) as Hsame.
    pose proof (Hsame "ok" ltac:(done) ltac:(done) ltac:(done) eq_refl) as H1.
    pose proof (Hsame "path" ltac:(done) ltac:(done) ltac:(done) eq_refl) as H2.
    pose proof (Hsame "bytes" ltac:(done) ltac:(done) ltac:(done) eq_refl) as H3.
    by destruct (_result _ _ _ _ _ _), (_result _ _ _ _ _ _).
  - pose proof (result_same_fields self fs false a a' s s'
                  [KV "error" (VStr (pfx +:+ m))] [KV "error" (VStr (pfx' +:+ m))])
      as Hsame.
    pose proof (Hsame "ok" ltac:(done) ltac:(done) ltac:(done) eq_refl) as H1.
    pose proof (Hsame "path" ltac:(done) ltac:(done) ltac:(done) eq_refl) as H2.
    pose proof (Hsame "bytes" ltac:(done) ltac:(done) ltac:(done) eq_refl) as H3.
    by destruct (_result _ _ _ _ _ _), (_result _ _ _ _ _ _).
Qed.

(** X14. [create_file] writes as [write_to_file] does: on the same
    arguments both leave the same file system, and their envelopes agree on
    ok, path and bytes, or both raise the same exception. Nothing in
    [create_file] looks whether the file exists already. *)
Theorem create_file_writes_like_write_to_file
  (self : Tools) (o : Oracle) (file_name text : string) (base_dir : option string)
  (fs : FS) :
  let c := create_file self o file_name text base_dir fs in
  let w := write_to_file self o file_name text base_dir fs in
  fst c = fst w /\
  match snd c, snd w with
  | Ok e1, Ok e2 =>
      dict_get e1 "ok" = dict_get e2 "ok" /\
      dict_get e1 "path" = dict_get e2 "path" /\
      dict_get e1 "bytes" = dict_get e2 "bytes"
  | Raise x, Raise y => x = y
  | _, _ => False
  end.
Proof.
  assert (Hh : forall e st,
             fst (handler self "create" "file" "Failed to create file: " e st)
             = fst (handler self "write" "file" "Failed to write file: " e st) /\
             match snd (handler self "create" "file" "Failed to create file: " e st),
                   snd (handler self "write" "file" "Failed to write file: " e st) with
             | Ok e1, Ok e2 =>
                 dict_get e1 "ok" = dict_get e2 "ok" /\
                 dict_get e1 "path" = dict_get e2 "path" /\
                 dict_get e1 "bytes" = dict_get e2 "bytes"
             | Raise x, Raise y => x = y
             | _, _ => False
             end).
  { intros e st.
    destruct (handler_same self "create" "write" "file" "file"
                "Failed to create file: " "Failed to write file: " e st) as [H1 H2].
    destruct (handler_same self "write" "write" "file" "file"
                "Failed to write file: " "Failed to write file: " e st) as [H3 _].
    split; [by rewrite H1, H3|done]. }
  unfold create_file, write_to_file, try_except, mbind, resolve_m, relative_m, ask.
  destruct (_resolve_under_restriction self fs _) as [p|e]; [|apply Hh].
  destruct (_atomic_write o p text fs) as [fs2 [[]|e]]; [|apply Hh].
  destruct (_get_relative_path self fs2 p) as [rel|e]; [|apply Hh].
  pose proof (result_same_fields self fs2 true "create" "write" "file" "file"
                [KV "message" (VStr ("File '" +:+ file_name
                                     +:+ "' created successfully"));
                 KV "path" (VStr rel);
                 KV "bytes" (VInt (Z.of_nat (String.length text)))]
                [KV "path" (VStr rel);
                 KV "bytes" (VInt (Z.of_nat (String.length text)))]) as Hsame.
  pose proof (Hsame "ok" ltac:(done) ltac:(done) ltac:(done) eq_refl) as H1.
  pose proof (Hsame "path" ltac:(done) ltac:(done) ltac:(done) eq_refl) as H2.
  pose proof (Hsame "bytes" ltac:(done) ltac:(done) ltac:(done) eq_refl) as H3.
  destruct (_result _ _ _ _ _ _) as [e1|x], (_result _ _ _ _ _ _) as [e2|y];
    try done.
  subst y. apply Hh.
Qed.

(** ** Copying *)

Lemma copy2_inv (fs fs' : FS) (src dst : string) :
  os.copy2 fs src dst = Ok fs' ->
  exists ks kd c,
    os.locate fs src = Some ks /\
    os.locate fs (os.copy_target fs src dst) = Some kd /\
    ks <> kd /\ kd <> [] /\
    nodes fs !! ks = Some (File c) /\
    nodes fs !! kd <> Some Dir /\
    fs' = with_nodes fs (<[kd := File c]> (nodes fs)).
Proof.
  unfold os.copy2, os.exists_, os.node_at, os.read_file.
  destruct (os.locate fs src) as [ks|]; [|done].
  destruct (os.locate fs (os.copy_target fs src dst)) as [kd|]; [|done].
  destruct (bool_decide (ks = kd)) eqn:E.
  - apply bool_decide_eq_true in E as <-. destruct ks as [|x ks]; [done|].
    destruct (nodes fs !! (x :: ks)) as [[c|]|]; done.
  - apply bool_decide_eq_false in E. cbv beta iota delta [andb].
    destruct (nodes fs !! ks) as [[c|]|] eqn:Hs; [|done|by destruct ks].
    simpl bind. unfold os.write_key.
    destruct kd as [|y kd]; [done|].
    destruct (negb _); [done|].
    destruct (nodes fs !! (y :: kd)) as [[c'|]|] eqn:Hd; [|done|];
      intros [= <-]; exists ks, (y :: kd), c; by rewrite ?Hd.
Qed.

Lemma node_at_canonical (fs : FS) (k : list string) :
  canonical (links fs) k ->
  os.node_at fs ("/" +:+ Str.join k) = match k with [] => Some Dir | _ => nodes fs !! k end.
Proof.
  intros Hk. unfold os.node_at. by rewrite (proj1 (canonical_locate fs k Hk)).
Qed.

(** X15. [copy_file]: when the envelope says ok, the source still holds its
    content, and the destination holds the same content: at the destination
    path, or at the base name of the source inside it when the destination
    is a directory. *)
Theorem copy_file_outcome
  (self : Tools) (src_file dest_file : string) (src_base_dir dest_base_dir : option string)
  (fs fs' : FS) (src dst : string) (env : list field) :
  well_formed fs ->
  _resolve_under_restriction self fs
    (posixpath.join (base_path_of src_base_dir) src_file) = Ok src ->
  _resolve_under_restriction self fs
    (posixpath.join (base_path_of dest_base_dir) dest_file) = Ok dst ->
  copy_file self src_file dest_file src_base_dir dest_base_dir fs = (fs', Ok env) ->
  dict_get env "ok" = Some (VBool true) ->
  exists c,
    os.read_file fs src = Ok c /\
    os.read_file fs' src = Ok c /\
    (os.isdir fs' dst = false -> os.read_file fs' dst = Ok c) /\
    (os.isdir fs' dst = true ->
     os.read_file fs' (posixpath.join dst (posixpath.basename src)) = Ok c).
Proof.
  intros Hwf Hsrc Hdst H Hok. unfold copy_file in H.
  destruct (resolved_canonical _ _ _ _ Hwf Hsrc) as (ks & -> & Hks).
  destruct (resolved_canonical _ _ _ _ Hwf Hdst) as (kd & -> & Hkd).
  apply try_except_inv in H as [(env' & H & [= <-])|(fs1 & e & H & Hh)];
    [|apply handler_inv in Hh as (_ & Hno & _); by rewrite Hno in Hok].
  rewrite (resolve_m_run _ _ _ _ _ Hsrc), (resolve_m_run _ _ _ _ _ Hdst), test_run in H.
  destruct (os.exists_ fs ("/" +:+ Str.join ks)); cbv beta iota delta [negb] in H.
  2:{ apply report_inv in H as [-> [(rel & env' & [= <-] & _ & Hr)|[=]]].
      by rewrite (result_get _ _ _ _ _ _ _ Hr) in Hok. }
  rewrite test_run in H.
  destruct (os.isfile fs ("/" +:+ Str.join ks)) eqn:Hfile; cbv beta iota delta [negb] in H.
  2:{ by rewrite (error_result_not_ok _ _ _ _ _ _ _ H) in Hok. }
  rewrite test_run in H.
  destruct (os.islink fs ("/" +:+ Str.join ks)).
  { by rewrite (error_result_not_ok _ _ _ _ _ _ _ H) in Hok. }
  apply mbind_inv in H as [(fsA & [] & H1 & H)|(e & _ & [=])].
  apply ensure_parent_dir_nodes in H1 as Hn. destruct Hn as [n ->].
  pose proof (ensure_parent_dir_keeps _ _ _ _ H1) as Hkeep. simpl nodes in Hkeep.
  apply mbind_inv in H as [(fsB & [] & H2 & H)|(e & _ & [=])].
  apply call_inv in H2 as [[H2 _]|(e & _ & _ & [=])].
  apply mbind_inv in H as [(fsC & srel & H3 & H)|(e & _ & [=])].
  apply ask_inv in H3 as [-> _].
  apply report_inv in H as [-> _].
  apply copy2_inv in H2 as (ks' & kt & c & Hs' & Ht & Hne & Hkt & Hc & Hnd & ->).
  rewrite locate_with_nodes, (proj1 (canonical_locate fs ks Hks)) in Hs'.
  injection Hs' as <-. rewrite locate_with_nodes in Ht. simpl nodes in Hc, Hnd.
  exists c. change (nodes (with_nodes fs n)) with n.
  set (fs' := with_nodes (with_nodes fs n) (<[kt := File c]> n)).
  assert (Hat : forall k, canonical (links fs) k ->
                          os.node_at fs' ("/" +:+ Str.join k)
                          = match k with [] => Some Dir | _ => <[kt := File c]> n !! k end).
  { intros k Hk. unfold os.node_at, fs'. rewrite !locate_with_nodes.
    by rewrite (proj1 (canonical_locate fs k Hk)). }
  assert (Hread : forall k c', canonical (links fs) k ->
                               <[kt := File c]> n !! k = Some (File c') ->
                               os.read_file fs' ("/" +:+ Str.join k) = Ok c').
  { intros k c' Hk Hl. unfold os.read_file, fs'. rewrite !locate_with_nodes.
    rewrite (proj1 (canonical_locate fs k Hk)). simpl nodes. by rewrite Hl. }
  assert (Hsource : nodes fs !! ks = Some (File c)).
  { unfold os.isfile in Hfile. rewrite (node_at_canonical fs ks Hks) in Hfile.
    destruct ks as [|x ks]; [done|].
    destruct (nodes fs !! (x :: ks)) as [[c0|]|] eqn:E; [|done|done].
    rewrite (Hkeep _ _ E) in Hc. by injection Hc as ->. }
  split; [by apply read_canonical|].
  split; [apply Hread; [done|]; by rewrite lookup_insert_ne|].
  unfold os.isdir. rewrite (Hat kd Hkd).
  unfold os.copy_target, os.isdir, os.node_at in Ht.
  rewrite locate_with_nodes, (proj1 (canonical_locate fs kd Hkd)) in Ht.
  simpl nodes in Ht.
  destruct kd as [|y kd].
  - split; [done|intros _]. unfold os.read_file, fs'. rewrite !locate_with_nodes, Ht.
    simpl nodes. by rewrite lookup_insert_eq.
  - destruct (n !! (y :: kd)) as [[c0|]|] eqn:Hd.
    + rewrite (proj1 (canonical_locate fs (y :: kd) Hkd)) in Ht. injection Ht as <-.
      rewrite lookup_insert_eq. split; [intros _|done].
      apply Hread; [done|]. by rewrite lookup_insert_eq.
    + assert (kt <> y :: kd) by (intros ->; by rewrite Hd in Hnd).
      rewrite lookup_insert_ne, Hd by done. split; [done|intros _].
      unfold os.read_file, fs'. rewrite !locate_with_nodes, Ht.
      simpl nodes. by rewrite lookup_insert_eq.
    + rewrite (proj1 (canonical_locate fs (y :: kd) Hkd)) in Ht. injection Ht as <-.
      rewrite lookup_insert_eq. split; [intros _|done].
      apply Hread; [done|]. by rewrite lookup_insert_eq.
Qed.

Lemma copy_file_outcome_witness :
  let r := copy_file Sample.tools "cur" "docs" None None World.shared in
  exists c,
    os.read_file World.shared "/srv/data/a.txt" = Ok c /\
    os.read_file (fst r) "/srv/data/a.txt" = Ok c /\
    (os.isdir (fst r) "/srv/data/docs" = false ->
     os.read_file (fst r) "/srv/data/docs" = Ok c) /\
    (os.isdir (fst r) "/srv/data/docs" = true ->
     os.read_file (fst r) (posixpath.join "/srv/data/docs"
                                          (posixpath.basename "/srv/data/a.txt")) = Ok c).
Proof.
  apply (copy_file_outcome Sample.tools "cur" "docs" None None World.shared _ _ _
           (World.envelope (copy_file Sample.tools "cur" "docs" None None World.shared))).
  - split; [by repeat constructor|reflexivity].
  - by vm_compute.
  - by vm_compute.
  - by vm_compute.
  - by vm_compute.
Defined.

(** ** Restoring a version *)

Lemma makedirs_from_only_dirs (rest : list string) :
  forall (n n' : gmap (list string) node) (cur : list string),
    os.makedirs_from n cur rest = Ok n' ->
    forall key, n' !! key = n !! key \/ (n !! key = None /\ n' !! key = Some Dir).
Proof.
  induction rest as [|c rest IH]; intros n n' cur H key; simpl in H.
  - injection H as <-. by left.
  - destruct (n !! (cur ++ [c])) as [[]|] eqn:E; [done|by eapply IH|].
    destruct (IH _ _ _ H key) as [Hk|[Hk1 Hk2]].
    + destruct (decide (key = cur ++ [c])) as [->|Hne].
      * rewrite lookup_insert_eq in Hk. right. by rewrite Hk.
      * rewrite lookup_insert_ne in Hk by done. by left.
    + destruct (decide (key = cur ++ [c])) as [->|Hne].
      * by rewrite lookup_insert_eq in Hk1.
      * rewrite lookup_insert_ne in Hk1 by done. by right.
Qed.

(** Creating the parent directories adds directories and changes nothing
    else. *)
Lemma ensure_parent_dir_only_dirs (path : string) (fs fs1 : FS) (r : result unit) :
  _ensure_parent_dir path fs = (fs1, r) ->
  forall key, nodes fs1 !! key = nodes fs !! key \/
              (nodes fs !! key = None /\ nodes fs1 !! key = Some Dir).
Proof.
  unfold _ensure_parent_dir. destruct (negb _); [|by intros [= <- _]; left].
  intros H key. apply call_inv in H as [[H _]|(e & _ & -> & _)]; [|by left].
  revert H. unfold os.makedirs. destruct (String.eqb _ _); [done|].
  destruct (os.locate fs _); [|done].
  destruct (os.makedirs_from _ _ _) as [n|] eqn:Hn; [|done].
  intros [= <-]. simpl. by eapply makedirs_from_only_dirs.
Qed.

(** What a successful restore did. *)
Lemma restore_success
  (self : Tools) (file_name : string) (version : Z) (base_dir : option string)
  (fs fs' : FS) (self' : Tools) (env : list field) :
  restore_file_version self file_name version base_dir fs = (fs', Ok (self', env)) ->
  dict_get env "ok" = Some (VBool true) ->
  exists key vp fsA,
    _resolve_under_restriction self fs
      (posixpath.join (base_path_of base_dir) file_name) = Ok key /\
    versions_at self key !! Z.to_nat (version - 1) = Some vp /\
    _ensure_parent_dir key fs = (fsA, Ok tt) /\
    os.copy2 fsA vp key = Ok fs' /\
    self' = touch self key.
Proof.
  intros H Hok. unfold restore_file_version in H.
  apply try_except_inv in H as [(a & H & [= <-])|(fs1 & e & _ & H)].
  2:{ apply version_handler_not_ok in H. congruence. }
  apply mbind_ok in H as (fs1 & key & Hkey & H).
  apply ask_ok in Hkey as [-> Hkey].
  apply try_except_inv in H as [(a & H & [= <-])|(fs1 & e & _ & H)].
  2:{ apply version_handler_not_ok in H. congruence. }
  destruct (_ || _).
  { apply mbind_ok in H as (fs2 & r & Hr & H). injection H as _ _ <-.
    apply ask_ok in Hr as [_ Hr].
    rewrite (result_get _ _ _ _ _ _ _ Hr) in Hok by done. discriminate. }
  assert (Htouch : versions_at (touch self key) key = versions_at self key).
  { unfold versions_at at 1, touch. simpl. by rewrite lookup_insert_eq. }
  rewrite Htouch in H.
  destruct (versions_at self key !! Z.to_nat (version - 1)) as [vp|] eqn:Hvp; [|done].
  apply mbind_ok in H as (fs1 & ex & Hex & H). apply test_ok in Hex as [-> ->].
  destruct (negb (os.exists_ fs vp)).
  { apply mbind_ok in H as (fs1 & vrel & _ & H).
    apply mbind_ok in H as (fs2 & r & Hr & H). injection H as _ _ <-.
    apply ask_ok in Hr as [_ Hr].
    rewrite (result_get _ _ _ _ _ _ _ Hr) in Hok by done. discriminate. }
  apply mbind_ok in H as (fsA & [] & Hens & H).
  apply mbind_ok in H as (fs1 & [] & Hcopy & H). apply call_ok in Hcopy.
  apply mbind_ok in H as (fs2 & rel & Hrel & H). apply ask_ok in Hrel as [-> _].
  apply mbind_ok in H as (fs2 & vrel & Hvrel & H). apply ask_ok in Hvrel as [-> _].
  apply mbind_ok in H as (fs2 & r & Hr & H). apply ask_ok in Hr as [-> Hr].
  injection H as <- <- <-.
  exists key, vp, fsA. by repeat split.
Qed.

(** X16. [restore_file_version]: when the envelope says ok, the requested
    version is the recorded snapshot of that index, the snapshot still holds
    its content, the file holds the same content (its path not being a
    directory), and the recorded versions are unchanged. *)
Theorem restore_brings_snapshot_back
  (self : Tools) (file_name : string) (version : Z) (base_dir : option string)
  (fs fs' : FS) (self' : Tools) (key : string) (env : list field) :
  well_formed fs ->
  _resolve_under_restriction self fs
    (posixpath.join (base_path_of base_dir) file_name) = Ok key ->
  restore_file_version self file_name version base_dir fs = (fs', Ok (self', env)) ->
  dict_get env "ok" = Some (VBool true) ->
  exists vp c,
    versions_at self key !! Z.to_nat (version - 1) = Some vp /\
    os.read_file fs vp = Ok c /\
    os.read_file fs' vp = Ok c /\
    (os.isdir fs' key = false -> os.read_file fs' key = Ok c) /\
    forall k, versions_at self' k = versions_at self k.
Proof.
  intros Hwf Hres H Hok.
  destruct (restore_success _ _ _ _ _ _ _ _ H Hok)
    as (key' & vp & fsA & Hres' & Hvp & Hens & Hcopy & ->).
  rewrite Hres in Hres'. injection Hres' as <-.
  destruct (resolved_canonical _ _ _ _ Hwf Hres) as (kd & -> & Hkd).
  exists vp.
  apply ensure_parent_dir_nodes in Hens as Hn. destruct Hn as [n ->].
  pose proof (ensure_parent_dir_only_dirs _ _ _ _ Hens) as Honly. simpl nodes in Honly.
  apply copy2_inv in Hcopy as (ks & kt & c & Hs & Ht & Hne & Hkt & Hc & Hnd & ->).
  rewrite locate_with_nodes in Hs, Ht. simpl nodes in Hc, Hnd.
  change (nodes (with_nodes fs n)) with n.
  exists c.
  assert (Hsrc : nodes fs !! ks = Some (File c)).
  { destruct (Honly ks) as [E|[_ E]]; by rewrite E in Hc. }
  split; [done|].
  split; [unfold os.read_file; by rewrite Hs, Hsrc|].
  split; [unfold os.read_file; rewrite !locate_with_nodes, Hs; simpl nodes;
          by rewrite lookup_insert_ne, Hc|].
  split; [|intros k; apply versions_at_touch].
  unfold os.isdir, os.node_at, os.read_file. rewrite !locate_with_nodes.
  rewrite (proj1 (canonical_locate fs kd Hkd)). simpl nodes.
  unfold os.copy_target, os.isdir, os.node_at in Ht.
  rewrite locate_with_nodes, (proj1 (canonical_locate fs kd Hkd)) in Ht.
  simpl nodes in Ht.
  destruct kd as [|y kd]; [done|].
  destruct (n !! (y :: kd)) as [[c0|]|] eqn:Hd.
  - rewrite (proj1 (canonical_locate fs (y :: kd) Hkd)) in Ht. injection Ht as <-.
    by rewrite lookup_insert_eq.
  - assert (kt <> y :: kd) by (intros ->; by rewrite Hd in Hnd).
    by rewrite lookup_insert_ne, Hd.
  - rewrite (proj1 (canonical_locate fs (y :: kd) Hkd)) in Ht. injection Ht as <-.
    by rewrite lookup_insert_eq.
Qed.

Lemma restore_brings_snapshot_back_witness :
  let fs := Sample.rewrite_a (fst Sample.save1) "second" in
  let r := restore_file_version (Sample.tools_of Sample.save1) "a.txt" 1 None fs in
  exists vp c,
    versions_at (Sample.tools_of Sample.save1) "/srv/data/a.txt" !! Z.to_nat (1 - 1)
    = Some vp /\
    os.read_file fs vp = Ok c /\
    os.read_file (fst r) vp = Ok c /\
    (os.isdir (fst r) "/srv/data/a.txt" = false ->
     os.read_file (fst r) "/srv/data/a.txt" = Ok c) /\
    forall k, versions_at (Sample.tools_of r) k
              = versions_at (Sample.tools_of Sample.save1) k.
Proof.
  apply (restore_brings_snapshot_back (Sample.tools_of Sample.save1) "a.txt" 1 None
           (Sample.rewrite_a (fst Sample.save1) "second") _ _ _
           (Sample.envelope_of
              (restore_file_version (Sample.tools_of Sample.save1) "a.txt" 1 None
                 (Sample.rewrite_a (fst Sample.save1) "second")))).
  - split; [by repeat constructor|reflexivity].
  - by vm_compute.
  - by vm_compute.
  - by vm_compute.
Defined.

(** ** Saving and restoring *)

Lemma resolve_under_restriction_with_nodes (self : Tools) (fs : FS)
      (n : gmap (list string) node) (path : string) :
  _resolve_under_restriction self (with_nodes fs n) path
  = _resolve_under_restriction self fs path.
Proof. reflexivity. Qed.

(** What a successful save did. *)
Lemma save_success
  (self : Tools) (timestamp file_name : string) (base_dir : option string)
  (fs fs' : FS) (self' : Tools) (env : list field) :
  save_file_version self timestamp file_name base_dir fs = (fs', Ok (self', env)) ->
  dict_get env "ok" = Some (VBool true) ->
  exists key vp,
    _resolve_under_restriction self fs
      (posixpath.join (base_path_of base_dir) file_name) = Ok key /\
    os.isfile fs key = true /\
    os.copy2 fs key vp = Ok fs' /\
    self' = append_version (touch self key) key vp.
Proof.
  intros H Hok. unfold save_file_version in H.
  apply try_except_inv in H as [(a & H & [= <-])|(fs1 & e & _ & H)].
  2:{ apply version_handler_not_ok in H. congruence. }
  apply mbind_ok in H as (fs1 & key & Hkey & H).
  apply ask_ok in Hkey as [-> Hkey].
  apply mbind_ok in H as (fs1 & ex & Hex & H). apply test_ok in Hex as [-> ->].
  destruct (negb (os.exists_ fs key)).
  { apply mbind_ok in H as (fs1 & rel & _ & H).
    apply mbind_ok in H as (fs2 & r & Hr & H). injection H as _ _ <-.
    apply ask_ok in Hr as [_ Hr].
    rewrite (result_get _ _ _ _ _ _ _ Hr) in Hok by done. discriminate. }
  apply mbind_ok in H as (fs1 & isf & Hisf & H). apply test_ok in Hisf as [-> ->].
  destruct (os.isfile fs key) eqn:Hfile; cbv beta iota delta [negb] in H.
  2:{ apply mbind_ok in H as (fs2 & r & Hr & H). injection H as _ _ <-.
      apply error_result_not_ok in Hr. congruence. }
  apply mbind_ok in H as (fs1 & isl & Hisl & H). apply test_ok in Hisl as [-> ->].
  destruct (os.islink fs key).
  { apply mbind_ok in H as (fs2 & r & Hr & H). injection H as _ _ <-.
    apply error_result_not_ok in Hr. congruence. }
  apply try_except_inv in H as [(a & H & [= <-])|(fs1 & e & _ & H)].
  2:{ apply version_handler_not_ok in H. congruence. }
  destruct (posixpath.splitext file_name) as [base_name ext].
  apply mbind_ok in H as (fs1 & vp & Hvp & H). apply ask_ok in Hvp as [-> Hvp].
  apply mbind_ok in H as (fs1 & [] & Hcopy & H). apply call_ok in Hcopy.
  apply mbind_ok in H as (fs2 & vrel & Hvrel & H). apply ask_ok in Hvrel as [-> _].
  apply mbind_ok in H as (fs2 & orel & Horel & H). apply ask_ok in Horel as [-> _].
  apply mbind_ok in H as (fs2 & r & Hr & H). apply ask_ok in Hr as [-> Hr].
  injection H as <- <- <-.
  exists key, vp. by repeat split.
Qed.

(** X17. Save, overwrite, restore: after a successful [save_file_version]
    that recorded a new snapshot, whatever is written over the file, a
    successful [restore_file_version] of the newest version brings back the
    content the file had when it was saved. *)
Theorem save_overwrite_restore_round_trip
  (self s1 s2 : Tools) (timestamp file_name : string) (base_dir : option string)
  (fs0 fs1 fs3 : FS) (e1 e2 : list field)
  (key vp : string) (k : list string) (changed : content) :
  _resolve_under_restriction self fs0
    (posixpath.join (base_path_of base_dir) file_name) = Ok key ->
  os.locate fs0 key = Some k ->
  save_file_version self timestamp file_name base_dir fs0 = (fs1, Ok (s1, e1)) ->
  dict_get e1 "ok" = Some (VBool true) ->
  versions_at s1 key = versions_at self key ++ [vp] ->
  os.isdir fs0 vp = false ->
  restore_file_version s1 file_name (Z.of_nat (length (versions_at s1 key))) base_dir
    (with_nodes fs1 (<[k := File changed]> (nodes fs1))) = (fs3, Ok (s2, e2)) ->
  dict_get e2 "ok" = Some (VBool true) ->
  exists c, os.read_file fs0 key = Ok c /\ os.read_file fs3 key = Ok c.
Proof.
  intros Hres Hk Hsave Hok1 Hlast Hnodir Hrestore Hok2.
  destruct (save_success _ _ _ _ _ _ _ _ Hsave Hok1)
    as (key' & vp' & Hres' & Hfile & Hcopy & ->).
  rewrite Hres in Hres'. injection Hres' as <-.
  rewrite versions_at_append_version in Hlast.
  destruct (decide (key = key)) as [_|]; [|done].
  rewrite versions_at_touch in Hlast. apply app_inj_tail in Hlast as [_ ->].
  apply copy2_inv in Hcopy as (ks & kt0 & c & Hs & Ht0 & Hne0 & Hkt0 & Hc & Hnd0 & ->).
  rewrite Hk in Hs. injection Hs as <-.
  unfold os.copy_target in Ht0. rewrite Hnodir in Ht0.
  assert (Hk0 : k <> []).
  { intros ->. unfold os.isfile, os.node_at in Hfile. by rewrite Hk in Hfile. }
  destruct (restore_success _ _ _ _ _ _ _ _ Hrestore Hok2)
    as (key' & vp' & fsA & Hres' & Hvp' & Hens & Hcopy & _).
  rewrite !resolve_under_restriction_with_nodes in Hres'.
  rewrite (resolve_under_restriction_valves self) in Hres' by done.
  rewrite Hres in Hres'. injection Hres' as <-.
  rewrite versions_at_append_version in Hvp'.
  destruct (decide (key = key)) as [_|]; [|done].
  rewrite versions_at_touch in Hvp'.
  rewrite length_app, Nat.add_1_r in Hvp'.
  replace (Z.to_nat (Z.of_nat (S (length (versions_at self key))) - 1))
    with (length (versions_at self key) + 0) in Hvp' by lia.
  rewrite lookup_app_r, Nat.add_comm in Hvp' by lia.
  replace (0 + length (versions_at self key) - length (versions_at self key)) with 0
    in Hvp' by lia.
  injection Hvp' as <-.
  apply ensure_parent_dir_nodes in Hens as Hn. destruct Hn as [n ->].
  pose proof (ensure_parent_dir_only_dirs _ _ _ _ Hens) as Honly. simpl nodes in Honly.
  apply copy2_inv in Hcopy as (ks & kt & c' & Hs & Ht & Hne & Hkt & Hc' & Hnd & ->).
  rewrite !locate_with_nodes in Hs, Ht. simpl nodes in Hc', Hnd.
  rewrite Ht0 in Hs. injection Hs as <-.
  assert (Hkey : n !! k = Some (File changed)).
  { destruct (Honly k) as [E|[E _]]; rewrite lookup_insert_eq in E; [done|done]. }
  unfold os.copy_target, os.isdir, os.node_at in Ht.
  rewrite !locate_with_nodes, Hk in Ht. simpl nodes in Ht.
  destruct k as [|x k]; [done|]. rewrite Hkey, Hk in Ht. injection Ht as <-.
  assert (Hsnap : n !! kt0 = Some (File c)).
  { destruct (Honly kt0) as [E|[E _]];
      rewrite lookup_insert_ne, lookup_insert_eq in E by done; [done|done]. }
  rewrite Hsnap in Hc'. injection Hc' as <-.
  exists c. split.
  - unfold os.read_file. by rewrite Hk, Hc.
  - unfold os.read_file. rewrite !locate_with_nodes, Hk. simpl nodes.
    by rewrite lookup_insert_eq.
Qed.

Lemma save_overwrite_restore_round_trip_witness :
  let r := restore_file_version (Sample.tools_of Sample.save1) "a.txt" 1 None
             (Sample.rewrite_a (fst Sample.save1) "second") in
  exists c,
    os.read_file Sample.plain "/srv/data/a.txt" = Ok c /\
    os.read_file (fst r) "/srv/data/a.txt" = Ok c.
Proof.
  apply (save_overwrite_restore_round_trip
           Sample.tools (Sample.tools_of Sample.save1)
           (Sample.tools_of
              (restore_file_version (Sample.tools_of Sample.save1) "a.txt" 1 None
                 (Sample.rewrite_a (fst Sample.save1) "second")))
           "20250101_120000" "a.txt" None
           Sample.plain (fst Sample.save1) _
           (Sample.envelope_of Sample.save1)
           (Sample.envelope_of
              (restore_file_version (Sample.tools_of Sample.save1) "a.txt" 1 None
                 (Sample.rewrite_a (fst Sample.save1) "second")))
           "/srv/data/a.txt" "/srv/data/a_v1_20250101_120000.txt"
           ["srv"; "data"; "a.txt"] (Bytes "second")).
  - by vm_compute.
  - by vm_compute.
  - by vm_compute.
  - by vm_compute.
  - by vm_compute.
  - by vm_compute.
  - by vm_compute.
  - by vm_compute.
Defined.

(** ** A new tool *)

(** X18. A tool just constructed knows no version: [restore_file_version]
    of any version of any file under the root answers not ok with the error
    that the version does not exist, no version available and the requested
    number, and leaves the file system unchanged. *)
Theorem new_tools_know_no_version
  (getcwd : string) (base_path : option string) (fs : FS)
  (file_name : string) (version : Z) (base_dir : option string) (key : string) :
  let self := __init__ getcwd base_path in
  _resolve_under_restriction self fs
    (posixpath.join (base_path_of base_dir) file_name) = Ok key ->
  exists env,
    restore_file_version self file_name version base_dir fs
    = (fs, Ok (touch self key, env)) /\
    dict_get env "ok" = Some (VBool false) /\
    dict_get env "error" = Some (VStr "Version does not exist") /\
    dict_get env "available" = Some (VInt 0) /\
    dict_get env "requested" = Some (VInt version).
Proof.
  intros self Hkey.
  unfold restore_file_version, resolve_m, ask, try_except, mbind, ret.
  rewrite Hkey.
  change (length (versions_at self key)) with 0.
  assert ((version <? 1)%Z || (Z.of_nat 0 <? version)%Z = true) as ->.
  { apply orb_true_iff. destruct (Z.ltb_spec version 1); [by left|right].
    apply Z.ltb_lt. lia. }
  rewrite result_quiet by done. eexists. split; [reflexivity|]. by repeat split.
Qed.

Lemma new_tools_know_no_version_witness :
  exists env,
    restore_file_version (__init__ "/srv/data" None) "a.txt" 1 None (fst Sample.save3)
    = (fst Sample.save3, Ok (touch (__init__ "/srv/data" None) "/srv/data/a.txt", env)) /\
    dict_get env "ok" = Some (VBool false) /\
    dict_get env "error" = Some (VStr "Version does not exist") /\
    dict_get env "available" = Some (VInt 0) /\
    dict_get env "requested" = Some (VInt 1).
Proof.
  apply (new_tools_know_no_version "/srv/data" None (fst Sample.save3) "a.txt" 1 None).
  by vm_compute.
Defined.

(** ** Packing and unpacking *)

Lemma write_file_inv (fs fs' : FS) (path : string) (c : content) :
  os.write_file fs path c = Ok fs' ->
  exists k, os.locate fs path = Some k /\
            fs' = with_nodes fs (<[k := File c]> (nodes fs)).
Proof.
  unfold os.write_file. destruct (os.locate fs path) as [k|]; [|done].
  intros H. exists k. split; [done|]. by apply write_key_nodes.
Qed.

Lemma read_after_write (fs fs' : FS) (path : string) (c : content) :
  os.write_file fs path c = Ok fs' -> os.read_file fs' path = Ok c.
Proof.
  intros H. apply write_file_inv in H as (k & Hk & ->).
  unfold os.read_file. rewrite locate_with_nodes, Hk. simpl nodes.
  by rewrite lookup_insert_eq.
Qed.

Lemma normpath_plain (x : string) :
  plain_name x = true -> posixpath.normpath (Str.lstrip x) = x.
Proof.
  intros Hx. apply plain_name_part in Hx as (Hp & Hd & Hs).
  assert (Hne : String.eqb x "" = false).
  { apply String.eqb_neq. intros ->. done. }
  assert (Hl : Str.lstrip x = x).
  { destruct x as [|c x]; [done|]. simpl in *.
    apply orb_false_iff in Hs as [Hc _]. by rewrite Hc. }
  rewrite Hl.
  assert (Hrel : posixpath.isabs x = false).
  { rewrite <- (append_nil_r x). by apply starts_without_sep. }
  rewrite normpath_rel, Hne, split_single by done. cbv zeta.
  rewrite norm_comps_plain by (by repeat constructor).
  change (Str.join (rev [] ++ [x])) with x. by rewrite Hne.
Qed.

(** A regular member with a plain name lands under that name in the output
    directory. *)
Lemma extract_zip_member_plain (self : Tools) (members : list zip_member)
      (out name rel : string) (fs fs' : FS) :
  plain_name name = true ->
  extract_zip_member self members out name fs = (fs', Ok rel) ->
  os.read_file fs' (posixpath.join out name) = Ok (zip_read members name).
Proof.
  intros Hn H. unfold extract_zip_member in H.
  apply mbind_ok in H as (fs1 & safe & Hsafe & H). apply ask_ok in Hsafe as [-> Hsafe].
  apply sanitize_ok in Hsafe as (-> & _ & _). rewrite normpath_plain in H by done.
  apply mbind_ok in H as (fs1 & [] & _ & H).
  apply mbind_ok in H as (fs2 & [] & Hw & H). apply call_ok in Hw.
  apply ask_ok in H as [-> _]. by eapply read_after_write.
Qed.

Lemma extract_tar_member_plain (self : Tools) (out name : string) (data : content)
      (new : list string) (fs fs' : FS) :
  plain_name name = true ->
  extract_tar_member self out (TarMember name REGTYPE data) fs = (fs', Ok new) ->
  os.read_file fs' (posixpath.join out name) = Ok data.
Proof.
  intros Hn H. unfold extract_tar_member in H.
  apply mbind_ok in H as (fs1 & safe & Hsafe & H). apply ask_ok in Hsafe as [-> Hsafe].
  apply sanitize_ok in Hsafe as (-> & _ & _). rewrite normpath_plain in H by done.
  apply mbind_ok in H as (fs1 & [] & _ & H).
  apply mbind_ok in H as (fs2 & [] & Hw & H). apply call_ok in Hw.
  apply mbind_ok in H as (fs3 & rel & Hrel & H). apply ask_ok in Hrel as [-> _].
  injection H as <- _. by eapply read_after_write.
Qed.

(** The three packers: the archive file then holds one member, named
    after the source and holding what the source held when it was read. *)
Lemma write_archive_inv (fs fs' : FS) (file_path output_path : string)
      (empty : content) (pack : content -> content) :
  (call (fun fs => os.write_file fs output_path empty) ;;;
   c' <- ask (fun fs => os.read_file fs file_path) ;;
   call (fun fs => os.write_file fs output_path (pack c'))) fs = (fs', Ok tt) ->
  exists ko c n,
    os.locate fs output_path = Some ko /\
    fs' = with_nodes fs n /\
    n !! ko = Some (File (pack c)) /\
    (forall key, key <> ko -> n !! key = nodes fs !! key) /\
    (os.locate fs file_path <> Some ko -> os.read_file fs file_path = Ok c).
Proof.
  intros H.
  apply mbind_ok in H as (fs1 & [] & H1 & H). apply call_ok in H1.
  apply mbind_ok in H as (fs2 & c & H2 & H). apply ask_ok in H2 as [-> H2].
  apply call_ok in H.
  apply write_file_inv in H1 as (ko & Hko & ->).
  apply write_file_inv in H as (ko' & Hko' & ->).
  rewrite locate_with_nodes, Hko in Hko'. injection Hko' as <-.
  exists ko, c, (<[ko := File (pack c)]> (<[ko := File empty]> (nodes fs))).
  split; [done|]. split; [done|]. split; [by rewrite lookup_insert_eq|].
  split; [intros key Hne; by rewrite !lookup_insert_ne|].
  intros Hdiff. revert H2. unfold os.read_file. rewrite locate_with_nodes.
  destruct (os.locate fs file_path) as [kf|]; [|done]. simpl nodes.
  rewrite lookup_insert_ne by (by intros ->). done.
Qed.

Lemma existsb_has_sep (s : string) :
  existsb (Ascii.eqb Str.sep) (list_ascii_of_string s) = Str.has_sep s.
Proof.
  induction s as [|c s IH]; [done|]. simpl. by rewrite IH, Ascii.eqb_sym.
Qed.

Lemma has_sep_app (a x : string) : Str.has_sep (a +:+ "/" +:+ x) = true.
Proof.
  induction a as [|c a IH]; [done|]. rewrite append_cons. simpl. rewrite IH.
  apply orb_true_r.
Qed.

Lemma after_last_sep_app (a x : string) :
  Str.has_sep x = false -> Str.after_last_sep (a +:+ "/" +:+ x) = x.
Proof.
  intros Hx. induction a as [|c a IH].
  - rewrite append_nil_l. change ("/" +:+ x) with (String "/" x). simpl.
    rewrite existsb_has_sep, Hx. done.
  - rewrite append_cons. simpl. by rewrite existsb_has_sep, has_sep_app.
Qed.

(** The last component of a canonical key is the base name of its string. *)
Lemma basename_rooted (lk : gmap (list string) string) (k : list string) :
  canonical lk k -> k <> [] ->
  posixpath.basename ("/" +:+ Str.join k) = List.last k "" /\
  plain_name (List.last k "") = true.
Proof.
  intros [Hn _] Hne.
  assert (Hlast : plain_name (List.last k "") = true).
  { rewrite List.Forall_forall in Hn. by apply Hn, last_in. }
  split; [|done].
  apply plain_name_part in Hlast as (_ & _ & Hs).
  rewrite (app_removelast_last "" Hne) at 1.
  unfold posixpath.basename.
  destruct (removelast k) as [|y r].
  - simpl app. change (Str.join [List.last k ""]) with (List.last k "").
    rewrite <- (append_nil_l ("/" +:+ List.last k "")). by apply after_last_sep_app.
  - unfold Str.join. rewrite concat_app by done.
    rewrite <- append_assoc. by apply after_last_sep_app.
Qed.

(** What a successful [compress_file] did. *)
Lemma compress_success_inv
  (self : Tools) (file_name output_filename format : string) (base_dir : option string)
  (fs fs1 : FS) (env : list field) :
  compress_file self file_name output_filename format base_dir fs = (fs1, Ok env) ->
  dict_get env "ok" = Some (VBool true) ->
  exists file_path output_path ko c n arch,
    _resolve_under_restriction self fs
      (posixpath.join (base_path_of base_dir) file_name) = Ok file_path /\
    _resolve_under_restriction self fs
      (posixpath.join (base_path_of base_dir) output_filename) = Ok output_path /\
    os.isfile fs file_path = true /\
    os.locate fs output_path = Some ko /\
    fs1 = with_nodes fs n /\
    n !! ko = Some (File arch) /\
    (arch = ZipArchive [ZipMember (posixpath.basename file_path) c] \/
     exists gz, arch = TarArchive gz [TarMember (posixpath.basename file_path) REGTYPE c]) /\
    (os.locate fs file_path <> Some ko -> os.read_file fs file_path = Ok c).
Proof.
  intros H Hok. unfold compress_file in H.
  apply try_except_inv in H as [(a & H & [= <-])|(fs2 & e & _ & H)].
  2:{ destruct e; simpl in H; try done;
        apply error_result_not_ok in H; congruence. }
  apply mbind_ok in H as (fs2 & file_path & Hf & H). apply ask_ok in Hf as [-> Hf].
  apply mbind_ok in H as (fs2 & output_path & Ho & H). apply ask_ok in Ho as [-> Ho].
  apply mbind_ok in H as (fs2 & ex & Hex & H). apply test_ok in Hex as [-> ->].
  destruct (negb (os.exists_ fs file_path)).
  { apply mbind_ok in H as (fs2 & rel & _ & H). apply ask_ok in H as [_ H].
    rewrite (result_get _ _ _ _ _ _ _ H) in Hok by done. discriminate. }
  apply mbind_ok in H as (fs2 & isf & Hisf & H). apply test_ok in Hisf as [-> ->].
  destruct (os.isfile fs file_path) eqn:Hfile; cbv beta iota delta [negb] in H.
  2:{ apply error_result_not_ok in H. congruence. }
  apply mbind_ok in H as (fs2 & isl & Hisl & H). apply test_ok in Hisl as [-> ->].
  destruct (os.islink fs file_path).
  { apply error_result_not_ok in H. congruence. }
  apply mbind_ok in H as (fsA & [] & Hens & H).
  apply ensure_parent_dir_nodes in Hens as Hn. destruct Hn as [nA ->].
  pose proof (ensure_parent_dir_only_dirs _ _ _ _ Hens) as Honly. simpl nodes in Honly.
  apply mbind_ok in H as (fsB & unsupported & Hpack & H).
  assert (Hdone : forall (empty : content) (pack : content -> content),
             (call (fun fs => os.write_file fs output_path empty) ;;;
              c' <- ask (fun fs => os.read_file fs file_path) ;;
              call (fun fs => os.write_file fs output_path (pack c')))
               (with_nodes fs nA) = (fsB, Ok tt) ->
             exists ko c n,
               os.locate fs output_path = Some ko /\
               fsB = with_nodes fs n /\
               n !! ko = Some (File (pack c)) /\
               (os.locate fs file_path <> Some ko -> os.read_file fs file_path = Ok c)).
  { intros empty pack Hw.
    apply write_archive_inv in Hw as (ko & c & n & Hko & -> & Hn & Hother & Hread).
    rewrite locate_with_nodes in Hko, Hread.
    exists ko, c, n. split; [done|]. split; [done|]. split; [done|].
    intros Hdiff. specialize (Hread Hdiff). revert Hread.
    unfold os.read_file. rewrite locate_with_nodes.
    destruct (os.locate fs file_path) as [kf|]; [|done]. simpl nodes.
    destruct (Honly kf) as [->|[-> ->]]; [done|]. by destruct kf. }
  assert (Hrest : forall r, unsupported = Some r -> False).
  { intros r ->. injection H as _ <-.
    revert Hpack. repeat (destruct (String.eqb format _);
                          [intros Hp; by apply mbind_ok in Hp as (? & ? & _ & [=])|]).
    intros Hp. apply mbind_ok in Hp as (fs3 & r' & Hr & [= _ <-]).
    apply error_result_not_ok in Hr. congruence. }
  destruct unsupported as [r|]; [by destruct (Hrest r)|].
  assert (fs1 = fsB) as ->.
  { apply mbind_ok in H as (fs3 & rel & Hrel & H). apply ask_ok in Hrel as [-> _].
    by apply ask_ok in H as [-> _]. }
  revert Hpack.
  destruct (String.eqb format "zip").
  { intros Hp. apply mbind_ok in Hp as (fs3 & [] & Hw & [= <-]).
    destruct (Hdone _ (fun c => ZipArchive [ZipMember (posixpath.basename file_path) c]) Hw)
      as (ko & c & n & ? & ? & ? & ?).
    exists file_path, output_path, ko, c, n. eexists. repeat split; eauto. }
  destruct (String.eqb format "tar").
  { intros Hp. apply mbind_ok in Hp as (fs3 & [] & Hw & [= <-]).
    destruct (Hdone _ (fun c => TarArchive false
                                  [TarMember (posixpath.basename file_path) REGTYPE c]) Hw)
      as (ko & c & n & ? & ? & ? & ?).
    exists file_path, output_path, ko, c, n. eexists. repeat split; eauto. }
  destruct (String.eqb format "gztar").
  { intros Hp. apply mbind_ok in Hp as (fs3 & [] & Hw & [= <-]).
    destruct (Hdone _ (fun c => TarArchive true
                                  [TarMember (posixpath.basename file_path) REGTYPE c]) Hw)
      as (ko & c & n & ? & ? & ? & ?).
    exists file_path, output_path, ko, c, n. eexists. repeat split; eauto. }
  intros Hp. by apply mbind_ok in Hp as (? & ? & _ & [=]).
Qed.

(** What a successful [decompress_file] did. *)
Lemma decompress_success_inv
  (self : Tools) (file_name output_directory : string) (base_dir : option string)
  (fs fs2 : FS) (env : list field) :
  decompress_file self file_name output_directory base_dir fs = (fs2, Ok env) ->
  dict_get env "ok" = Some (VBool true) ->
  exists file_path output_path n files,
    _resolve_under_restriction self fs
      (posixpath.join (base_path_of base_dir) file_name) = Ok file_path /\
    _resolve_under_restriction self fs
      (posixpath.join (base_path_of base_dir) output_directory) = Ok output_path /\
    (forall key x, nodes fs !! key = Some x -> n !! key = Some x) /\
    _decompress_archive self file_path output_path file_name (with_nodes fs n)
    = (fs2, Ok files).
Proof.
  intros H Hok. unfold decompress_file in H.
  apply try_except_inv in H as [(a & H & [= <-])|(fs3 & e & _ & H)].
  2:{ destruct e; simpl in H; try done;
        apply error_result_not_ok in H; congruence. }
  apply mbind_ok in H as (fs3 & file_path & Hf & H). apply ask_ok in Hf as [-> Hf].
  apply mbind_ok in H as (fs3 & output_path & Ho & H). apply ask_ok in Ho as [-> Ho].
  apply mbind_ok in H as (fs3 & ex & Hex & H). apply test_ok in Hex as [-> ->].
  destruct (negb (os.exists_ fs file_path)).
  { apply mbind_ok in H as (fs3 & rel & _ & H). apply ask_ok in H as [_ H].
    rewrite (result_get _ _ _ _ _ _ _ H) in Hok by done. discriminate. }
  apply mbind_ok in H as (fs3 & isf & Hisf & H). apply test_ok in Hisf as [-> ->].
  destruct (negb (os.isfile fs file_path)).
  { apply error_result_not_ok in H. congruence. }
  apply mbind_ok in H as (fs3 & isl & Hisl & H). apply test_ok in Hisl as [-> ->].
  destruct (os.islink fs file_path).
  { apply error_result_not_ok in H. congruence. }
  apply mbind_ok in H as (fsA & [] & Hens & H).
  apply ensure_parent_dir_nodes in Hens as Hn. destruct Hn as [nA ->].
  pose proof (ensure_parent_dir_keeps _ _ _ _ Hens) as HkeepA. simpl nodes in HkeepA.
  apply mbind_ok in H as (fs0 & [] & Hmk & H). apply call_ok in Hmk.
  assert (exists n, fs0 = with_nodes fs n /\
                    forall key x, nA !! key = Some x -> n !! key = Some x)
    as (n & -> & Hkeep0).
  { revert Hmk. unfold os.makedirs. destruct (String.eqb _ _); [done|].
    destruct (os.locate _ _); [|done].
    destruct (os.makedirs_from _ _ _) as [n|] eqn:Hn; [|done].
    intros [= <-]. exists n. split; [done|]. by eapply makedirs_from_keeps. }
  apply mbind_ok in H as (fs3 & files & Harch & H).
  apply mbind_ok in H as (fs4 & rel & Hrel & H). apply ask_ok in Hrel as [-> _].
  apply ask_ok in H as [-> _].
  exists file_path, output_path, n, files. repeat split; auto.
Qed.

(** X19. Compress then decompress: after a successful [compress_file] of a
    file into an archive at another path and a successful [decompress_file]
    of that archive, the output directory holds a file with the base name of
    the original and the content of the original. *)
Theorem compress_then_decompress_round_trip
  (self : Tools) (file_name archive_name format output_directory : string)
  (base_dir : option string) (fs fs1 fs2 : FS) (e1 e2 : list field)
  (file_path archive_path output_path : string) :
  well_formed fs ->
  _resolve_under_restriction self fs
    (posixpath.join (base_path_of base_dir) file_name) = Ok file_path ->
  _resolve_under_restriction self fs
    (posixpath.join (base_path_of base_dir) archive_name) = Ok archive_path ->
  _resolve_under_restriction self fs
    (posixpath.join (base_path_of base_dir) output_directory) = Ok output_path ->
  archive_path <> file_path ->
  compress_file self file_name archive_name format base_dir fs = (fs1, Ok e1) ->
  dict_get e1 "ok" = Some (VBool true) ->
  decompress_file self archive_name output_directory base_dir fs1 = (fs2, Ok e2) ->
  dict_get e2 "ok" = Some (VBool true) ->
  exists c,
    os.read_file fs file_path = Ok c /\
    os.read_file fs2 (posixpath.join output_path (posixpath.basename file_path)) = Ok c.
Proof.
  intros Hwf Hf Ha Ho Hdiff Hc Hok1 Hd Hok2.
  destruct (compress_success_inv _ _ _ _ _ _ _ _ Hc Hok1)
    as (fp & ap & ko & c & n1 & arch & Hf' & Ha' & Hfile & Hko & -> & Harch & Hkind & Hread).
  rewrite Hf in Hf'. injection Hf' as <-. rewrite Ha in Ha'. injection Ha' as <-.
  destruct (decompress_success_inv _ _ _ _ _ _ _ Hd Hok2)
    as (ap & op & n0 & files & Ha' & Ho' & Hkeep & Hrun).
  rewrite resolve_under_restriction_with_nodes in Ha', Ho'.
  rewrite Ha in Ha'. injection Ha' as <-. rewrite Ho in Ho'. injection Ho' as <-.
  destruct (resolved_canonical _ _ _ _ Hwf Hf) as (kf & -> & Hkf).
  destruct (resolved_canonical _ _ _ _ Hwf Ha) as (ka & -> & Hka).
  rewrite (proj1 (canonical_locate fs ka Hka)) in Hko. injection Hko as <-.
  rewrite (proj1 (canonical_locate fs kf Hkf)) in Hread.
  assert (Hne : kf <> []).
  { intros ->. unfold os.isfile in Hfile. by rewrite (node_at_canonical fs []) in Hfile. }
  destruct (basename_rooted _ _ Hkf Hne) as [Hbase Hplain].
  rewrite <- Hbase in Hplain.
  exists c. split; [apply Hread; intros [= ->]; by apply Hdiff|].
  assert (Hstored : os.read_file (with_nodes (with_nodes fs n1) n0) ("/" +:+ Str.join ka)
                    = Ok arch).
  { unfold os.read_file. rewrite !locate_with_nodes.
    rewrite (proj1 (canonical_locate fs ka Hka)). simpl nodes.
    by rewrite (Hkeep _ _ Harch). }
  revert Hrun. unfold _decompress_archive, open_zip, open_tar.
  destruct (Str.endswith archive_name ".zip").
  - intros Hrun. apply mbind_ok in Hrun as (fs3 & members & Hopen & Hrun).
    apply mbind_ok in Hopen as (fs4 & arch' & Hr & Hopen).
    apply ask_ok in Hr as [-> Hr]. rewrite Hstored in Hr. injection Hr as <-.
    destruct Hkind as [->|[gz ->]]; [|done]. injection Hopen as <- <-.
    simpl in Hrun.
    apply mbind_ok in Hrun as (fs3 & rel & Hm & Hrun). injection Hrun as <- _.
    rewrite (extract_zip_member_plain _ _ _ _ _ _ _ Hplain Hm).
    unfold zip_read. cbn [fold_left]. by rewrite String.eqb_refl.
  - destruct (_ || _); [|done].
    intros Hrun. apply mbind_ok in Hrun as (fs3 & members & Hopen & Hrun).
    apply mbind_ok in Hopen as (fs4 & arch' & Hr & Hopen).
    apply ask_ok in Hr as [-> Hr]. rewrite Hstored in Hr. injection Hr as <-.
    destruct Hkind as [->|[gz ->]]; [done|].
    destruct (_ && _); [done|]. injection Hopen as <- <-.
    simpl in Hrun.
    apply mbind_ok in Hrun as (fs3 & new & Hm & Hrun). injection Hrun as <- _.
    by apply (extract_tar_member_plain _ _ _ _ _ _ _ Hplain Hm).
Qed.

Lemma compress_then_decompress_round_trip_witness :
  let packed := compress_file Sample.tools "a.txt" "a.tgz" "gztar" None Sample.plain in
  let r := decompress_file Sample.tools "a.tgz" "out" None (fst packed) in
  exists c,
    os.read_file Sample.plain "/srv/data/a.txt" = Ok c /\
    os.read_file (fst r)
      (posixpath.join "/srv/data/out" (posixpath.basename "/srv/data/a.txt")) = Ok c.
Proof.
  apply (compress_then_decompress_round_trip Sample.tools "a.txt" "a.tgz" "gztar" "out" None
           Sample.plain
           (fst (compress_file Sample.tools "a.txt" "a.tgz" "gztar" None Sample.plain))
           _
           (World.envelope
              (compress_file Sample.tools "a.txt" "a.tgz" "gztar" None Sample.plain))
           (World.envelope
              (decompress_file Sample.tools "a.tgz" "out" None
                 (fst (compress_file Sample.tools "a.txt" "a.tgz" "gztar" None
                         Sample.plain))))
           "/srv/data/a.txt" "/srv/data/a.tgz" "/srv/data/out").
  - split; [by repeat constructor|reflexivity].
  - by vm_compute.
  - by vm_compute.
  - by vm_compute.
  - done.
  - by vm_compute.
  - by vm_compute.
  - by vm_compute.
  - by vm_compute.
Defined.

(** ** Directory names *)

Lemma lstrip_slashes_parts (t : string) :
  Str.lstrip t = "" -> List.filter pathlib.is_part (Str.split t) = [].
Proof.
  induction t as [|c t IH]; [done|]. simpl Str.lstrip.
  destruct (Ascii.eqb_spec c Str.sep) as [->|Hc]; [|done].
  intros H. change (String Str.sep t) with (String "/" t).
  rewrite split_cons_sep. simpl. by apply IH.
Qed.

(** [rstrip] takes slashes off the end. *)
Lemma rstrip_decompose (h : string) :
  exists t, h = Str.rstrip h +:+ t /\ Str.lstrip t = "".
Proof.
  induction h as [|c h (t & Ht & Hs)]; [by exists ""|]. simpl.
  destruct (Str.rstrip h) as [|d r] eqn:Hr.
  - rewrite append_nil_l in Ht. subst t.
    destruct (Ascii.eqb_spec c Str.sep) as [->|Hc].
    + exists (String Str.sep h). split; [done|]. exact Hs.
    + exists h. by rewrite append_cons, append_nil_l.
  - exists t. split; [|done]. by rewrite append_cons, <- Ht.
Qed.

Lemma rstrip_view (h : string) :
  Str.lstrip h <> "" ->
  posixpath.isabs (Str.rstrip h) = posixpath.isabs h /\
  List.filter pathlib.is_part (Str.split (Str.rstrip h))
  = List.filter pathlib.is_part (Str.split h).
Proof.
  intros Hne. destruct (rstrip_decompose h) as (t & Ht & Hs).
  assert (Hr : Str.rstrip h <> "").
  { intros E. rewrite E, append_nil_l in Ht. by subst t. }
  split.
  - rewrite Ht at 2. by rewrite isabs_app.
  - rewrite Ht at 2. destruct t as [|c t]; [by rewrite append_nil_r|].
    simpl in Hs. destruct (Ascii.eqb_spec c Str.sep) as [->|Hc]; [|done].
    change (String Str.sep t) with ("/" +:+ t).
    by rewrite split_app, List.filter_app, (lstrip_slashes_parts t Hs), app_nil_r.
Qed.

Lemma length_append (a b : string) :
  String.length (a +:+ b) = String.length a + String.length b.
Proof. induction a as [|c a IH]; [done|]. rewrite append_cons. simpl. by rewrite IH. Qed.

Lemma substring_prefix (a b : string) :
  String.substring 0 (String.length a) (a +:+ b) = a.
Proof.
  induction a as [|c a IH]; [by destruct b|]. rewrite append_cons. simpl. by rewrite IH.
Qed.

Lemma upto_last_sep_app (a x : string) :
  Str.has_sep x = false -> Str.upto_last_sep (a +:+ "/" +:+ x) = a +:+ "/".
Proof.
  intros Hx. unfold Str.upto_last_sep. rewrite after_last_sep_app by done.
  rewrite <- append_assoc, length_append.
  replace (String.length (a +:+ "/") + String.length x - String.length x)
    with (String.length (a +:+ "/")) by lia.
  apply substring_prefix.
Qed.

(** The directory of [a/x] has the components of [a]. *)
Lemma dirname_view (a x : string) :
  Str.has_sep x = false ->
  posixpath.isabs (posixpath.dirname (a +:+ "/" +:+ x))
  = posixpath.isabs (a +:+ "/" +:+ x) /\
  List.filter pathlib.is_part (Str.split (posixpath.dirname (a +:+ "/" +:+ x)))
  = List.filter pathlib.is_part (Str.split a).
Proof.
  intros Hx. unfold posixpath.dirname, posixpath.split.
  rewrite upto_last_sep_app by done. simpl fst.
  assert (Hparts : List.filter pathlib.is_part (Str.split (a +:+ "/"))
                   = List.filter pathlib.is_part (Str.split a)).
  { rewrite <- (append_nil_r (a +:+ "/")), append_assoc, split_app, List.filter_app.
    simpl. by rewrite app_nil_r. }
  assert (Habs : posixpath.isabs (a +:+ "/") = posixpath.isabs (a +:+ "/" +:+ x)).
  { destruct a as [|c a]; [|by rewrite !append_cons, !isabs_cons].
    rewrite !append_nil_l. rewrite (isabs_rooted x). exact (isabs_rooted ""). }
  destruct (String.eqb_spec (a +:+ "/") "") as [E|_]; [by destruct a|].
  destruct (String.eqb_spec (Str.lstrip (a +:+ "/")) "") as [E|E];
    cbv beta iota delta [negb andb]; [done|].
  destruct (rstrip_view _ E) as [H1 H2]. by rewrite H1, H2.
Qed.

Lemma dirname_no_sep (x : string) :
  Str.has_sep x = false -> posixpath.dirname x = "".
Proof.
  intros Hx. unfold posixpath.dirname, posixpath.split, Str.upto_last_sep.
  assert (Str.after_last_sep x = x) as ->.
  { induction x as [|c x IH]; [done|]. simpl in *.
    apply orb_false_iff in Hx as [Hc Hx]. by rewrite existsb_has_sep, Hx, Hc. }
  rewrite Nat.sub_diag. by destruct x.
Qed.

(** The normalised name of an accepted member is ["."] or plain
    components joined. *)
Lemma clean_shape (m : string) :
  let clean := posixpath.normpath (Str.lstrip m) in
  Str.startswith clean ".." = false ->
  clean = "." \/
  exists p, p <> [] /\ Forall (fun x => plain_name x = true) p /\ clean = Str.join p.
Proof.
  intros clean Hdd.
  destruct (clean_member m Hdd) as [_ Hplain]. fold clean in Hplain.
  revert Hplain. subst clean. rewrite normpath_rel by apply lstrip_not_abs.
  set (s := Str.lstrip m).
  destruct (String.eqb s ""); [by left|]. cbv zeta.
  set (R := posixpath.norm_comps false [] (Str.split s)).
  assert (Hparts : Forall (fun x => pathlib.is_part x = true) R)
    by (by apply norm_comps_parts).
  assert (Hsep : Forall (fun x => Str.has_sep x = false) R)
    by (apply norm_comps_no_sep; [apply split_no_sep|done]).
  destruct (String.eqb_spec (Str.join R) "") as [E|E]; [by left|].
  assert (HR : R <> []) by (by intros ->).
  rewrite split_join, filter_all by done. intros Hplain. right. by exists R.
Qed.

Lemma no_sep_not_abs (x : string) : Str.has_sep x = false -> posixpath.isabs x = false.
Proof.
  destruct x as [|c x]; [done|]. simpl. intros H. apply orb_false_iff in H as [Hc _].
  rewrite isabs_cons. by rewrite Ascii.eqb_sym.
Qed.

Lemma parts_of_name (x : string) :
  Str.has_sep x = false ->
  List.filter pathlib.is_part (Str.split x) = if pathlib.is_part x then [x] else [].
Proof. intros Hx. by rewrite split_single. Qed.

Lemma dirname_join_name (out x : string) :
  Str.has_sep x = false ->
  posixpath.dirname (posixpath.join out x) = "" \/
  posixpath.isabs (posixpath.dirname (posixpath.join out x)) = posixpath.isabs out /\
  List.filter pathlib.is_part (Str.split (posixpath.dirname (posixpath.join out x)))
  = List.filter pathlib.is_part (Str.split out).
Proof.
  intros Hx. pose proof (no_sep_not_abs x Hx) as Hrel.
  destruct (String.eqb_spec out "") as [->|Hout].
  - left. unfold posixpath.join. unfold posixpath.isabs in Hrel. rewrite Hrel.
    cbv beta iota fix delta [String.eqb orb]. rewrite append_nil_l.
    by apply dirname_no_sep.
  - right. pose proof (join_isabs out x Hrel) as Habs.
    destruct (join_app out x Hrel Hout) as [[E He]|[E He]]; rewrite E in *.
    + apply endswith_sep in He as [o ->]. rewrite append_assoc in *.
      destruct (dirname_view o x Hx) as [H1 H2]. rewrite H1, H2. split; [done|].
      rewrite <- (append_nil_r (o +:+ "/")), append_assoc, split_app, List.filter_app.
      simpl. by rewrite app_nil_r.
    + destruct (dirname_view out x Hx) as [H1 H2]. by rewrite H1, H2.
Qed.

Lemma join_assoc_sep (a b x : string) :
  posixpath.isabs b = false -> b <> "" ->
  posixpath.join a (b +:+ "/" +:+ x) = posixpath.join a b +:+ "/" +:+ x.
Proof.
  intros Hb Hne. unfold posixpath.join.
  assert (Str.startswith (b +:+ "/" +:+ x) "/" = false) as ->.
  { change (posixpath.isabs (b +:+ "/" +:+ x) = false). by rewrite isabs_app. }
  unfold posixpath.isabs in Hb. rewrite Hb.
  destruct (_ || _); by rewrite !append_assoc.
Qed.

Lemma join_nonempty (a b : string) : b <> "" -> posixpath.join a b <> "".
Proof.
  intros Hb. unfold posixpath.join.
  destruct (Str.startswith b "/"); [done|].
  destruct (_ || _); destruct a, b; done.
Qed.

(** Where the parent directory of an accepted member lies: nowhere, when
    the path has no directory part, or under the output directory. *)
Lemma dirname_of_member (out clean : string) :
  clean = "." \/
  (exists p, p <> [] /\ Forall (fun x => plain_name x = true) p /\ clean = Str.join p) ->
  let safe := posixpath.join out clean in
  let p := List.filter pathlib.is_part (Str.split clean) in
  posixpath.dirname safe = "" \/
  posixpath.isabs (posixpath.dirname safe) = posixpath.isabs out /\
  List.filter pathlib.is_part (Str.split (posixpath.dirname safe))
  = List.filter pathlib.is_part (Str.split out) ++ removelast p.
Proof.
  intros [->|(p & Hne & Hp & ->)] safe q; subst safe q.
  - destruct (dirname_join_name out "." eq_refl) as [?|[? ?]]; [by left|right].
    split; [done|]. simpl. by rewrite app_nil_r.
  - assert (Hparts : Forall (fun x => pathlib.is_part x = true) p /\
                     Forall (fun x => Str.has_sep x = false) p).
    { split; (eapply Forall_impl; [exact Hp|]); intros x Hx;
        by apply plain_name_part in Hx as (? & ? & ?). }
    destruct Hparts as [Hpart Hsep].
    rewrite split_join by done. rewrite (filter_all _ p) by done.
    destruct p as [|x p _] using rev_ind; [done|].
    apply Forall_app in Hsep as [Hsep' Hx]. apply List.Forall_cons_iff in Hx as [Hx _].
    apply Forall_app in Hpart as [Hpart' _].
    rewrite removelast_last.
    destruct p as [|y p].
    + simpl app. change (Str.join [x]) with x.
      destruct (dirname_join_name out x Hx) as [?|[? ?]]; [by left|right].
      by rewrite app_nil_r.
    + right. unfold Str.join at 1 2. rewrite concat_app by done.
      fold (Str.join (y :: p)). change (String.concat "/" [x]) with x.
      assert (Hrel : posixpath.isabs (Str.join (y :: p)) = false)
        by (by apply join_not_abs).
      assert (Hnonempty : Str.join (y :: p) <> "").
      { intros E. by apply (join_empty _ Hpart') in E. }
      rewrite join_assoc_sep by done.
      destruct (dirname_view (posixpath.join out (Str.join (y :: p))) x Hx) as [H1 H2].
      rewrite H1, H2, isabs_app by (by apply join_nonempty).
      rewrite join_isabs, join_parts by done.
      split; [done|]. rewrite split_join by done. by rewrite (filter_all _ (y :: p)).
Qed.

(** ** Extraction stays in the output directory *)

Lemma confined_refl (k : list string) (fs : FS) : confined k fs fs.
Proof. by repeat split. Qed.

Lemma confined_trans (k : list string) (fs1 fs2 fs3 : FS) :
  confined k fs1 fs2 -> confined k fs2 fs3 -> confined k fs1 fs3.
Proof.
  intros (Hl1 & Hc1 & Hd1 & Ho1) (Hl2 & Hc2 & Hd2 & Ho2).
  split; [by rewrite Hl2|]. split; [by rewrite Hc2|].
  split; [intros key H; by apply Hd2, Hd1|].
  intros key H. by rewrite Ho2, Ho1.
Qed.

Lemma locate_same (fs fs' : FS) (s : string) :
  links fs' = links fs -> cwd fs' = cwd fs -> os.locate fs' s = os.locate fs s.
Proof. unfold os.locate, os.start. by intros -> ->. Qed.

Lemma dirs_along_spec (n : gmap (list string) node) :
  forall rest cur,
    dirs_along n cur rest = true ->
    forall pre, pre <> [] -> pre `prefix_of` rest -> n !! (cur ++ pre) = Some Dir.
Proof.
  induction rest as [|x rest IH]; intros cur H pre Hne Hp.
  - by apply prefix_nil_inv in Hp.
  - simpl in H. apply andb_true_iff in H as [Hx H].
    destruct pre as [|y pre]; [done|].
    apply prefix_cons_inv_1 in Hp as Hy. subst y.
    apply prefix_cons_inv_2 in Hp.
    destruct pre as [|z pre].
    + unfold os.is_dir_key in Hx.
      destruct (cur ++ [x]) eqn:E; [by destruct cur|].
      by destruct (n !! (s :: l)) as [[]|].
    + replace (cur ++ x :: z :: pre) with ((cur ++ [x]) ++ z :: pre)
        by (by rewrite <- app_assoc).
      by apply IH.
Qed.

Lemma dirs_along_stay (n n' : gmap (list string) node) :
  (forall key, n !! key = Some Dir -> n' !! key = Some Dir) ->
  forall rest cur, dirs_along n cur rest = true -> dirs_along n' cur rest = true.
Proof.
  intros Hd. induction rest as [|x rest IH]; intros cur H; [done|].
  simpl in *. apply andb_true_iff in H as [Hx H]. rewrite (IH _ H), andb_true_r.
  unfold os.is_dir_key in *.
  destruct (cur ++ [x]) eqn:E; [done|].
  destruct (n !! (s :: l)) as [[]|] eqn:E'; try done. by rewrite (Hd _ E').
Qed.

Lemma prefix_app_cases {A} (pre a b : list A) :
  pre `prefix_of` a ++ b -> pre `prefix_of` a \/ a `prefix_of` pre.
Proof.
  revert pre. induction a as [|x a IH]; intros pre Hp.
  - right. apply prefix_nil.
  - destruct pre as [|y pre]; [left; apply prefix_nil|].
    simpl in Hp. apply prefix_cons_inv_1 in Hp as Hy. subst y.
    apply prefix_cons_inv_2 in Hp.
    destruct (IH _ Hp); [left|right]; by apply prefix_cons.
Qed.

Lemma makedirs_from_changes (rest : list string) :
  forall (n n' : gmap (list string) node) (cur : list string),
    os.makedirs_from n cur rest = Ok n' ->
    forall key, n' !! key <> n !! key ->
      n !! key = None /\ exists pre, pre <> [] /\ pre `prefix_of` rest /\ key = cur ++ pre.
Proof.
  induction rest as [|c rest IH]; intros n n' cur H key Hne; simpl in H.
  - injection H as <-. done.
  - assert (Hstep : forall n0,
               os.makedirs_from n0 (cur ++ [c]) rest = Ok n' ->
               n' !! key <> n0 !! key ->
               n0 !! key = None /\
               exists pre, pre <> [] /\ pre `prefix_of` c :: rest /\ key = cur ++ pre).
    { intros n0 H0 Hne0. destruct (IH _ _ _ H0 key Hne0) as (Hnone & pre & Hp & Hpre & ->).
      split; [done|]. exists (c :: pre). split; [done|].
      split; [by apply prefix_cons|]. by rewrite <- app_assoc. }
    destruct (n !! (cur ++ [c])) as [[]|] eqn:E; [done|by apply Hstep|].
    destruct (decide (key = cur ++ [c])) as [->|Hk].
    + split; [done|]. exists [c]. split; [done|]. split; [|done].
      apply prefix_cons, prefix_nil.
    + destruct (Hstep _ H) as [Hnone Hex].
      * by rewrite lookup_insert_ne.
      * by rewrite lookup_insert_ne in Hnone.
Qed.

Lemma ready_confined (out : string) (kout : list string) (fs fs' : FS) :
  ready out kout fs -> confined kout fs fs' -> ready out kout fs'.
Proof.
  intros (Hloc & Hdirs & Hfree) (Hl & Hc & Hd & _).
  split; [by rewrite (locate_same _ _ _ Hl Hc)|].
  split; [by eapply dirs_along_stay|]. intros key. rewrite Hl. apply Hfree.
Qed.

(** A path whose components are those of the output directory followed by
    plain ones names a key below it. *)
Lemma locate_below (out d : string) (kout p : list string) (fs : FS) :
  ready out kout fs ->
  posixpath.isabs d = posixpath.isabs out ->
  List.filter pathlib.is_part (Str.split d)
  = List.filter pathlib.is_part (Str.split out) ++ p ->
  Forall (fun x => plain_name x = true) p ->
  os.locate fs d = Some (kout ++ p).
Proof.
  intros (Hloc & _ & Hfree) Habs Hparts Hp. unfold os.locate in *.
  rewrite <- walk_filter, Hparts. unfold os.start in *. rewrite Habs.
  rewrite <- walk_filter in Hloc. apply walk_extend; [done|done|].
  intros pre Hne _. apply Hfree; [by apply prefix_app_r|].
  intros E. rewrite <- (app_nil_r kout) in E at 2. by apply app_inv_head in E.
Qed.

Lemma makedirs_confined (out d : string) (kout p : list string) (fs fs' : FS) :
  ready out kout fs ->
  os.locate fs d = Some (kout ++ p) ->
  os.makedirs fs d = Ok fs' ->
  confined kout fs fs'.
Proof.
  intros (_ & Hdirs & _) Hd. unfold os.makedirs. destruct (String.eqb d ""); [done|].
  rewrite Hd. destruct (os.makedirs_from _ _ _) as [n|] eqn:Hn; [|done].
  intros [= <-]. split; [done|]. split; [done|].
  split; [intros key; by eapply makedirs_from_keeps|].
  intros key Hout. simpl.
  destruct (makedirs_from_only_dirs _ _ _ _ Hn key) as [|[E1 E2]]; [done|].
  assert (Hne : n !! key <> nodes fs !! key) by (by rewrite E1, E2).
  destruct (makedirs_from_changes _ _ _ _ Hn key Hne) as (Hnone & pre & Hpre & Hp & ->).
  simpl app in *.
  destruct (prefix_app_cases _ _ _ Hp) as [Hin|Hbelow]; [|done].
  pose proof (dirs_along_spec _ _ _ Hdirs pre Hpre Hin) as Hdir. simpl app in Hdir.
  by rewrite Hdir in Hnone.
Qed.

Lemma write_confined (kout p : list string) (safe : string) (c : content) (fs fs' : FS) :
  os.locate fs safe = Some (kout ++ p) ->
  os.write_file fs safe c = Ok fs' ->
  confined kout fs fs'.
Proof.
  intros Hloc. unfold os.write_file, os.write_key. rewrite Hloc.
  destruct (kout ++ p) as [|x k] eqn:E; [done|].
  destruct (negb _); [done|].
  destruct (nodes fs !! (x :: k)) as [[c'|]|] eqn:Hn; [|done|];
    intros [= <-]; (split; [done|]); (split; [done|]); simpl;
    (split; intros key H;
     [ rewrite lookup_insert_ne; [done|]; intros <-; by rewrite Hn in H
     | rewrite lookup_insert_ne; [done|]; intros <-; apply H; rewrite <- E;
       by apply prefix_app_r ]).
Qed.

Lemma member_paths (out member safe : string) (kout : list string) (fs : FS) :
  ready out kout fs ->
  _sanitize_archive_path fs member out = Ok safe ->
  exists p,
    Forall (fun x => plain_name x = true) p /\
    os.locate fs safe = Some (kout ++ p) /\
    (posixpath.dirname safe = "" \/
     os.locate fs (posixpath.dirname safe) = Some (kout ++ removelast p)).
Proof.
  intros Hready Hs.
  pose proof (sanitize_ok _ _ _ _ Hs) as (-> & Hrel & Hplain).
  set (clean := posixpath.normpath (Str.lstrip member)) in *.
  set (p := List.filter pathlib.is_part (Str.split clean)) in *.
  exists p. split; [done|]. split.
  - apply (locate_below out _ kout p fs Hready); [by apply join_isabs|by apply join_parts|done].
  - assert (Hshape : Str.startswith clean ".." = false).
    { destruct (Str.startswith clean "..") eqn:E; [|done].
      by rewrite (sanitize_refuses_parent_escape fs member out E) in Hs. }
    destruct (dirname_of_member out clean (clean_shape member Hshape)) as [?|[Habs Hparts]];
      [by left|right].
    apply (locate_below out _ kout _ fs Hready Habs Hparts).
    destruct (removelast_prefix p) as [r Hr]. fold p in Hr. rewrite Hr in Hplain.
    by apply Forall_app in Hplain as [? _].
Qed.

Lemma makedirs_member_confined (out member safe : string) (kout : list string)
      (fs fs' : FS) (r : result unit) :
  ready out kout fs ->
  _sanitize_archive_path fs member out = Ok safe ->
  call (fun fs => os.makedirs fs (posixpath.dirname safe)) fs = (fs', r) ->
  confined kout fs fs'.
Proof.
  intros Hready Hs H.
  apply call_inv in H as [[H _]|(e & _ & -> & _)]; [|apply confined_refl].
  destruct (member_paths _ _ _ _ _ Hready Hs) as (p & _ & _ & [E|Hd]).
  - by rewrite E in H.
  - by eapply makedirs_confined.
Qed.

Lemma write_member_confined (out member safe : string) (kout : list string)
      (c : content) (fs0 fs fs' : FS) (r : result unit) :
  ready out kout fs0 -> confined kout fs0 fs ->
  _sanitize_archive_path fs0 member out = Ok safe ->
  call (fun fs => os.write_file fs safe c) fs = (fs', r) ->
  confined kout fs fs'.
Proof.
  intros Hready Hconf Hs H.
  apply call_inv in H as [[H _]|(e & _ & -> & _)]; [|apply confined_refl].
  destruct (member_paths _ _ _ _ _ Hready Hs) as (p & _ & Hloc & _).
  eapply write_confined; [|exact H].
  destruct Hconf as (Hl & Hc & _). by rewrite (locate_same _ _ _ Hl Hc).
Qed.

Lemma extract_zip_member_confined (self : Tools) (members : list zip_member)
      (out name : string) (kout : list string) (fs fs' : FS) (r : result string) :
  ready out kout fs ->
  extract_zip_member self members out name fs = (fs', r) ->
  confined kout fs fs'.
Proof.
  intros Hready H. unfold extract_zip_member in H.
  apply mbind_inv in H as [(fs1 & safe & Hs & H)|(e & Hs & _)];
    apply ask_inv in Hs as [-> Hs]; [|apply confined_refl].
  apply mbind_inv in H as [(fs1 & [] & Hm & H)|(e & Hm & _)];
    pose proof (makedirs_member_confined _ _ _ _ _ _ _ Hready Hs Hm) as Hc1; [|done].
  apply mbind_inv in H as [(fs2 & [] & Hw & H)|(e & Hw & _)];
    pose proof (write_member_confined _ _ _ _ _ _ _ _ _ Hready Hc1 Hs Hw) as Hc2;
    [|by eapply confined_trans].
  apply ask_inv in H as [-> _]. by eapply confined_trans.
Qed.

Lemma extract_tar_member_confined (self : Tools) (out : string) (m : tar_member)
      (kout : list string) (fs fs' : FS) (r : result (list string)) :
  ready out kout fs ->
  extract_tar_member self out m fs = (fs', r) ->
  confined kout fs fs'.
Proof.
  intros Hready H. destruct m as [name kind data]. unfold extract_tar_member in H.
  apply mbind_inv in H as [(fs1 & safe & Hs & H)|(e & Hs & _)];
    apply ask_inv in Hs as [-> Hs]; [|apply confined_refl].
  destruct kind; try (injection H as <- _; apply confined_refl).
  - apply mbind_inv in H as [(fs1 & [] & Hm & H)|(e & Hm & _)];
      pose proof (makedirs_member_confined _ _ _ _ _ _ _ Hready Hs Hm) as Hc1; [|done].
    apply mbind_inv in H as [(fs2 & [] & Hw & H)|(e & Hw & _)];
      pose proof (write_member_confined _ _ _ _ _ _ _ _ _ Hready Hc1 Hs Hw) as Hc2;
      [|by eapply confined_trans].
    apply mbind_inv in H as [(fs3 & rel & Hr & H)|(e & Hr & _)];
      apply ask_inv in Hr as [-> _]; [|by eapply confined_trans].
    injection H as <- _. by eapply confined_trans.
  - apply mbind_inv in H as [(fs1 & [] & Hm & H)|(e & Hm & _)].
    + injection H as <- _.
      apply call_inv in Hm as [[Hm _]|(e & _ & -> & _)]; [|apply confined_refl].
      destruct (member_paths _ _ _ _ _ Hready Hs) as (p & _ & Hloc & _).
      by eapply makedirs_confined.
    + apply call_inv in Hm as [[_ [=]]|(e' & _ & -> & _)]. apply confined_refl.
Qed.

Lemma extract_zip_confined (self : Tools) (members : list zip_member) (out : string)
      (kout : list string) (todo : list zip_member) :
  forall (acc : list string) (fs fs' : FS) (r : result (list string)),
    ready out kout fs ->
    extract_zip self members out todo acc fs = (fs', r) ->
    confined kout fs fs'.
Proof.
  induction todo as [|[name data] todo IH]; intros acc fs fs' r Hready H.
  - injection H as <- _. apply confined_refl.
  - simpl in H.
    apply mbind_inv in H as [(fs1 & rel & Hm & H)|(e & Hm & _)];
      pose proof (extract_zip_member_confined _ _ _ _ _ _ _ _ Hready Hm) as Hc; [|done].
    eapply confined_trans; [exact Hc|].
    eapply IH; [|exact H]. by eapply ready_confined.
Qed.

Lemma extract_tar_confined (self : Tools) (out : string) (kout : list string)
      (todo : list tar_member) :
  forall (acc : list string) (fs fs' : FS) (r : result (list string)),
    ready out kout fs ->
    extract_tar self out todo acc fs = (fs', r) ->
    confined kout fs fs'.
Proof.
  induction todo as [|m todo IH]; intros acc fs fs' r Hready H.
  - injection H as <- _. apply confined_refl.
  - rewrite extract_tar_cons in H.
    apply mbind_inv in H as [(fs1 & new & Hm & H)|(e & Hm & _)];
      pose proof (extract_tar_member_confined _ _ _ _ _ _ _ Hready Hm) as Hc; [|done].
    eapply confined_trans; [exact Hc|].
    eapply IH; [|exact H]. by eapply ready_confined.
Qed.

Lemma decompress_archive_confined
  (self : Tools) (file_path output_path file_name : string) (kout : list string)
  (fs fs' : FS) (r : result (list string)) :
  ready output_path kout fs ->
  _decompress_archive self file_path output_path file_name fs = (fs', r) ->
  confined kout fs fs'.
Proof.
  intros Hready.
  unfold _decompress_archive, open_zip, open_tar.
  destruct (Str.endswith file_name ".zip").
  - intros H. apply mbind_inv in H as [(fs1 & members & Ho & H)|(e & Ho & _)].
    + assert (fs1 = fs) as ->.
      { apply mbind_inv in Ho as [(fs2 & c & Hr & Ho)|(e & Hr & _)];
          apply ask_inv in Hr as [-> _]; [|done].
        destruct c; by injection Ho as <-. }
      by eapply extract_zip_confined.
    + assert (fs' = fs) as ->; [|apply confined_refl].
      apply mbind_inv in Ho as [(fs2 & c & Hr & Ho)|(e' & Hr & _)];
        apply ask_inv in Hr as [-> _]; [|done].
      destruct c; by injection Ho as <-.
  - destruct (_ || _); [|intros [= <- _]; apply confined_refl].
    intros H. apply mbind_inv in H as [(fs1 & members & Ho & H)|(e & Ho & _)].
    + assert (fs1 = fs) as ->.
      { apply mbind_inv in Ho as [(fs2 & c & Hr & Ho)|(e & Hr & _)];
          apply ask_inv in Hr as [-> _]; [|done].
        destruct c; try (by injection Ho as <-).
        destruct (_ && _); by injection Ho as <-. }
      by eapply extract_tar_confined.
    + assert (fs' = fs) as ->; [|apply confined_refl].
      apply mbind_inv in Ho as [(fs2 & c & Hr & Ho)|(e' & Hr & _)];
        apply ask_inv in Hr as [-> _]; [|done].
      destruct c; try (by injection Ho as <-).
      destruct (_ && _); by injection Ho as <-.
Qed.

(** X20. [_decompress_archive] stays in the output directory: when that
    directory exists with the directories leading to it and no symbolic link
    lies below it, extraction changes no link and no node outside the tree
    of the output directory, whatever the archive holds and whether or not
    extraction fails. *)
Theorem extraction_stays_in_output_directory
  (self : Tools) (file_path output_path file_name : string) (kout : list string)
  (fs fs' : FS) (r : result (list string)) :
  os.locate fs output_path = Some kout ->
  dirs_along (nodes fs) [] kout = true ->
  (forall key, kout `prefix_of` key -> key <> kout -> links fs !! key = None) ->
  _decompress_archive self file_path output_path file_name fs = (fs', r) ->
  links fs' = links fs /\
  forall key, ~ kout `prefix_of` key -> nodes fs' !! key = nodes fs !! key.
Proof.
  intros Hloc Hdirs Hfree H.
  assert (Hready : ready output_path kout fs) by done.
  by destruct (decompress_archive_confined _ _ _ _ _ _ _ _ Hready H) as (? & _ & _ & ?).
Qed.

Lemma extraction_stays_in_output_directory_witness :
  links (_decompress_archive Sample.tools "/srv/data/tree.tar" "/srv/data/out"
           "tree.tar" Sample.unpack).1 = links Sample.unpack /\
  forall key, ~ ["srv"; "data"; "out"] `prefix_of` key ->
    nodes (_decompress_archive Sample.tools "/srv/data/tree.tar" "/srv/data/out"
             "tree.tar" Sample.unpack).1 !! key = nodes Sample.unpack !! key.
Proof.
  apply (extraction_stays_in_output_directory Sample.tools "/srv/data/tree.tar"
           "/srv/data/out" "tree.tar" ["srv"; "data"; "out"] Sample.unpack _
           (_decompress_archive Sample.tools "/srv/data/tree.tar" "/srv/data/out"
              "tree.tar" Sample.unpack).2).
  - by vm_compute.
  - by vm_compute.
  - intros key _ _. reflexivity.
  - apply surjective_pairing.
Defined.

(** ** Decompressing into a directory *)

Lemma makedirs_from_dirs_along (rest : list string) :
  forall (n n' : gmap (list string) node) (cur : list string),
    os.makedirs_from n cur rest = Ok n' -> dirs_along n' cur rest = true.
Proof.
  induction rest as [|c rest IH]; intros n n' cur H; [done|].
  simpl in H. simpl.
  assert (Hc : forall n0, n0 !! (cur ++ [c]) = Some Dir ->
                 os.makedirs_from n0 (cur ++ [c]) rest = Ok n' ->
                 os.is_dir_key n' (cur ++ [c]) && dirs_along n' (cur ++ [c]) rest = true).
  { intros n0 E H0. rewrite (IH _ _ _ H0), andb_true_r.
    pose proof (makedirs_from_keeps _ _ _ _ H0 _ _ E) as E'.
    unfold os.is_dir_key. destruct (cur ++ [c]); [done|]. by rewrite E'. }
  destruct (n !! (cur ++ [c])) as [[]|] eqn:E; [done|by eapply Hc|].
  eapply Hc; [|exact H]. by rewrite lookup_insert_eq.
Qed.

(** From [fs] to [fs'] directories were created and nothing else changed. *)
Lemma makedirs_only_dirs (fs fs' : FS) (d : string) :
  os.makedirs fs d = Ok fs' ->
  links fs' = links fs /\ cwd fs' = cwd fs /\
  forall key, nodes fs' !! key = nodes fs !! key \/
              (nodes fs !! key = None /\ nodes fs' !! key = Some Dir).
Proof.
  unfold os.makedirs. destruct (String.eqb d ""); [done|].
  destruct (os.locate fs d); [|done].
  destruct (os.makedirs_from _ _ _) as [n|] eqn:Hn; [|done].
  intros [= <-]. split; [done|]. split; [done|]. simpl.
  by eapply makedirs_from_only_dirs.
Qed.

Lemma decompress_handler_state (self : Tools) (e : exn) (fs fs' : FS)
      (r : result (list field)) :
  match e with
  | ValueError m => error_result self "decompress" "file" m
  | ArchiveError m => error_result self "decompress" "file" ("Archive error: " +:+ m)
  | OSError m => error_result self "decompress" "file" ("Failed to decompress file: " +:+ m)
  | _ => throw e
  end fs = (fs', r) -> fs' = fs.
Proof.
  destruct e; try (by intros [= <- _]); intros H; by apply ask_inv in H as [-> _].
Qed.

Lemma makedirs_ready (fs fs' : FS) (d : string) (k : list string) :
  os.makedirs fs d = Ok fs' -> os.locate fs d = Some k ->
  dirs_along (nodes fs') [] k = true.
Proof.
  unfold os.makedirs. destruct (String.eqb d ""); [done|].
  intros H Hk. rewrite Hk in H.
  destruct (os.makedirs_from _ _ _) as [n|] eqn:Hn; [|done].
  injection H as <-. by eapply makedirs_from_dirs_along.
Qed.

Lemma ensure_parent_dir_grows (path : string) (fs fs' : FS) (r : result unit) :
  _ensure_parent_dir path fs = (fs', r) ->
  links fs' = links fs /\ cwd fs' = cwd fs /\
  forall key, nodes fs' !! key = nodes fs !! key \/
              (nodes fs !! key = None /\ nodes fs' !! key = Some Dir).
Proof.
  intros H. destruct (ensure_parent_dir_nodes _ _ _ _ H) as [n E].
  split; [by rewrite E|]. split; [by rewrite E|].
  by eapply ensure_parent_dir_only_dirs.
Qed.

Lemma try_except_state {A} (body : M A) (h : exn -> M A) (fs fs' : FS) (r : result A)
      (P : FS -> Prop) :
  (forall fs1 rb, body fs = (fs1, rb) -> P fs1) ->
  (forall e fs1 fs2 r, h e fs1 = (fs2, r) -> fs2 = fs1) ->
  try_except body h fs = (fs', r) -> P fs'.
Proof.
  intros Hb Hh H. apply try_except_inv in H as [(a & H & _)|(fs1 & e & H & H')].
  - by eapply Hb.
  - apply Hh in H' as ->. by eapply Hb.
Qed.

(** X21. [decompress_file] touches only the output directory: when no
    symbolic link lies below the resolved output path, the call changes no
    link, and outside the tree of the output directory it at most creates
    directories, whatever the archive holds and whatever the outcome. *)
Theorem decompress_file_touches_only_output
  (self : Tools) (file_name output_directory : string) (base_dir : option string)
  (output_path : string) (kout : list string) (fs fs' : FS) (r : result (list field)) :
  _resolve_under_restriction self fs
    (posixpath.join (base_path_of base_dir) output_directory) = Ok output_path ->
  os.locate fs output_path = Some kout ->
  (forall key, kout `prefix_of` key -> key <> kout -> links fs !! key = None) ->
  decompress_file self file_name output_directory base_dir fs = (fs', r) ->
  links fs' = links fs /\
  forall key, ~ kout `prefix_of` key ->
    nodes fs' !! key = nodes fs !! key \/
    (nodes fs !! key = None /\ nodes fs' !! key = Some Dir).
Proof.
  intros Hout Hloc Hfree H.
  set (P := fun fs' : FS =>
              links fs' = links fs /\
              forall key, ~ kout `prefix_of` key ->
                nodes fs' !! key = nodes fs !! key \/
                (nodes fs !! key = None /\ nodes fs' !! key = Some Dir)).
  assert (HP0 : P fs) by (split; [done|by left]).
  unfold decompress_file in H.
  refine (try_except_state _ _ _ _ _ P _ _ H);
    [|intros e fs1 fs2 r0; apply decompress_handler_state].
  clear H. intros fs1 rb H.
  apply mbind_inv in H as [(fsx & file_path & Hf & H)|(e & Hf & _)];
    apply ask_inv in Hf as [-> Hf]; [|done].
  apply mbind_inv in H as [(fsx & op & Ho & H)|(e & Ho & _)];
    apply ask_inv in Ho as [-> Ho]; [|done].
  cbv beta in Ho. rewrite Hout in Ho. injection Ho as <-.
  apply mbind_inv in H as [(fsx & ex & Hex & H)|(e & Hex & _)];
    apply test_inv in Hex as [-> Hex]; [injection Hex as ->|done].
  destruct (negb (os.exists_ fs file_path)).
  { apply mbind_inv in H as [(fsx & rel & Hr & H)|(e & Hr & _)];
      apply ask_inv in Hr as [-> _]; [|done].
    by apply ask_inv in H as [-> _]. }
  apply mbind_inv in H as [(fsx & isf & Hisf & H)|(e & Hisf & _)];
    apply test_inv in Hisf as [-> Hisf]; [injection Hisf as ->|done].
  destruct (negb (os.isfile fs file_path)).
  { by apply ask_inv in H as [-> _]. }
  apply mbind_inv in H as [(fsx & isl & Hisl & H)|(e & Hisl & _)];
    apply test_inv in Hisl as [-> Hisl]; [injection Hisl as ->|done].
  destruct (os.islink fs file_path).
  { by apply ask_inv in H as [-> _]. }
  assert (Hgrow : forall fsA fsB,
             (links fsA = links fs /\ cwd fsA = cwd fs /\
              forall key, nodes fsA !! key = nodes fs !! key \/
                          (nodes fs !! key = None /\ nodes fsA !! key = Some Dir)) ->
             (links fsB = links fsA /\ cwd fsB = cwd fsA /\
              forall key, nodes fsB !! key = nodes fsA !! key \/
                          (nodes fsA !! key = None /\ nodes fsB !! key = Some Dir)) ->
             links fsB = links fs /\ cwd fsB = cwd fs /\
             forall key, nodes fsB !! key = nodes fs !! key \/
                         (nodes fs !! key = None /\ nodes fsB !! key = Some Dir)).
  { intros fsA fsB (Hl1 & Hc1 & Hn1) (Hl2 & Hc2 & Hn2).
    split; [by rewrite Hl2|]. split; [by rewrite Hc2|]. intros key.
    destruct (Hn1 key) as [E1|[E1 E1']], (Hn2 key) as [E2|[E2 E2']].
    - left. by rewrite E2.
    - right. by rewrite <- E1.
    - right. by rewrite E2.
    - congruence. }
  apply mbind_inv in H as [(fsA & [] & Hens & H)|(e & Hens & _)];
    apply ensure_parent_dir_grows in Hens as HA.
  2:{ destruct HA as (Hl & _ & Hn). split; [done|]. intros key _. apply Hn. }
  apply mbind_inv in H as [(fs0 & [] & Hmk & H)|(e & Hmk & _)];
    apply call_inv in Hmk as [[Hmk Hr]|(e' & Hmk & -> & Hr)]; try discriminate.
  2:{ destruct HA as (Hl & _ & Hn). split; [done|]. intros key _. apply Hn. }
  pose proof (Hgrow _ _ HA (makedirs_only_dirs _ _ _ Hmk)) as (Hl0 & Hc0 & Hn0).
  assert (Hready : ready output_path kout fs0).
  { split; [by rewrite (locate_same _ _ _ Hl0 Hc0)|]. split.
    - eapply makedirs_ready; [exact Hmk|].
      destruct HA as (Hl & Hc & _). by rewrite (locate_same _ _ _ Hl Hc).
    - intros key. rewrite Hl0. apply Hfree. }
  assert (Hfin : forall fsX, confined kout fs0 fsX -> P fsX).
  { intros fsX (Hl & _ & _ & Ho). split; [by rewrite Hl|].
    intros key Hkey. rewrite (Ho key Hkey). apply Hn0. }
  apply mbind_inv in H as [(fs3 & files & Harch & H)|(e & Harch & _)];
    pose proof (decompress_archive_confined _ _ _ _ _ _ _ _ Hready Harch) as Hc;
    [|by apply Hfin].
  apply mbind_inv in H as [(fsx & rel & Hr' & H)|(e & Hr' & _)];
    apply ask_inv in Hr' as [-> _]; [|by apply Hfin].
  apply ask_inv in H as [-> _]. by apply Hfin.
Qed.

Lemma decompress_file_touches_only_output_witness :
  links (decompress_file Sample.tools "tree.zip" "new/out" None Sample.unpack).1
  = links Sample.unpack /\
  forall key, ~ ["srv"; "data"; "new"; "out"] `prefix_of` key ->
    nodes (decompress_file Sample.tools "tree.zip" "new/out" None Sample.unpack).1 !! key
    = nodes Sample.unpack !! key \/
    (nodes Sample.unpack !! key = None /\
     nodes (decompress_file Sample.tools "tree.zip" "new/out" None Sample.unpack).1 !! key
     = Some Dir).
Proof.
  apply (decompress_file_touches_only_output Sample.tools "tree.zip" "new/out" None
           "/srv/data/new/out" ["srv"; "data"; "new"; "out"] Sample.unpack _
           (decompress_file Sample.tools "tree.zip" "new/out" None Sample.unpack).2).
  - by vm_compute.
  - by vm_compute.
  - intros key _ _. reflexivity.
  - apply surjective_pairing.
Defined.
